(** * Olli: the accessibility tree of a visualization

    A shallow embedding of the [Structure] module of Olli's core
    ([Structure/index.ts], in the version that computes description
    tokens): the interval binner ([axisValuesToIntervals]), the row filters
    ([filterInterval] and the string-compared equality filters), the tree
    builder ([olliVisSpecToTree], [olliVisSpecToNode]) and the description
    token generator ([nodeToDesc]).

    JavaScript numbers are IEEE 754 binary64 values; they are modelled by
    the Standard Library's [spec_float] at precision 53 and maximal exponent
    1024, so additions, subtractions and comparisons round and compare as
    the program's do.  A JavaScript string is a [string] whose characters
    stand for its code units.  A row is a finite map from field names to
    values. *)

From Stdlib Require Import ZArith List String Ascii Bool Lia SpecFloat DecimalString.
From stdpp Require Import gmap strings.
Import ListNotations.

#[local] Open Scope string_scope.
#[local] Open Scope list_scope.
#[local] Open Scope Z_scope.
#[local] Unset Default Proof Using.
#[local] Set Warnings "-register-all".

(** ** Exceptions *)

Inductive result (A : Type) : Type :=
| Ok (a : A)
| Throw (msg : string).

Arguments Ok {A} a.
Arguments Throw {A} msg.

Definition bind {A B} (r : result A) (k : A -> result B) : result B :=
  match r with
  | Ok a => k a
  | Throw msg => Throw msg
  end.

Notation "'let*' x ':=' r 'in' k" := (bind r (fun x => k))
  (at level 10, x name, r at level 100, k at level 200).

(** [array.map(f)] where the callback may throw: the first exception
    aborts the traversal. *)
Fixpoint mapM {A B} (f : A -> result B) (l : list A) : result (list B) :=
  match l with
  | [] => Ok []
  | a :: l' => let* b := f a in let* bs := mapM f l' in Ok (b :: bs)
  end.

(** [array.map((x, index) => ...)]: the callback also receives the
    position. *)
Fixpoint mapiM_from {A B} (f : A -> nat -> result B) (i : nat) (l : list A)
  : result (list B) :=
  match l with
  | [] => Ok []
  | a :: l' => let* b := f a i in let* bs := mapiM_from f (S i) l' in Ok (b :: bs)
  end.

Definition mapiM {A B} (f : A -> nat -> result B) (l : list A) : result (list B) :=
  mapiM_from f 0%nat l.

(** ** Numbers *)

Definition prec : Z := 53.
Definition emax : Z := 1024.

(** A number of the program is a [spec_float] that [valid_binary] accepts
    at this precision; integer literals and the results of the operations
    below are such.  No statement of this development needs to exclude the
    other inhabitants of the type. *)
Definition number : Type := spec_float.

Definition NaN : number := S754_nan.

(** The number denoted by an integer literal. *)
Definition num (z : Z) : number := binary_normalize prec emax z 0 false.

Definition num_add : number -> number -> number := SFadd prec emax.
Definition num_sub : number -> number -> number := SFsub prec emax.
Definition num_div : number -> number -> number := SFdiv prec emax.

(** [x === y] on numbers: [NaN] differs from everything, [-0 === +0]. *)
Definition num_eq (x y : number) : bool := SFeqb x y.

(** [x < y] on numbers: false when either side is [NaN]. *)
Definition num_lt (x y : number) : bool := SFltb x y.

(** [x >= y] on numbers: the comparison [x < y] is made and the result is
    true when it is neither true nor undefined. *)
Definition num_ge (x y : number) : bool :=
  match SFcompare x y with
  | Some Lt | None => false
  | Some _ => true
  end.

(** ** Dates *)

(** A [Date] object, by its time value: milliseconds since the epoch, or
    [NaN] for an invalid date. *)
Record Date : Type := mkDate { getTime : number }.

(** [TimeClip]: the time value of [new Date(t)] for a number [t]. *)
Definition TimeClip (t : number) : number :=
  match t with
  | S754_zero _ => S754_zero false
  | S754_finite s m e =>
      if SFltb (num 8640000000000000) (SFabs t) then NaN
      else
        let n := if 0 <=? e then Z.pos m * 2 ^ e else Z.shiftr (Z.pos m) (- e) in
        num (if s then - n else n)
  | _ => NaN
  end.

(** ** Values *)

(** [OlliValue = string | number | Date]. *)
Inductive OlliValue : Type :=
| VString (s : string)
| VNumber (x : number)
| VDate (d : Date).

(** What an expression of the program can evaluate to: an [OlliValue], or
    [undefined] (an absent property, an index out of range). *)
Definition JsValue : Type := option OlliValue.

(** [OlliDatum]: a row, an object from field names to values. *)
Abbreviation OlliDatum := (gmap string OlliValue).
Abbreviation OlliDataset := (list (gmap string OlliValue)).

(** The operations of the host language whose results depend on its
    number-to-string algorithm, its numeric-literal grammar, and the local
    time zone.  The development is parametric in them. *)
Record Builtins : Type := mkBuiltins {
  NumberToString : number -> string;   (* String(x), `${x}` *)
  StringToNumber : string -> number;   (* Number(s) *)
  DateToString : Date -> string;       (* String(d) *)
  getFullYear : Date -> number         (* d.getFullYear() *)
}.

(** [s.replaceAll(c, '')] for a one-character pattern. *)
Fixpoint removeAll (c : ascii) (s : string) : string :=
  match s with
  | EmptyString => EmptyString
  | String a s' => if Ascii.eqb a c then removeAll c s' else String a (removeAll c s')
  end.

(** [array[i]]. *)
Definition get {A} (array : list A) (i : Z) : option A :=
  if i <? 0 then None else nth_error array (Z.to_nat i).

Definition len {A} (array : list A) : Z := Z.of_nat (List.length array).

Section Operators.
Variable js : Builtins.

Definition ToNumber (v : JsValue) : number :=
  match v with
  | None => NaN
  | Some (VString s) => StringToNumber js s
  | Some (VNumber x) => x
  | Some (VDate d) => getTime d
  end.

Definition ToString (v : JsValue) : string :=
  match v with
  | None => "undefined"
  | Some (VString s) => s
  | Some (VNumber x) => NumberToString js x
  | Some (VDate d) => DateToString js d
  end.

(** [a - b]: both operands are converted to numbers. *)
Definition js_sub (a b : JsValue) : number := num_sub (ToNumber a) (ToNumber b).

(** [a + b]: a date operand is first turned into its string; if either
    operand is then a string the result is the concatenation, otherwise
    the numeric sum. *)
Definition js_add (a b : JsValue) : OlliValue :=
  match a, b with
  | Some (VString _), _ | Some (VDate _), _
  | _, Some (VString _) | _, Some (VDate _) =>
      VString (ToString a ++ ToString b)%string
  | _, _ => VNumber (num_add (ToNumber a) (ToNumber b))
  end.

(** [a === 0]. *)
Definition js_is_zero (a : JsValue) : bool :=
  match a with
  | Some (VNumber x) => num_eq x (num 0)
  | _ => false
  end.

Definition both_strings (a b : JsValue) : option (string * string) :=
  match a, b with
  | Some (VString s), Some (VString t) => Some (s, t)
  | _, _ => None
  end.

(** [a < b]: two strings are compared code unit by code unit; in every
    other case both sides are converted to numbers (a date to its time
    value). *)
Definition js_lt (a b : JsValue) : bool :=
  match both_strings a b with
  | Some (s, t) => String.ltb s t
  | None => num_lt (ToNumber a) (ToNumber b)
  end.

(** [a >= b]. *)
Definition js_ge (a b : JsValue) : bool :=
  match both_strings a b with
  | Some (s, t) => negb (String.ltb s t)
  | None => num_ge (ToNumber a) (ToNumber b)
  end.

(** [String(a) === String(b)]. *)
Definition String_eq (a b : JsValue) : bool := String.eqb (ToString a) (ToString b).

(** [new Date(v)] for a number [v]; the binner calls it on numbers only
    (the overload that parses a string is not reached). *)
Definition newDate (v : JsValue) : Date := mkDate (TimeClip (ToNumber v)).

(** ** Data filter *)

(** [filterInterval (selection, field, lowerBound, upperBound)]. *)
Definition inInterval (field : string) (lowerBound upperBound : JsValue)
    (datum : OlliDatum) : bool :=
  let value : JsValue := datum !! field in
  let value : JsValue :=
    match value with
    | Some (VDate d) =>
        let lowerBoundStr := ToString lowerBound in
        let upperBoundStr := ToString upperBound in
        if ((String.length lowerBoundStr =? 4) && (String.length upperBoundStr =? 4))%nat
        then Some (VNumber (getFullYear js d))
        else value
    | _ => value
    end in
  js_ge value lowerBound && js_lt value upperBound.

Definition filterInterval (selection : OlliDataset) (field : string)
    (lowerBound upperBound : JsValue) : OlliDataset :=
  List.filter (inInterval field lowerBound upperBound) selection.

(** [selected.filter(d => String(d[field]) === String(value))]. *)
Definition filterEquals (selection : OlliDataset) (field : string)
    (value : JsValue) : OlliDataset :=
  List.filter (fun d : OlliDatum => String_eq (d !! field) value) selection.

(** ** Interval binner *)

Definition isString (v : OlliValue) : bool :=
  match v with VString _ => true | _ => false end.

Definition isDate (v : OlliValue) : bool :=
  match v with VDate _ => true | _ => false end.

(** The result record [{values, isDate?}]. *)
Record NumericValues : Type := mkNumericValues {
  nv_values : list OlliValue;
  nv_isDate : bool
}.

Definition ensureAxisValuesNumeric (values : list OlliValue) : NumericValues :=
  if forallb isString values then
    mkNumericValues
      (map (fun s => VNumber (StringToNumber js (removeAll "," (ToString (Some s))))) values)
      false
  else if forallb isDate values then
    mkNumericValues (map (fun d => VNumber (ToNumber (Some d))) values) true
  else
    mkNumericValues values false.

Definition Interval : Type := JsValue * JsValue.

(** The reducer.  [incrementArray.push(x)] extends the accumulator, which
    is then returned. *)
Definition getEncodingValueIncrements (incrementArray : list Interval)
    (currentValue : OlliValue) (index : Z) (array : list OlliValue)
    : list Interval :=
  let reducedIndex := index - 1 in
  if (index =? 0) && js_is_zero (Some currentValue) then
    incrementArray
  else if (reducedIndex =? -1) && negb (js_is_zero (Some currentValue)) then
    let incrementDifference := js_sub (get array (index + 1)) (Some currentValue) in
    let bounds : Interval :=
      (Some (VNumber (js_sub (Some currentValue) (Some (VNumber incrementDifference)))),
       Some currentValue) in
    incrementArray ++ [bounds]
  else if index =? len array - 1 then
    let incrementDifference := js_sub (Some currentValue) (get array (index - 1)) in
    let finalIncrement := js_add (Some currentValue) (Some (VNumber incrementDifference)) in
    let incrementArray := incrementArray ++ [(get array reducedIndex, Some currentValue)] in
    let bounds : Interval := (Some currentValue, Some finalIncrement) in
    incrementArray ++ [bounds]
  else
    let bounds : Interval := (get array reducedIndex, get array (reducedIndex + 1)) in
    incrementArray ++ [bounds].

(** [array.reduce(f, init)], the callback receiving the accumulator, the
    element, its index and the whole array. *)
Fixpoint reduce_from {A B} (f : B -> A -> Z -> list A -> B) (array rest : list A)
    (index : Z) (acc : B) : B :=
  match rest with
  | [] => acc
  | x :: rest' => reduce_from f array rest' (index + 1) (f acc x index array)
  end.

Definition reduce {A B} (f : B -> A -> Z -> list A -> B) (array : list A) (init : B) : B :=
  reduce_from f array array 0 init.

Definition axisValuesToIntervals (values : list OlliValue) : list Interval :=
  let res := ensureAxisValuesNumeric values in
  let increments := reduce getEncodingValueIncrements (nv_values res) [] in
  if nv_isDate res then
    map (fun value : Interval =>
           (Some (VDate (newDate (fst value))), Some (VDate (newDate (snd value)))))
        increments
  else increments.

End Operators.

(** ** The visualization spec

    The declarations of [Types] are not part of the module; the records
    hold the properties that the builder and the token generator read. *)

Inductive GuideType : Type := discrete | continuous.

(** [axisType: 'x' | 'y']. *)
Module AxisType.
Inductive t : Type := x | y.
End AxisType.

(** The properties shared by axes and legends. *)
Record Guide : Type := mkGuide {
  g_field : string;
  g_title : option string;
  g_type : GuideType;
  g_values : list OlliValue;
  g_scaleType : option string
}.

Record Axis : Type := mkAxis {
  axisGuide :> Guide;
  axisType : AxisType.t
}.

Record Legend : Type := mkLegend {
  legendGuide :> Guide;
  channel : option string
}.

(** The optional [guide] argument of the builder: an axis or a legend. *)
Inductive GuideRef : Type :=
| GAxis (a : Axis)
| GLegend (l : Legend).

Definition guideOf (g : GuideRef) : Guide :=
  match g with
  | GAxis a => axisGuide a
  | GLegend l => legendGuide l
  end.

Record Chart : Type := mkChart {
  c_mark : option string;
  axes : list Axis;
  legends : list Legend;
  c_data : OlliDataset;
  c_title : option string;
  c_description : option string
}.

(** [charts] is a [Map]: its entries are visited in insertion order. *)
Record FacetedChart : Type := mkFacetedChart {
  facetedField : string;
  charts : list (string * Chart);
  f_data : OlliDataset;
  f_title : option string;
  f_description : option string
}.

Inductive OlliVisSpec : Type :=
| SChart (c : Chart)
| SFacetedChart (f : FacetedChart).

(** ** The tree *)

Module NodeType.
Inductive t : Type :=
| multiView | chart | xAxis | yAxis | legend | grid | filteredData | data.

Definition eqb (a b : t) : bool :=
  match a, b with
  | multiView, multiView | chart, chart | xAxis, xAxis | yAxis, yAxis
  | legend, legend | grid, grid | filteredData, filteredData | data, data => true
  | _, _ => false
  end.

Definition toString (a : t) : string :=
  match a with
  | multiView => "multiView" | chart => "chart" | xAxis => "xAxis"
  | yAxis => "yAxis" | legend => "legend" | grid => "grid"
  | filteredData => "filteredData" | data => "data"
  end.
End NodeType.

Module Token.
Inductive t : Type :=
| name | index | type | children | data | size | parent | aggregate.

Definition eqb (a b : t) : bool :=
  match a, b with
  | name, name | index, index | type, type | children, children
  | data, data | size, size | parent, parent | aggregate, aggregate => true
  | _, _ => false
  end.

Definition toString (a : t) : string :=
  match a with
  | name => "name" | index => "index" | type => "type"
  | children => "children" | data => "data" | size => "size"
  | parent => "parent" | aggregate => "aggregate"
  end.
End Token.

(** [EncodingFilterValue = string | [number | Date, number | Date]]. *)
Inductive EncodingFilterValue : Type :=
| EString (s : string)
| ERange (a b : JsValue).

(** [FilterValue = EncodingFilterValue | GridFilterValue]. *)
Inductive FilterValue : Type :=
| FEncoding (e : EncodingFilterValue)
| FGrid (ex ey : EncodingFilterValue).

Module GridIndex.
Record t : Type := mk { i : nat; j : nat }.
End GridIndex.

(** A node.  [parent] is a back-reference in the program; the only thing
    ever read through it is the parent's [type], which is what the field
    holds here.  [description] is a [Map], kept in insertion order. *)
Inductive AccessibilityTreeNode : Type := mkNode {
  type : NodeType.t;
  parent : option NodeType.t;
  selected : OlliDataset;
  filterValue : option FilterValue;
  gridIndex : option GridIndex.t;
  description : list (Token.t * (string * string));
  children : list AccessibilityTreeNode;
  tableKeys : option (list string)
}.

Record AccessibilityTree : Type := mkTree {
  root : AccessibilityTreeNode;
  fieldsUsed : list string
}.

Definition withChildren (node : AccessibilityTreeNode)
    (cs : list AccessibilityTreeNode) : AccessibilityTreeNode :=
  mkNode (type node) (parent node) (selected node) (filterValue node)
         (gridIndex node) (description node) cs (tableKeys node).

Definition withDescription (node : AccessibilityTreeNode)
    (d : list (Token.t * (string * string))) : AccessibilityTreeNode :=
  mkNode (type node) (parent node) (selected node) (filterValue node)
         (gridIndex node) d (children node) (tableKeys node).

Definition withTableKeys (node : AccessibilityTreeNode)
    (ks : list string) : AccessibilityTreeNode :=
  mkNode (type node) (parent node) (selected node) (filterValue node)
         (gridIndex node) (description node) (children node) (Some ks).

(** [map.set(k, v)]: an existing key keeps its position. *)
Fixpoint mapSet {V} (m : list (Token.t * V)) (k : Token.t) (v : V) : list (Token.t * V) :=
  match m with
  | [] => [(k, v)]
  | (k', v') :: m' => if Token.eqb k' k then (k, v) :: m' else (k', v') :: mapSet m' k v
  end.

(** [[...new Set(l)]]: the first occurrence of each string, in order. *)
Fixpoint dedupe (seen : list string) (l : list string) : list string :=
  match l with
  | [] => []
  | s :: l' =>
      if existsb (String.eqb s) seen then dedupe seen l'
      else s :: dedupe (s :: seen) l'
  end.

Definition getFieldsUsedForChart_chart (c : Chart) : list string :=
  dedupe [] (map (fun g : Guide => g_field g)
                 (map axisGuide (axes c) ++ map legendGuide (legends c))).

Definition getFieldsUsedForChart (olliVisSpec : OlliVisSpec) : list string :=
  match olliVisSpec with
  | SFacetedChart f =>
      dedupe [] (facetedField f ::
                 flat_map (fun kc => getFieldsUsedForChart_chart (snd kc)) (charts f))
  | SChart c => getFieldsUsedForChart_chart c
  end.

(** ** Description tokens *)

(** [`${n}`] for an array length or position. *)
Definition natToString (n : nat) : string := NilZero.string_of_uint (Nat.to_uint n).

(** [Math.max(a, b)] and [Math.min(a, b)] on two numbers. *)
Definition MathMax (a b : number) : number :=
  match SFcompare a b with
  | None => NaN
  | Some Lt => b
  | Some Gt => a
  | Some Eq => match a with S754_zero true => b | _ => a end
  end.

Definition MathMin (a b : number) : number :=
  match SFcompare a b with
  | None => NaN
  | Some Lt => a
  | Some Gt => b
  | Some Eq => match a with S754_zero false => b | _ => a end
  end.

(** [Math.round(a)]: the nearest integer, a tie going towards positive
    infinity; a negative number that rounds to zero gives [-0]. *)
Definition MathRound (a : number) : number :=
  match a with
  | S754_finite s m e =>
      if 0 <=? e then a
      else
        let half := 2 ^ (- e - 1) in
        if s then
          let q := (Z.pos m + half - 1) / 2 ^ (- e) in
          if q =? 0 then S754_zero true else num (- q)
        else
          let q := (Z.pos m + half) / 2 ^ (- e) in
          if q =? 0 then S754_zero false else num q
  | _ => a
  end.

(** [a || b] on optional strings: the empty string is falsy. *)
Definition truthy (s : option string) : option string :=
  match s with
  | Some "" => None
  | _ => s
  end.

Definition orElse (a b : option string) : option string :=
  match truthy a with
  | Some s => Some s
  | None => b
  end.

(** [o === s] for an optional string [o]. *)
Definition optStringIs (o : option string) (s : string) : bool :=
  match o with
  | Some t => String.eqb t s
  | None => false
  end.

(** [`${s}`] of an optional string. *)
Definition optToString (s : option string) : string :=
  match s with
  | Some s => s
  | None => "undefined"
  end.

(** The quotation mark, and a string between two of them. *)
Definition quote : string :=
  String (Ascii false true false false false true false false) EmptyString.

Definition quoted (s : string) : string := quote +:+ s +:+ quote.

(** [parts.join(sep)]. *)
Fixpoint join (sep : string) (parts : list string) : string :=
  match parts with
  | [] => ""
  | [s] => s
  | s :: rest => s +:+ sep +:+ join sep rest
  end.

(** [Array(2).fill(s)]. *)
Definition fill2 (s : string) : string * string := (s, s).

Definition typeError {A} : result A := Throw "TypeError".

Section Describe.
Variable js : Builtins.

(** [fmtValue], from [utils]: the text of a value. *)
Variable fmtValue : JsValue -> string.

(** The two tables of [Structure/Types]: the hierarchy level of a node
    type, and the token categories of a level. *)
Variable HierarchyLevel : Type.
Variable nodeTypeToHierarchyLevel : NodeType.t -> HierarchyLevel.
Variable hierarchyLevelToTokens : HierarchyLevel -> list Token.t.

Section Tokens.
Variable node : AccessibilityTreeNode.
Variable olliVisSpec : OlliVisSpec.
Variable facetValue : option string.
Variable guide : option GuideRef.
Variable idx : option nat.
Variable length : option nat.

(** The properties read from [olliVisSpec], be it a chart or a faceted
    chart ([chart = olliVisSpec as Chart]). *)
Definition spec_title : option string :=
  match olliVisSpec with
  | SChart c => c_title c
  | SFacetedChart f => f_title f
  end.

Definition spec_mark : option string :=
  match olliVisSpec with
  | SChart c => c_mark c
  | SFacetedChart _ => None
  end.

Definition spec_axes : option (list Axis) :=
  match olliVisSpec with
  | SChart c => Some (axes c)
  | SFacetedChart _ => None
  end.

Definition isContinuous (g : Guide) : bool :=
  match g_type g with continuous => true | discrete => false end.

Definition typeToString (t : GuideType) : string :=
  match t with discrete => "discrete" | continuous => "continuous" end.

Definition chartType : result string :=
  if optStringIs spec_mark "point" then
    match spec_axes with
    | Some axs =>
        if forallb (fun a : Axis => isContinuous a) axs
        then Ok "scatterplot" else Ok "dot plot"
    | None => typeError
    end
  else
    match truthy spec_mark with
    | Some m => Ok (m +:+ " chart")
    | None => Ok ""
    end.

Definition chartTitle : string :=
  match orElse spec_title (truthy facetValue) with
  | Some t => quoted t
  | None => ""
  end.

Definition guideTitle (g : Guide) : string :=
  "titled " +:+ quoted (optToString (orElse (g_title g) (Some (g_field g)))).

Definition axisScaleType (g : Guide) : string :=
  optToString (orElse (g_scaleType g) (Some (typeToString (g_type g)))) +:+ " scale".

Definition legendChannel (g : GuideRef) : string :=
  match g with
  | GLegend l =>
      match truthy (channel l) with
      | Some c => "for " +:+ c
      | None => ""
      end
  | GAxis _ => ""
  end.

Definition pluralize (count : nat) (noun : string) : string :=
  natToString count +:+ " " +:+ noun +:+ (if (count =? 1)%nat then "" else "s").

Definition facetValueStr : string :=
  match truthy facetValue with
  | Some v => v
  | None => ""
  end.

Definition filteredValues (guideFilterValues : option EncodingFilterValue) : string :=
  match guideFilterValues with
  | None | Some (EString "") => ""
  | Some (ERange a b) => join " to " [fmtValue a; fmtValue b]
  | Some (EString s) => quoted (fmtValue (Some (VString s)))
  end.

Definition filteredValuesGrid (ex ey : EncodingFilterValue) : string :=
  "in " +:+ filteredValues (Some ex) +:+ " and " +:+ filteredValues (Some ey).

Definition indexStr : string :=
  match idx, length with
  | Some index, Some length => natToString (index + 1) +:+ " of " +:+ natToString length
  | _, _ => ""
  end.

(** [datum(node.selected[0], node)]: reading a field of a missing row
    is a [TypeError]. *)
Definition datum (keys : list string) : result string :=
  let* parts :=
    mapM (fun field : string =>
            match selected node with
            | d :: _ =>
                Ok (quoted field +:+ ": " +:+ quoted (fmtValue (d !! field)))
            | [] => typeError
            end) keys in
  Ok (join ", " parts).

(** [Number(b[axis.field])]. *)
Definition fieldNumber (g : Guide) (b : OlliDatum) : number :=
  ToNumber js (b !! g_field g).

Definition isQuantitative (g : Guide) : bool :=
  optStringIs (g_scaleType g) "quantitative".

Definition averageValue (g : Guide) : string :=
  if negb (isQuantitative g) then ""
  else
    NumberToString js
      (MathRound
         (num_div (fold_left (fun a b => num_add a (fieldNumber g b)) (selected node) (num 0))
                  (num (len (selected node))))).

Definition maximumValue (g : Guide) : result string :=
  if negb (isQuantitative g) then Ok ""
  else
    match selected node with
    | d0 :: _ =>
        Ok (NumberToString js
              (fold_left (fun a b => MathMax a (fieldNumber g b)) (selected node)
                         (fieldNumber g d0)))
    | [] => typeError
    end.

Definition minimumValue (g : Guide) : result string :=
  if negb (isQuantitative g) then Ok ""
  else
    match selected node with
    | d0 :: _ =>
        Ok (NumberToString js
              (fold_left (fun a b => MathMin a (fieldNumber g b)) (selected node)
                         (fieldNumber g d0)))
    | [] => typeError
    end.

Definition notHandled {A} (token : string) : result A :=
  Throw ("Node type " +:+ NodeType.toString (type node)
         +:+ " does not have the token " +:+ token +:+ ".").

Definition nChildren : nat := List.length (children node).

(** [node.parent?.type === t]. *)
Definition parentIs (t : NodeType.t) : bool :=
  match parent node with
  | Some p => NodeType.eqb p t
  | None => false
  end.

Definition token_name : result (string * string) :=
  match type node with
  | NodeType.multiView =>
      let title := chartTitle in
      Ok ("faceted chart " +:+ title +:+ ", " +:+ natToString nChildren +:+ " views",
          "a faceted chart "
            +:+ (if (0 <? String.length title)%nat then "titled " +:+ title else title)
            +:+ " with " +:+ natToString nChildren +:+ " views")
  | NodeType.chart =>
      let title := chartTitle in
      Ok (title, if (0 <? String.length title)%nat then "titled " +:+ title else title)
  | NodeType.xAxis | NodeType.yAxis =>
      match guide with
      | Some (GAxis a) =>
          Ok (fill2 ((match axisType a with AxisType.x => "x" | AxisType.y => "y" end)
                     +:+ "-axis " +:+ guideTitle a))
      | Some (GLegend l) => Ok (fill2 ("undefined-axis " +:+ guideTitle l))
      | None => typeError
      end
  | NodeType.legend =>
      match guide with
      | Some g => Ok (fill2 ("legend " +:+ guideTitle (guideOf g)))
      | None => typeError
      end
  | NodeType.grid =>
      let* ct := chartType in Ok ("grid", "grid view of " +:+ ct)
  | _ => notHandled "name"
  end.

Definition token_index : result (string * string) :=
  match type node with
  | NodeType.chart | NodeType.filteredData => Ok (fill2 indexStr)
  | _ => notHandled "index"
  end.

Definition token_type : result (string * string) :=
  match type node with
  | NodeType.chart => let* ct := chartType in Ok (fill2 ct)
  | NodeType.xAxis | NodeType.yAxis =>
      match guide with
      | Some g =>
          Ok (axisScaleType (guideOf g), "for a " +:+ axisScaleType (guideOf g))
      | None => typeError
      end
  | NodeType.legend =>
      match guide with
      | Some g => Ok (fill2 (legendChannel g))
      | None => typeError
      end
  | NodeType.grid => Ok ("", "")
  | _ => notHandled "type"
  end.

Definition axisLabel (a : Axis) : string :=
  optToString (orElse (g_title a) (Some (g_field a))).

Definition token_children : result (string * string) :=
  match type node with
  | NodeType.chart =>
      match spec_axes with
      | Some (a0 :: rest) =>
          let first := axisLabel a0 in
          let all := map (fun a => quoted (axisLabel a)) (a0 :: rest) in
          match rest with
          | [] => Ok ("axis " +:+ first, "with axis " +:+ first)
          | _ => Ok ("axes " +:+ join ", " all, "with axes " +:+ join " and " all)
          end
      | _ => typeError
      end
  | _ => notHandled "children"
  end.

(** The [filteredData] and [data] cases follow the casts of the program:
    a [filteredData] node under a grid holds a grid filter value, any
    other one an encoding filter value, and a [data] node has its
    [tableKeys].  These are the only shapes that the builder creates.  On
    a node of another shape the program does not throw: through the
    unchecked cast it formats the filter value as if it had the other
    shape, and through the optional chaining of [datum] it returns
    [[undefined, undefined]] for a [data] node without table keys.  Such
    results are no pair of strings; the embedding, whose descriptions hold
    strings, has an error in their place.  The builder never creates such a
    node. *)
Definition token_data : result (string * string) :=
  match type node with
  | NodeType.xAxis | NodeType.yAxis | NodeType.legend =>
      match guide with
      | Some g =>
          let axis := guideOf g in
          let start := fmtValue (get (g_values axis) 0) in
          let next := fmtValue (get (g_values axis) 1) in
          let end_ := fmtValue (get (g_values axis) (len (g_values axis) - 1)) in
          let total := pluralize (List.length (g_values axis)) "value" in
          match g_type axis with
          | discrete =>
              if (List.length (g_values axis) =? 2)%nat then
                Ok ("2 values: " +:+ start +:+ ", " +:+ next,
                    "with 2 values: " +:+ quoted start +:+ " and " +:+ quoted next)
              else
                Ok (total +:+ " from " +:+ start +:+ " to " +:+ end_,
                    "with " +:+ total +:+ " starting with " +:+ quoted start
                      +:+ " and ending with " +:+ quoted end_)
          | continuous =>
              Ok ("from " +:+ start +:+ " to " +:+ end_,
                  "with values from " +:+ quoted start +:+ " to " +:+ quoted end_)
          end
      | None => typeError
      end
  | NodeType.grid => Ok ("", "")
  | NodeType.filteredData =>
      if parentIs NodeType.grid then
        match filterValue node with
        | None => Ok (fill2 "")
        | Some (FGrid ex ey) => Ok (fill2 (filteredValuesGrid ex ey))
        | Some (FEncoding _) => Throw "filter value is not a GridFilterValue"
        end
      else
        match filterValue node with
        | None => Ok (fill2 (filteredValues None))
        | Some (FEncoding e) => Ok (fill2 (filteredValues (Some e)))
        | Some (FGrid _ _) => Throw "filter value is not an EncodingFilterValue"
        end
  | NodeType.data =>
      match tableKeys node with
      | Some keys => let* s := datum keys in Ok (fill2 s)
      | None => Throw "tableKeys is undefined"
      end
  | _ => notHandled "data"
  end.

Definition token_size : result (string * string) :=
  match type node with
  | NodeType.xAxis | NodeType.yAxis | NodeType.legend | NodeType.grid
  | NodeType.filteredData => Ok (fill2 (pluralize nChildren "value"))
  | _ => notHandled "size"
  end.

Definition token_parent : result (string * string) :=
  match type node with
  | NodeType.xAxis | NodeType.yAxis | NodeType.legend | NodeType.grid
  | NodeType.filteredData | NodeType.data =>
      let fvs := facetValueStr in
      Ok (fvs, if (0 <? String.length fvs)%nat then quoted fvs else fvs)
  | _ => notHandled "parent"
  end.

Definition token_aggregate : result (string * string) :=
  match type node with
  | NodeType.xAxis | NodeType.yAxis =>
      match guide with
      | Some g =>
          let axis := guideOf g in
          if negb (isQuantitative axis) then Ok ("", "")
          else
            let avg := averageValue axis in
            let* max := maximumValue axis in
            let* min := minimumValue axis in
            Ok ("average " +:+ avg +:+ ", maximum " +:+ max +:+ ", minimum " +:+ min,
                "the average is " +:+ avg +:+ ", the maximum is " +:+ max
                  +:+ ", and the minimum is " +:+ min)
      | None => typeError
      end
  | NodeType.legend | NodeType.grid => Ok ("", "")
  | _ => notHandled "aggregate"
  end.

Definition tokenFunctions (token : Token.t) : result (string * string) :=
  match token with
  | Token.name => token_name
  | Token.index => token_index
  | Token.type => token_type
  | Token.children => token_children
  | Token.data => token_data
  | Token.size => token_size
  | Token.parent => token_parent
  | Token.aggregate => token_aggregate
  end.

(** The loop over the tokens of the node's level. *)
Fixpoint describeTokens (tokens : list Token.t)
    (description : list (Token.t * (string * string)))
    : result (list (Token.t * (string * string))) :=
  match tokens with
  | [] => Ok description
  | token :: tokens' =>
      let* d := tokenFunctions token in
      describeTokens tokens' (mapSet description token d)
  end.

(** Whatever is thrown inside the [try] is replaced by one message. *)
Definition nodeToDesc : result (list (Token.t * (string * string))) :=
  let tokens := hierarchyLevelToTokens (nodeTypeToHierarchyLevel (type node)) in
  match describeTokens tokens [] with
  | Ok description => Ok description
  | Throw _ =>
      Throw ("Node type " +:+ NodeType.toString (type node)
             +:+ " not handled in nodeToDesc")
  end.
End Tokens.
End Describe.

(** ** Tree builder *)

(** [olliVisSpecToNode] dispatches on the node type it is asked to build,
    and every recursive call names the type of the child as a literal.  The
    embedding has one function per [case] of that [switch], the ones of the
    lower levels first; the [chart] argument of each is [olliVisSpec as
    Chart].  The arguments a call site leaves out are [undefined] in the
    node and in the call of [nodeToDesc]. *)
Section Builder.
Variable js : Builtins.
Variable fmtValue : JsValue -> string.
Variable HierarchyLevel : Type.
Variable nodeTypeToHierarchyLevel : NodeType.t -> HierarchyLevel.
Variable hierarchyLevelToTokens : HierarchyLevel -> list Token.t.

(** The object literal at the head of [olliVisSpecToNode]. *)
Definition newNode (type : NodeType.t) (selected : OlliDataset)
    (parent : option NodeType.t) (filterValue : option FilterValue)
    (gridIndex : option GridIndex.t) : AccessibilityTreeNode :=
  mkNode type parent selected filterValue gridIndex [] [] None.

(** Its tail: [node.description = nodeToDesc(...); return node]. *)
Definition describeNode (node : AccessibilityTreeNode) (olliVisSpec : OlliVisSpec)
    (facetValue : option string) (guide : option GuideRef)
    (index length : option nat) : result AccessibilityTreeNode :=
  let* d := nodeToDesc js fmtValue HierarchyLevel nodeTypeToHierarchyLevel
              hierarchyLevelToTokens node olliVisSpec facetValue guide index length in
  Ok (withDescription node d).

Definition moveLast (field : string) (keys : list string) : list string :=
  List.filter (fun f => negb (String.eqb f field)) keys ++ [field].

(** [case "data"].  With a facet value and no field used at all, the key
    appended is [undefined], which reads and prints as ["undefined"]. *)
Definition olliVisSpecToNode_data (selected : OlliDataset)
    (parent : option NodeType.t) (chart : Chart) (fieldsUsed : list string)
    (facetValue : option string) (guide : option GuideRef)
    (index length : option nat) : result AccessibilityTreeNode :=
  let node := newNode NodeType.data selected parent None None in
  let tableKeys := fieldsUsed in
  let tableKeys :=
    match guide with
    | Some g => moveLast (g_field (guideOf g)) tableKeys
    | None => tableKeys
    end in
  let tableKeys :=
    match truthy facetValue with
    | Some _ =>
        match fieldsUsed with
        | facetedField :: _ => moveLast facetedField tableKeys
        | [] => tableKeys ++ ["undefined"]
        end
    | None => tableKeys
    end in
  describeNode (withTableKeys node tableKeys) (SChart chart) facetValue guide index length.

(** [case "filteredData"]. *)
Definition olliVisSpecToNode_filteredData (selected : OlliDataset)
    (parent : option NodeType.t) (chart : Chart) (fieldsUsed : list string)
    (facetValue : option string) (filterValue : option FilterValue)
    (guide : option GuideRef) (index length : option nat)
    (gridIndex : option GridIndex.t) : result AccessibilityTreeNode :=
  let node := newNode NodeType.filteredData selected parent filterValue gridIndex in
  let* cs :=
    mapiM (fun datum index =>
             olliVisSpecToNode_data [datum] (Some NodeType.filteredData) chart fieldsUsed
               facetValue guide (Some index) (Some (List.length selected)))
          selected in
  describeNode (withChildren node cs) (SChart chart) facetValue guide index length.

(** The children of an axis or a legend whose guide is [discrete]. *)
Definition discreteChildren (type : NodeType.t) (selected : OlliDataset)
    (chart : Chart) (fieldsUsed : list string) (facetValue : option string)
    (guide : GuideRef) : result (list AccessibilityTreeNode) :=
  let g := guideOf guide in
  mapiM (fun value idx =>
           olliVisSpecToNode_filteredData
             (filterEquals js selected (g_field g) (Some value))
             (Some type) chart fieldsUsed facetValue
             (Some (FEncoding (EString (ToString js (Some value)))))
             (Some guide) (Some idx) (Some (List.length (g_values g))) None)
        (g_values g).

(** [case "xAxis"] and [case "yAxis"]. *)
Definition olliVisSpecToNode_axis (type : NodeType.t) (selected : OlliDataset)
    (parent : option NodeType.t) (chart : Chart) (fieldsUsed : list string)
    (facetValue : option string) (axis : Axis) : result AccessibilityTreeNode :=
  let node := newNode type selected parent None None in
  let* cs :=
    match g_type axis with
    | discrete =>
        discreteChildren type selected chart fieldsUsed facetValue (GAxis axis)
    | continuous =>
        let intervals := axisValuesToIntervals js (g_values axis) in
        mapiM (fun (ab : Interval) idx =>
                 let (a, b) := ab in
                 olliVisSpecToNode_filteredData
                   (filterInterval js selected (g_field axis) a b)
                   (Some type) chart fieldsUsed facetValue
                   (Some (FEncoding (ERange a b)))
                   (Some (GAxis axis)) (Some idx) (Some (List.length intervals)) None)
              intervals
    end in
  describeNode (withChildren node cs) (SChart chart) facetValue (Some (GAxis axis)) None None.

(** [case "legend"]. *)
Definition olliVisSpecToNode_legend (selected : OlliDataset)
    (parent : option NodeType.t) (chart : Chart) (fieldsUsed : list string)
    (facetValue : option string) (legend : Legend) : result AccessibilityTreeNode :=
  let node := newNode NodeType.legend selected parent None None in
  let* cs :=
    match g_type legend with
    | discrete =>
        discreteChildren NodeType.legend selected chart fieldsUsed facetValue (GLegend legend)
    | continuous => Ok []
    end in
  describeNode (withChildren node cs) (SChart chart) facetValue (Some (GLegend legend)) None None.

Definition isX (axis : Axis) : bool :=
  match axisType axis with AxisType.x => true | AxisType.y => false end.

Definition isY (axis : Axis) : bool :=
  match axisType axis with AxisType.y => true | AxisType.x => false end.

(** [cartesian(xs, ys)]: every pair, the first component varying slowest. *)
Definition cartesian {A B} (xs : list A) (ys : list B) : list (A * B) :=
  flat_map (fun d => map (fun e => (d, e)) ys) xs.

(** [case "grid"]. *)
Definition olliVisSpecToNode_grid (selected : OlliDataset)
    (parent : option NodeType.t) (chart : Chart) (fieldsUsed : list string)
    (facetValue : option string) : result AccessibilityTreeNode :=
  let node := newNode NodeType.grid selected parent None None in
  match List.find isX (axes chart), List.find isY (axes chart) with
  | Some xAxis, Some yAxis =>
      let xIntervals := axisValuesToIntervals js (g_values xAxis) in
      let yIntervals := axisValuesToIntervals js (g_values yAxis) in
      let* cs :=
        mapiM (fun (cell : Interval * Interval) index =>
                 let '((x1, x2), (y1, y2)) := cell in
                 olliVisSpecToNode_filteredData
                   (filterInterval js
                      (filterInterval js selected (g_field xAxis) x1 x2)
                      (g_field yAxis) y1 y2)
                   (Some NodeType.grid) chart fieldsUsed facetValue
                   (Some (FGrid (ERange x1 x2) (ERange y1 y2)))
                   None None None
                   (Some (GridIndex.mk (index / List.length yIntervals)%nat
                                       (index mod List.length yIntervals)%nat)))
              (cartesian xIntervals yIntervals) in
      describeNode (withChildren node cs) (SChart chart) facetValue None None None
  | _, _ => typeError
  end.

Definition axisNodeType (axis : Axis) : NodeType.t :=
  match axisType axis with
  | AxisType.x => NodeType.xAxis
  | AxisType.y => NodeType.yAxis
  end.

(** The axes a chart shows: a bar chart hides its continuous axes. *)
Definition filteredAxes (chart : Chart) : list Axis :=
  List.filter (fun axis : Axis =>
                 negb (optStringIs (c_mark chart) "bar" && isContinuous axis))
              (axes chart).

Definition hasGrid (chart : Chart) : bool :=
  optStringIs (c_mark chart) "point"
  && (List.length (filteredAxes chart) =? 2)%nat
  && forallb (fun axis : Axis => isContinuous axis) (filteredAxes chart).

(** [case "chart"]. *)
Definition olliVisSpecToNode_chart (selected : OlliDataset)
    (parent : option NodeType.t) (chart : Chart) (fieldsUsed : list string)
    (facetValue : option string) (index length : option nat)
    : result AccessibilityTreeNode :=
  let node := newNode NodeType.chart selected parent None None in
  let* axisNodes :=
    mapM (fun axis =>
            olliVisSpecToNode_axis (axisNodeType axis) selected (Some NodeType.chart)
              chart fieldsUsed facetValue axis)
         (filteredAxes chart) in
  let* legendNodes :=
    mapM (fun legend =>
            olliVisSpecToNode_legend selected (Some NodeType.chart) chart fieldsUsed
              facetValue legend)
         (legends chart) in
  let* gridNodes :=
    if hasGrid chart then
      let* g := olliVisSpecToNode_grid selected (Some NodeType.chart) chart fieldsUsed
                  facetValue in
      Ok [g]
    else Ok [] in
  describeNode (withChildren node (axisNodes ++ legendNodes ++ gridNodes))
    (SChart chart) facetValue None index length.

(** [case "multiView"]. *)
Definition olliVisSpecToNode_multiView (selected : OlliDataset)
    (parent : option NodeType.t) (facetedChart : FacetedChart)
    (fieldsUsed : list string) : result AccessibilityTreeNode :=
  let node := newNode NodeType.multiView selected parent None None in
  let* cs :=
    mapiM (fun (entry : string * Chart) index =>
             let (facetValue, chart) := entry in
             olliVisSpecToNode_chart
               (List.filter
                  (fun datum : OlliDatum =>
                     String.eqb (ToString js (datum !! facetedField facetedChart)) facetValue)
                  selected)
               (Some NodeType.multiView) chart fieldsUsed (Some facetValue)
               (Some index) (Some (List.length (charts facetedChart))))
          (charts facetedChart) in
  describeNode (withChildren node cs) (SFacetedChart facetedChart) None None None None.

Definition olliVisSpecToTree (olliVisSpec : OlliVisSpec) : result AccessibilityTree :=
  let fieldsUsed := getFieldsUsedForChart olliVisSpec in
  match olliVisSpec with
  | SFacetedChart f =>
      let* root := olliVisSpecToNode_multiView (f_data f) None f fieldsUsed in
      Ok (mkTree root fieldsUsed)
  | SChart c =>
      let* root := olliVisSpecToNode_chart (c_data c) None c fieldsUsed None None None in
      Ok (mkTree root fieldsUsed)
  end.

End Builder.

(** * Vocabulary of the properties *)

(** [subnode m n]: [m] is [n] or one of its descendants. *)
Inductive subnode : AccessibilityTreeNode -> AccessibilityTreeNode -> Prop :=
| subnode_here (n : AccessibilityTreeNode) : subnode n n
| subnode_child (m c n : AccessibilityTreeNode) :
    In c (children n) -> subnode m c -> subnode m n.

(** [P] holds of a node and of all its descendants. *)
Inductive Forall_tree (P : AccessibilityTreeNode -> Prop) : AccessibilityTreeNode -> Prop :=
| Forall_tree_node (n : AccessibilityTreeNode) :
    P n -> Forall (Forall_tree P) (children n) -> Forall_tree P n.

(** The rows selected by the children of a node, in child order. *)
Definition childrenSelected (n : AccessibilityTreeNode) : OlliDataset :=
  concat (map selected (children n)).

(** What the builder guarantees of the rows of a node: a [filteredData]
    node selects the rows of its children, in order; a [data] node is a leaf
    with one row; and a child never selects but a sub-sequence of the rows
    of its parent. *)
Definition selectedInvariant (n : AccessibilityTreeNode) : Prop :=
  (type n = NodeType.filteredData -> selected n = childrenSelected n)
  /\ (type n = NodeType.data -> children n = [] /\ exists r, selected n = [r])
  /\ Forall (fun c => sublist (selected c) (selected n)) (children n).

(** The rows of a facet: those whose facet field renders as the key. *)
Definition facetRowsOf (js : Builtins) (f : FacetedChart) (key : string) : OlliDataset :=
  List.filter
    (fun datum : OlliDatum => String.eqb (ToString js (datum !! facetedField f)) key)
    (f_data f).

(** ** The filters, as the specification words them *)

(** [a <= b]. *)
Definition js_le (js : Builtins) (a b : JsValue) : bool :=
  match both_strings a b with
  | Some (s, t) => String.leb s t
  | None => SFleb (ToNumber js a) (ToNumber js b)
  end.

(** [v] lies in the half-open range from [lo] to [hi]. *)
Definition halfOpen (js : Builtins) (lo hi v : JsValue) : Prop :=
  js_le js lo v = true /\ js_lt js v hi = true.

(** A bound that renders as a string of four characters, as a year does. *)
Definition rendersAsYear (js : Builtins) (bound : JsValue) : bool :=
  (String.length (ToString js bound) =? 4)%nat.

(** The rows a range filter keeps: the value of the field lies in the
    range, a date being compared by its year when both bounds render as
    years. *)
Definition withinRange (js : Builtins) (lo hi v : JsValue) : Prop :=
  match v with
  | Some (VDate d) =>
      if rendersAsYear js lo && rendersAsYear js hi
      then halfOpen js lo hi (Some (VNumber (getFullYear js d)))
      else halfOpen js lo hi v
  | _ => halfOpen js lo hi v
  end.

(** ** The buckets, as the specification words them *)

Section Buckets.
Variable js : Builtins.

(** The buckets that end at the ticks after [prev], and the one above
    the last tick. *)
Fixpoint interiorBuckets (prev : OlliValue) (rest : list OlliValue) : list Interval :=
  match rest with
  | [] => []
  | cur :: rest' =>
      match rest' with
      | [] =>
          [(Some prev, Some cur);
           (Some cur,
            Some (js_add js (Some cur) (Some (VNumber (js_sub js (Some cur) (Some prev))))))]
      | _ => (Some prev, Some cur) :: interiorBuckets cur rest'
      end
  end.

(** The bucket below a first tick that is not zero. *)
Definition bucketBelow (tick0 : OlliValue) (rest : list OlliValue) : list Interval :=
  if js_is_zero (Some tick0) then []
  else
    [(Some (VNumber (js_sub js (Some tick0)
                       (Some (VNumber (js_sub js (get rest 0) (Some tick0)))))),
      Some tick0)].

Definition buckets (ticks : list OlliValue) : list Interval :=
  match ticks with
  | [] => []
  | tick0 :: rest => bucketBelow tick0 rest ++ interiorBuckets tick0 rest
  end.

End Buckets.

(** Consecutive intervals share a boundary. *)
Fixpoint chained (intervals : list Interval) : Prop :=
  match intervals with
  | ab :: (cd :: _) as rest => snd ab = fst cd /\ chained rest
  | _ => True
  end.

(** A tick that is a number other than [NaN]. *)
Definition properTick (t : OlliValue) : Prop :=
  exists a, t = VNumber a /\ a <> NaN.

(** The upper bound of every interval but the last is a proper tick. *)
Fixpoint innerBounds (intervals : list Interval) : Prop :=
  match intervals with
  | ab :: (_ :: _) as rest => (exists t, snd ab = Some t /\ properTick t) /\ innerBounds rest
  | _ => True
  end.

(** The lowest and the highest bound of a list of intervals. *)
Definition lowest (intervals : list Interval) : JsValue :=
  match intervals with
  | ab :: _ => fst ab
  | [] => None
  end.

Definition highest (intervals : list Interval) : JsValue :=
  snd (List.last intervals (None, None)).

(** ** The token tables *)

(** [handles t token]: the function of [token] in [nodeToDesc] has a
    [case] for the node type [t]. *)
Definition handles (t : NodeType.t) (token : Token.t) : bool :=
  match token, t with
  | Token.name, (NodeType.multiView | NodeType.chart | NodeType.xAxis
                 | NodeType.yAxis | NodeType.legend | NodeType.grid) => true
  | Token.index, (NodeType.chart | NodeType.filteredData) => true
  | Token.type, (NodeType.chart | NodeType.xAxis | NodeType.yAxis
                 | NodeType.legend | NodeType.grid) => true
  | Token.children, NodeType.chart => true
  | Token.data, (NodeType.xAxis | NodeType.yAxis | NodeType.legend
                 | NodeType.grid | NodeType.filteredData | NodeType.data) => true
  | Token.size, (NodeType.xAxis | NodeType.yAxis | NodeType.legend
                 | NodeType.grid | NodeType.filteredData) => true
  | Token.parent, (NodeType.xAxis | NodeType.yAxis | NodeType.legend
                   | NodeType.grid | NodeType.filteredData | NodeType.data) => true
  | Token.aggregate, (NodeType.xAxis | NodeType.yAxis | NodeType.legend
                      | NodeType.grid) => true
  | _, _ => false
  end.

(** The tables of [Structure/Types] give a node type no token that its
    function does not handle. *)
Definition tableOk (HierarchyLevel : Type)
    (nodeTypeToHierarchyLevel : NodeType.t -> HierarchyLevel)
    (hierarchyLevelToTokens : HierarchyLevel -> list Token.t) : Prop :=
  forall t : NodeType.t,
    forallb (handles t) (hierarchyLevelToTokens (nodeTypeToHierarchyLevel t)) = true.

(** * An instance for the examples

    The theorems below hold for every choice of the host operations, of
    [fmtValue] and of the token tables.  The examples run the builder with
    the following ones. *)
Module Sample.

Definition ZToString (z : Z) : string := NilZero.string_of_int (Z.to_int z).

Fixpoint dropZeros (s : string) : string :=
  match s with
  | String "0"%char s' => dropZeros s'
  | _ => s
  end.

Fixpoint padLeft (n : nat) (s : string) : string :=
  match n with
  | O => s
  | S n' => String "0"%char (padLeft n' s)
  end.

(** The digits after the point of [f / 2 ^ k], written out in full. *)
Definition fraction (f : Z) (k : Z) : string :=
  let digits := ZToString (f * 5 ^ k) in
  let padded := padLeft (Z.to_nat k - String.length digits) digits in
  String.rev (dropZeros (String.rev padded)).

(** Integers print as the host prints them below [10 ^ 21]; a fraction
    prints with all the digits of its binary value. *)
Definition NumberToString (a : number) : string :=
  match a with
  | S754_nan => "NaN"
  | S754_infinity false => "Infinity"
  | S754_infinity true => "-Infinity"
  | S754_zero _ => "0"
  | S754_finite s m e =>
      let sign := if s then "-" else EmptyString in
      if 0 <=? e then sign +:+ ZToString (Z.pos m * 2 ^ e)
      else
        let k := - e in
        let ip := Z.pos m / 2 ^ k in
        let fp := Z.pos m mod 2 ^ k in
        if fp =? 0 then sign +:+ ZToString ip
        else sign +:+ ZToString ip +:+ "." +:+ fraction fp k
  end.

Definition digitValue (c : ascii) : option Z :=
  let n := Z.of_nat (nat_of_ascii c) in
  if (48 <=? n) && (n <=? 57) then Some (n - 48) else None.

Fixpoint readDigits (acc : Z) (s : string) : option Z :=
  match s with
  | EmptyString => Some acc
  | String c s' =>
      match digitValue c with
      | Some d => readDigits (10 * acc + d) s'
      | None => None
      end
  end.

(** Decimal integer literals are read; the empty string is [0]; any
    other string is [NaN]. *)
Definition StringToNumber (s : string) : number :=
  match s with
  | EmptyString => num 0
  | String "-"%char (String c s') =>
      match readDigits 0 (String c s') with
      | Some n => if n =? 0 then S754_zero true else num (- n)
      | None => NaN
      end
  | _ =>
      match readDigits 0 s with
      | Some n => num n
      | None => NaN
      end
  end.

(** The integer part of a finite number, rounded down. *)
Definition floorZ (a : number) : option Z :=
  match a with
  | S754_zero _ => Some 0
  | S754_finite s m e =>
      let n := if s then Z.neg m else Z.pos m in
      Some (if 0 <=? e then n * 2 ^ e else n / 2 ^ (- e))
  | _ => None
  end.

(** The year of a day count since the epoch, in the Gregorian calendar. *)
Definition yearOfDays (days : Z) : Z :=
  let z := days + 719468 in
  let era := z / 146097 in
  let doe := z - era * 146097 in
  let yoe := (doe - doe / 1460 + doe / 36524 - doe / 146096) / 365 in
  let doy := doe - (365 * yoe + yoe / 4 - yoe / 100) in
  let mp := (5 * doy + 2) / 153 in
  yoe + era * 400 + (if mp <? 10 then 0 else 1).

(** The year in the UTC time zone. *)
Definition getFullYear (d : Date) : number :=
  match floorZ (getTime d) with
  | Some ms => num (yearOfDays (ms / 86400000))
  | None => NaN
  end.

Definition DateToString (d : Date) : string :=
  "Date(" +:+ NumberToString (getTime d) +:+ ")".

Definition js : Builtins :=
  mkBuiltins NumberToString StringToNumber DateToString getFullYear.

Definition fmtValue (v : JsValue) : string := ToString js v.

(** Token tables in which every level has the tokens that apply to all
    of its node types. *)
Inductive HierarchyLevel : Type := root | facet | axis | section | datapoint.

Definition nodeTypeToHierarchyLevel (t : NodeType.t) : HierarchyLevel :=
  match t with
  | NodeType.multiView => root
  | NodeType.chart => facet
  | NodeType.xAxis | NodeType.yAxis | NodeType.legend | NodeType.grid => axis
  | NodeType.filteredData => section
  | NodeType.data => datapoint
  end.

Definition hierarchyLevelToTokens (l : HierarchyLevel) : list Token.t :=
  match l with
  | root => [Token.name]
  | facet => [Token.index; Token.type; Token.name; Token.children]
  | axis => [Token.name; Token.type; Token.data; Token.size; Token.parent; Token.aggregate]
  | section => [Token.data; Token.index; Token.size; Token.parent]
  | datapoint => [Token.data; Token.parent]
  end.

Definition buildTree : OlliVisSpec -> result AccessibilityTree :=
  olliVisSpecToTree js fmtValue HierarchyLevel nodeTypeToHierarchyLevel
    hierarchyLevelToTokens.

(** Literals. *)
Definition int (z : Z) : OlliValue := VNumber (num z).
Definition str (s : string) : OlliValue := VString s.
Definition date (ms : Z) : OlliValue := VDate (mkDate (num ms)).

Definition range (a b : Z) : Interval := (Some (int a), Some (int b)).

Definition row1 (f : string) (v : OlliValue) : OlliDatum := <[f := v]> ∅.
Definition row2 (f : string) (v : OlliValue) (g : string) (w : OlliValue) : OlliDatum :=
  <[f := v]> (<[g := w]> ∅).

End Sample.

(** ** Example charts *)

(** A bar chart with two discrete axes over one row. *)
Definition twoAxesChart : Chart :=
  mkChart (Some "bar")
    [mkAxis (mkGuide "a" (Some "A") discrete [Sample.str "u"] None) AxisType.x;
     mkAxis (mkGuide "b" None discrete [Sample.str "v"] None) AxisType.y]
    []
    [Sample.row2 "a" (Sample.str "u") "b" (Sample.str "v")]
    (Some "Two axes") None.

(** A line chart whose only axis is continuous, with the single tick [5]. *)
Definition singleTickAxis : Axis :=
  mkAxis (mkGuide "a" None continuous [Sample.int 5] None) AxisType.x.

Definition singleTickChart : Chart :=
  mkChart (Some "line") [singleTickAxis] []
    [Sample.row1 "a" (Sample.int 3); Sample.row1 "a" (Sample.int 5);
     Sample.row1 "a" (Sample.int 7)]
    None None.

(** A line chart with ticks [10, 20, 30] over one row whose value, [45],
    lies above the last bucket. *)
Definition threeTickAxis : Axis :=
  mkAxis (mkGuide "a" None continuous [Sample.int 10; Sample.int 20; Sample.int 30] None) AxisType.x.

Definition outOfRangeChart : Chart :=
  mkChart (Some "line") [threeTickAxis] [] [Sample.row1 "a" (Sample.int 45)] None None.

(** A scatterplot: two continuous axes, hence a grid. *)
Definition scatterX : Axis :=
  mkAxis (mkGuide "a" (Some "A") continuous
            [Sample.int 0; Sample.int 10; Sample.int 20] None) AxisType.x.

Definition scatterY : Axis :=
  mkAxis (mkGuide "b" (Some "B") continuous
            [Sample.int 0; Sample.int 5; Sample.int 10; Sample.int 15] None) AxisType.y.

Definition scatterChart : Chart :=
  mkChart (Some "point") [scatterX; scatterY] []
    [Sample.row2 "a" (Sample.int 1) "b" (Sample.int 2);
     Sample.row2 "a" (Sample.int 12) "b" (Sample.int 7);
     Sample.row2 "a" (Sample.int 3) "b" (Sample.int 4);
     Sample.row2 "a" (Sample.int 15) "b" (Sample.int 13)]
    (Some "Scatter") None.

(** A legend of each kind, and the rows of the example of the
    specification. *)
Definition discreteLegend : Legend :=
  mkLegend (mkGuide "f" (Some "F") discrete [Sample.str "A"; Sample.str "B"] None)
           (Some "color").

Definition continuousLegend : Legend :=
  mkLegend (mkGuide "f" None continuous [Sample.int 0; Sample.int 10] None) None.

Definition legendRows : OlliDataset :=
  [Sample.row1 "f" (Sample.str "A"); Sample.row1 "f" (Sample.str "B");
   Sample.row1 "f" (Sample.str "A")].

Definition legendChart : Chart :=
  mkChart (Some "line") [] [discreteLegend; continuousLegend] legendRows None None.

(** Axes whose ticks are neither all numbers nor all dates: strings that
    are not numerals, and a mix of a string and a number. *)
Definition wordTicksAxis : Axis :=
  mkAxis (mkGuide "a" None continuous
            [Sample.str "low"; Sample.str "mid"; Sample.str "high"] None) AxisType.x.

Definition mixedTicksAxis : Axis :=
  mkAxis (mkGuide "a" None continuous [Sample.str "low"; Sample.int 5] None) AxisType.y.

Definition oddTicksChart : Chart :=
  mkChart (Some "line") [wordTicksAxis; mixedTicksAxis] []
    [Sample.row1 "a" (Sample.int 3); Sample.row1 "a" (Sample.int 7)] None None.

(** A quantitative axis, a chart that shows it over no row, and a faceted
    chart one of whose facets matches no row. *)
Definition quantitativeAxis : Axis :=
  mkAxis (mkGuide "a" None continuous [Sample.int 0; Sample.int 10]
            (Some "quantitative")) AxisType.y.

Definition emptyChart : Chart :=
  mkChart (Some "line") [quantitativeAxis] [] [] None None.

Definition quantitativeChart (rows : OlliDataset) : Chart :=
  mkChart (Some "line") [quantitativeAxis] [] rows None None.

Definition facetRows : OlliDataset :=
  [Sample.row2 "a" (Sample.int 3) "k" (Sample.str "north");
   Sample.row2 "a" (Sample.int 7) "k" (Sample.str "north")].

Definition facetedExample : FacetedChart :=
  mkFacetedChart "k"
    [("north", quantitativeChart facetRows); ("south", quantitativeChart facetRows)]
    facetRows None None.

(** ** Vocabulary of the further properties *)

(** The ticks as the binner reads them: strings as numbers, dates as time
    values, anything else unchanged. *)
Definition normalizedTicks (js : Builtins) (values : list OlliValue) : list OlliValue :=
  nv_values (ensureAxisValuesNumeric js values).

Definition isNumber (v : OlliValue) : bool :=
  match v with VNumber _ => true | _ => false end.

(** Both bounds of an interval are numbers, or both are dates. *)
Definition numberBounds (ab : Interval) : Prop :=
  exists a b : number, ab = (Some (VNumber a), Some (VNumber b)).

Definition dateBounds (ab : Interval) : Prop :=
  exists a b : Date, ab = (Some (VDate a), Some (VDate b)).

(** An axis whose second interval has bounds of three and four
    characters, and a row whose date is 999 milliseconds after the epoch. *)
Definition yearEdgeAxis : Axis :=
  mkAxis (mkGuide "a" None continuous
            [Sample.int 999; Sample.int 1000; Sample.int 2000] None) AxisType.x.

Definition yearEdgeRow : OlliDatum := Sample.row1 "a" (Sample.date 999).

Definition yearEdgeChart : Chart :=
  mkChart (Some "line") [yearEdgeAxis] [] [yearEdgeRow] None None.

(** A point chart whose two continuous axes are both horizontal, and a
    chart that has a legend and no axis. *)
Definition twoXChart : Chart :=
  mkChart (Some "point") [scatterX; scatterX] []
    [Sample.row2 "a" (Sample.int 1) "b" (Sample.int 2)] None None.

Definition legendOnlyChart : Chart :=
  mkChart (Some "arc") [] [discreteLegend] legendRows None None.

(** A bar chart with a continuous and a discrete axis. *)
Definition barChart : Chart :=
  mkChart (Some "bar")
    [scatterX; mkAxis (mkGuide "b" None discrete [Sample.str "u"; Sample.str "v"] None)
                 AxisType.y]
    [discreteLegend]
    [Sample.row2 "a" (Sample.int 1) "b" (Sample.str "u")] None None.

(** The node types that the [case] of a node type gives to its children. *)
Definition childOf (p c : NodeType.t) : bool :=
  match p, c with
  | NodeType.multiView, NodeType.chart => true
  | NodeType.chart, (NodeType.xAxis | NodeType.yAxis | NodeType.legend | NodeType.grid) => true
  | (NodeType.xAxis | NodeType.yAxis | NodeType.legend | NodeType.grid),
    NodeType.filteredData => true
  | NodeType.filteredData, NodeType.data => true
  | _, _ => false
  end.

(** The optional properties of a node go with its type and the type of
    its parent: only [data] nodes have table keys; only [filteredData] nodes
    have a filter value, a pair of ranges with a grid index under a grid, a
    single value or range without grid index elsewhere; and every child
    records the type of its parent, which is one that may have such a
    child. *)
Definition wellShaped (n : AccessibilityTreeNode) : Prop :=
  Forall (fun c => parent c = Some (type n) /\ childOf (type n) (type c) = true)
         (children n)
  /\ (tableKeys n <> None <-> type n = NodeType.data)
  /\ match type n with
     | NodeType.filteredData =>
         match parent n with
         | Some NodeType.grid =>
             (exists x1 x2 y1 y2,
                 filterValue n = Some (FGrid (ERange x1 x2) (ERange y1 y2)))
             /\ gridIndex n <> None
         | _ => (exists e, filterValue n = Some (FEncoding e)) /\ gridIndex n = None
         end
     | _ => filterValue n = None /\ gridIndex n = None
     end.

(** The table keys of a [data] node are the fields [fields] in some order,
    ending, where [lastField] is given, with that field. *)
Definition keysOrdered (fields : list string) (lastField : option string)
    (n : AccessibilityTreeNode) : Prop :=
  match tableKeys n with
  | Some keys =>
      Permutation keys fields
      /\ match lastField with
         | Some f => exists init, keys = init ++ [f]
         | None => True
         end
  | None => True
  end.

(** Every key of the facets is a non-empty string. *)
Definition facetKeysNonEmpty (f : FacetedChart) : Prop :=
  Forall (fun entry : string * Chart => fst entry <> "") (charts f).

(** A chart with a discrete axis and a discrete legend, and a faceted chart
    that shows it for two facets. *)
Definition regionRows : OlliDataset :=
  [Sample.row2 "k" (Sample.str "north") "b" (Sample.str "u");
   Sample.row2 "k" (Sample.str "south") "b" (Sample.str "v");
   Sample.row2 "k" (Sample.str "north") "b" (Sample.str "v")].

Definition regionChart : Chart :=
  mkChart (Some "bar")
    [mkAxis (mkGuide "b" None discrete [Sample.str "u"; Sample.str "v"] None) AxisType.x]
    [mkLegend (mkGuide "k" None discrete [Sample.str "north"; Sample.str "south"] None)
       (Some "color")]
    regionRows None None.

Definition facetedBars : FacetedChart :=
  mkFacetedChart "k" [("north", regionChart); ("south", regionChart)] regionRows
    (Some "Regions") None.

(** What a case of the builder returns: a well-shaped tree whose root
    has the type and the parent asked for. *)
Definition shaped (ty : NodeType.t) (par : option NodeType.t)
    (n : AccessibilityTreeNode) : Prop :=
  Forall_tree wellShaped n /\ type n = ty /\ parent n = par.

(** The guides that the cases of a chart hand down to its rows. *)
Definition guideOfChart (chart : Chart) (guide : option GuideRef) : Prop :=
  match guide with
  | None => True
  | Some (GAxis a) => In a (axes chart)
  | Some (GLegend l) => In l (legends chart)
  end.

(** [P] holds of the [data] nodes built for a chart, fields, a facet value
    and a guide. *)
Definition dataNodes (js : Builtins) (fmtValue : JsValue -> string)
    (HierarchyLevel : Type) (nodeTypeToHierarchyLevel : NodeType.t -> HierarchyLevel)
    (hierarchyLevelToTokens : HierarchyLevel -> list Token.t)
    (P : AccessibilityTreeNode -> Prop)
    (chart : Chart) (fu : list string) (fv : option string)
    (guide : option GuideRef) : Prop :=
  forall sel par index length n,
    olliVisSpecToNode_data js fmtValue HierarchyLevel nodeTypeToHierarchyLevel
      hierarchyLevelToTokens sel par chart fu fv guide index length = Ok n -> P n.

(** The node reached from [n] by taking, in turn, the children at the
    positions of [path]. *)
Fixpoint descendant (path : list nat) (n : AccessibilityTreeNode)
    : option AccessibilityTreeNode :=
  match path with
  | [] => Some n
  | k :: path' =>
      match nth_error (children n) k with
      | Some c => descendant path' c
      | None => None
      end
  end.

(** The axis of [regionChart]. *)
Definition regionAxis : Axis :=
  mkAxis (mkGuide "b" None discrete [Sample.str "u"; Sample.str "v"] None) AxisType.x.

(** The description of a node has one entry for each token of the level of
    the node, and no other; the function of each of these tokens has a
    [case] for the type of the node; and the entry for the size, where
    there is one, counts the children of the node. *)
Definition describedNode (HierarchyLevel : Type)
    (nodeTypeToHierarchyLevel : NodeType.t -> HierarchyLevel)
    (hierarchyLevelToTokens : HierarchyLevel -> list Token.t)
    (n : AccessibilityTreeNode) : Prop :=
  List.NoDup (map fst (description n))
  /\ (forall token,
         In token (map fst (description n))
         <-> In token (hierarchyLevelToTokens (nodeTypeToHierarchyLevel (type n))))
  /\ (forall token,
         In token (hierarchyLevelToTokens (nodeTypeToHierarchyLevel (type n))) ->
         handles (type n) token = true)
  /\ (In Token.size (hierarchyLevelToTokens (nodeTypeToHierarchyLevel (type n))) ->
      In (Token.size, fill2 (pluralize (List.length (children n)) "value"))
         (description n)).

(** Every upper bound but the last one satisfies [P]. *)
Fixpoint innerAll (P : JsValue -> Prop) (intervals : list Interval) : Prop :=
  match intervals with
  | ab :: (_ :: _) as rest => P (snd ab) /\ innerAll P rest
  | _ => True
  end.

(** Every tick stands for a number: read as the binner reads it (a string
    as the number it parses to, a date as its time value), and, when the
    ticks are dates, turned into the date that bounds an interval, no tick
    is [NaN]. *)
Definition soundTicks (js : Builtins) (values : list OlliValue) : Prop :=
  Forall (fun t : OlliValue =>
            (if nv_isDate (ensureAxisValuesNumeric js values)
             then TimeClip (ToNumber js (Some t))
             else ToNumber js (Some t)) <> NaN)
         (normalizedTicks js values).

(** A line chart whose ticks are strings with commas, over a row between
    the second and the third tick; and one whose ticks are not sorted, over
    a row that lies above the upper bound of the last interval. *)
Definition commaTicksAxis : Axis :=
  mkAxis (mkGuide "a" None continuous
            [Sample.str "1,000"; Sample.str "2,000"; Sample.str "3,000"] None) AxisType.x.

Definition commaTicksChart : Chart :=
  mkChart (Some "line") [commaTicksAxis] [] [Sample.row1 "a" (Sample.int 2500)] None None.

Definition unsortedTicksAxis : Axis :=
  mkAxis (mkGuide "a" None continuous [Sample.int 10; Sample.int 30; Sample.int 20] None)
         AxisType.x.

Definition unsortedTicksChart : Chart :=
  mkChart (Some "line") [unsortedTicksAxis] [] [Sample.row1 "a" (Sample.int 25)] None None.

(** * Properties *)

(** ** The interval binner on the two examples of the specification *)

(** C3: the ticks [10, 20, 30] give the four intervals [0, 10], [10, 20],
    [20, 30] and [30, 40]: one bucket below the first tick, as wide as the
    gap to the second tick, the two interior buckets, and one bucket above
    the last tick, as wide as the gap from the tick before it. *)
Theorem ticks_10_20_30 (js : Builtins) :
  axisValuesToIntervals js [Sample.int 10; Sample.int 20; Sample.int 30]
  = [Sample.range 0 10; Sample.range 10 20; Sample.range 20 30; Sample.range 30 40].
Proof. vm_compute. reflexivity. Qed.

(** C2, as the program has it: the ticks [0, 10, 20, 30] give no bucket
    below the zero-valued first tick, the three buckets between the ticks,
    and a fourth one, [30, 40], above the last tick. *)
Theorem ticks_0_10_20_30 (js : Builtins) :
  axisValuesToIntervals js
    [Sample.int 0; Sample.int 10; Sample.int 20; Sample.int 30]
  = [Sample.range 0 10; Sample.range 10 20; Sample.range 20 30; Sample.range 30 40].
Proof. vm_compute. reflexivity. Qed.

(** C2, as the specification states it, fails: the result is not the list
    of three intervals. *)
Lemma ticks_0_10_20_30_not_three :
  axisValuesToIntervals Sample.js
    [Sample.int 0; Sample.int 10; Sample.int 20; Sample.int 30]
  <> [Sample.range 0 10; Sample.range 10 20; Sample.range 20 30].
Proof. vm_compute. discriminate. Qed.

(** Ticks written as strings are read as numbers, commas removed; date
    ticks are binned by their time values and the bounds made dates again. *)
Example ticks_as_strings :
  axisValuesToIntervals Sample.js [Sample.str "1,000"; Sample.str "2,000"]
  = [Sample.range 0 1000; Sample.range 1000 2000; Sample.range 2000 3000].
Proof. vm_compute. reflexivity. Qed.

Example ticks_as_dates :
  axisValuesToIntervals Sample.js [Sample.date 86400000; Sample.date 172800000]
  = [(Some (Sample.date 0), Some (Sample.date 86400000));
     (Some (Sample.date 86400000), Some (Sample.date 172800000));
     (Some (Sample.date 172800000), Some (Sample.date 259200000))].
Proof. vm_compute. reflexivity. Qed.

(** ** Numbers *)

Lemma SFcompare_None (a b : number) :
  SFcompare a b = None -> a = NaN \/ b = NaN.
Proof.
  destruct a as [sa | sa | | sa ma ea], b as [sb | sb | | sb mb eb];
    simpl; intros H; try discriminate; auto.
Qed.

Lemma SFcompare_nan_r (a : number) : SFcompare a NaN = None.
Proof. destruct a; reflexivity. Qed.

Lemma num_ge_nan_r (a : number) : num_ge a NaN = false.
Proof. unfold num_ge. rewrite SFcompare_nan_r. reflexivity. Qed.

Lemma num_sub_nan_r (a : number) : num_sub a NaN = NaN.
Proof. destruct a as [[] | [] | | [] m e]; reflexivity. Qed.

Lemma num_sub_nan_l (a : number) : num_sub NaN a = NaN.
Proof. destruct a as [[] | [] | | [] m e]; reflexivity. Qed.

(** Between two numbers, neither of them [NaN], [a < b] or [a >= b]. *)
Lemma num_lt_or_ge (a b : number) :
  a <> NaN -> b <> NaN -> num_lt a b = false -> num_ge a b = true.
Proof.
  intros Ha Hb. unfold num_lt, num_ge, SFltb.
  destruct (SFcompare a b) as [[] | ] eqn:E; try (intros; reflexivity || discriminate).
  destruct (SFcompare_None _ _ E); contradiction.
Qed.

Lemma num_ge_not_nan (a b : number) : num_ge a b = true -> a <> NaN /\ b <> NaN.
Proof.
  unfold num_ge. intros H; split; intros ->; simpl in H; try discriminate.
  rewrite SFcompare_nan_r in H. discriminate.
Qed.

(** ** Exceptions and traversals *)

Lemma bind_Ok {A B} (r : result A) (k : A -> result B) (b : B) :
  bind r k = Ok b -> exists a, r = Ok a /\ k a = Ok b.
Proof. destruct r as [a | msg]; simpl; intros H; [eauto | discriminate]. Qed.

Ltac inv_bind H :=
  let a := fresh "a" in
  let Ha := fresh "H" a in
  apply bind_Ok in H; destruct H as [a [Ha H]].

Ltac inv_Ok H := injection H as H; subst.

Lemma mapM_Ok {A B} (f : A -> result B) (l : list A) (bs : list B) :
  mapM f l = Ok bs -> Forall2 (fun a b => f a = Ok b) l bs.
Proof.
  revert bs. induction l as [| a l IH]; simpl; intros bs H.
  - inv_Ok H. constructor.
  - inv_bind H. inv_bind H. inv_Ok H. constructor; auto.
Qed.

Lemma mapM_total {A B} (f : A -> result B) (l : list A) :
  (forall a, In a l -> exists b, f a = Ok b) -> exists bs, mapM f l = Ok bs.
Proof.
  induction l as [| a l IH]; simpl; intros H.
  - eauto.
  - destruct (H a) as [b Hb]; [auto |].
    destruct IH as [bs Hbs]; [auto |].
    rewrite Hb, Hbs. simpl. eauto.
Qed.

Lemma mapM_Throw {A B} (f : A -> result B) (l : list A) (a : A) :
  In a l -> (exists msg, f a = Throw msg) -> exists msg, mapM f l = Throw msg.
Proof.
  induction l as [| a' l IH]; simpl; intros Hin Ha; [contradiction |].
  destruct (f a') as [b |msg] eqn:E; simpl; [| eauto].
  destruct Hin as [-> | Hin].
  - destruct Ha as [msg Ha]. congruence.
  - destruct (IH Hin Ha) as [msg ->]. simpl. eauto.
Qed.

Lemma mapiM_from_Ok {A B} (f : A -> nat -> result B) (l : list A) :
  forall (i : nat) (bs : list B),
    mapiM_from f i l = Ok bs ->
    List.length bs = List.length l
    /\ forall k a, nth_error l k = Some a ->
                   exists b, nth_error bs k = Some b /\ f a (i + k)%nat = Ok b.
Proof.
  induction l as [| a l IH]; simpl; intros i bs H.
  - inv_Ok H. split; [reflexivity |]. intros [| k] a H; discriminate.
  - inv_bind H. inv_bind H. inv_Ok H.
    destruct (IH _ _ Ha1) as [Hlen Hnth]. split; [simpl; congruence |].
    intros [| k] a' Hk; simpl in *.
    + inv_Ok Hk. exists a0. rewrite Nat.add_0_r. auto.
    + destruct (Hnth k a' Hk) as [b [Hb Hf]]. exists b.
      rewrite Nat.add_succ_r. auto.
Qed.

Lemma mapiM_Ok {A B} (f : A -> nat -> result B) (l : list A) (bs : list B) :
  mapiM f l = Ok bs ->
  List.length bs = List.length l
  /\ forall k a, nth_error l k = Some a ->
                 exists b, nth_error bs k = Some b /\ f a k = Ok b.
Proof. apply (mapiM_from_Ok f l 0%nat). Qed.

(** Every element of the result is the image of the element at its
    position. *)
Lemma mapiM_Ok_In {A B} (f : A -> nat -> result B) (l : list A) (bs : list B) (b : B) :
  mapiM f l = Ok bs -> In b bs -> exists k a, nth_error l k = Some a /\ f a k = Ok b.
Proof.
  intros H Hin. destruct (mapiM_Ok _ _ _ H) as [Hlen Hnth].
  destruct (In_nth_error _ _ Hin) as [k Hk].
  assert (Hlt : (k < List.length l)%nat).
  { rewrite <- Hlen. apply nth_error_Some. congruence. }
  destruct (nth_error l k) as [a |] eqn:Ea.
  - destruct (Hnth k a Ea) as [b' [Hb' Hf]]. exists k, a. split; congruence.
  - apply nth_error_None in Ea. lia.
Qed.

Lemma mapiM_from_total {A B} (f : A -> nat -> result B) (l : list A) :
  (forall a k, In a l -> exists b, f a k = Ok b) ->
  forall i, exists bs, mapiM_from f i l = Ok bs.
Proof.
  induction l as [| a l IH]; simpl; intros H i.
  - eauto.
  - destruct (H a i) as [b Hb]; [auto |].
    destruct (IH (fun a k Hin => H a k (or_intror Hin)) (S i)) as [bs Hbs].
    rewrite Hb, Hbs. simpl. eauto.
Qed.

Lemma mapiM_total {A B} (f : A -> nat -> result B) (l : list A) :
  (forall a k, In a l -> exists b, f a k = Ok b) -> exists bs, mapiM f l = Ok bs.
Proof. intros H. apply mapiM_from_total, H. Qed.

Lemma mapiM_from_Forall2 {A B} (f : A -> nat -> result B) (l : list A) :
  forall (i : nat) (bs : list B),
    mapiM_from f i l = Ok bs -> Forall2 (fun a b => exists k, f a k = Ok b) l bs.
Proof.
  induction l as [| a l IH]; simpl; intros i bs H.
  - inv_Ok H. constructor.
  - inv_bind H. inv_bind H. inv_Ok H. constructor; eauto.
Qed.

Lemma mapiM_from_ext {A B} (f g : A -> nat -> result B) (l : list A) :
  (forall a i, f a i = g a i) -> forall i, mapiM_from f i l = mapiM_from g i l.
Proof.
  intros H. induction l as [| a l IH]; simpl; intros i; [reflexivity |].
  rewrite H, IH. reflexivity.
Qed.

(** ** The shape of what each case of the builder returns *)

Section BuilderShape.
Variable js : Builtins.
Variable fmtValue : JsValue -> string.
Variable HierarchyLevel : Type.
Variable nodeTypeToHierarchyLevel : NodeType.t -> HierarchyLevel.
Variable hierarchyLevelToTokens : HierarchyLevel -> list Token.t.

Local Abbreviation build_data :=
  (olliVisSpecToNode_data js fmtValue HierarchyLevel nodeTypeToHierarchyLevel
     hierarchyLevelToTokens).
Local Abbreviation build_filteredData :=
  (olliVisSpecToNode_filteredData js fmtValue HierarchyLevel nodeTypeToHierarchyLevel
     hierarchyLevelToTokens).
Local Abbreviation build_discrete :=
  (discreteChildren js fmtValue HierarchyLevel nodeTypeToHierarchyLevel
     hierarchyLevelToTokens).
Local Abbreviation build_axis :=
  (olliVisSpecToNode_axis js fmtValue HierarchyLevel nodeTypeToHierarchyLevel
     hierarchyLevelToTokens).
Local Abbreviation build_legend :=
  (olliVisSpecToNode_legend js fmtValue HierarchyLevel nodeTypeToHierarchyLevel
     hierarchyLevelToTokens).
Local Abbreviation build_grid :=
  (olliVisSpecToNode_grid js fmtValue HierarchyLevel nodeTypeToHierarchyLevel
     hierarchyLevelToTokens).
Local Abbreviation build_chart :=
  (olliVisSpecToNode_chart js fmtValue HierarchyLevel nodeTypeToHierarchyLevel
     hierarchyLevelToTokens).
Local Abbreviation build_multiView :=
  (olliVisSpecToNode_multiView js fmtValue HierarchyLevel nodeTypeToHierarchyLevel
     hierarchyLevelToTokens).
Local Abbreviation describe :=
  (describeNode js fmtValue HierarchyLevel nodeTypeToHierarchyLevel
     hierarchyLevelToTokens).

Lemma describeNode_Ok node olliVisSpec facetValue guide index length n :
  describe node olliVisSpec facetValue guide index length = Ok n ->
  exists d, n = withDescription node d.
Proof. unfold describeNode. intros H. inv_bind H. inv_Ok H. eauto. Qed.

Lemma data_shape sel par chart fu fv guide index length n :
  build_data sel par chart fu fv guide index length = Ok n ->
  exists d keys, n = mkNode NodeType.data par sel None None d [] (Some keys).
Proof.
  unfold olliVisSpecToNode_data. intros H.
  apply describeNode_Ok in H. destruct H as [d ->]. simpl. eauto.
Qed.

Lemma filteredData_shape sel par chart fu fv filt guide index length gi n :
  build_filteredData sel par chart fu fv filt guide index length gi = Ok n ->
  exists d cs,
    n = mkNode NodeType.filteredData par sel filt gi d cs None
    /\ mapiM (fun datum index =>
                build_data [datum] (Some NodeType.filteredData) chart fu fv guide
                  (Some index) (Some (List.length sel))) sel = Ok cs.
Proof.
  unfold olliVisSpecToNode_filteredData. intros H. inv_bind H.
  apply describeNode_Ok in H. destruct H as [d ->]. simpl. eauto.
Qed.

Lemma axis_shape type sel par chart fu fv (axis : Axis) n :
  build_axis type sel par chart fu fv axis = Ok n ->
  exists d cs,
    n = mkNode type par sel None None d cs None
    /\ match g_type axis with
       | discrete => build_discrete type sel chart fu fv (GAxis axis) = Ok cs
       | continuous =>
           mapiM (fun (ab : Interval) idx =>
                    build_filteredData
                      (filterInterval js sel (g_field axis) (fst ab) (snd ab))
                      (Some type) chart fu fv
                      (Some (FEncoding (ERange (fst ab) (snd ab))))
                      (Some (GAxis axis)) (Some idx)
                      (Some (List.length (axisValuesToIntervals js (g_values axis)))) None)
                 (axisValuesToIntervals js (g_values axis)) = Ok cs
       end.
Proof.
  unfold olliVisSpecToNode_axis. intros H. inv_bind H.
  apply describeNode_Ok in H. destruct H as [d ->]. simpl.
  exists d, a. split; [reflexivity |].
  destruct (g_type axis); [exact Ha |].
  rewrite <- Ha. apply mapiM_from_ext. intros [a1 b1] i. reflexivity.
Qed.

Lemma discrete_shape type sel chart fu fv guide cs :
  build_discrete type sel chart fu fv guide = Ok cs ->
  List.length cs = List.length (g_values (guideOf guide))
  /\ forall k value,
       nth_error (g_values (guideOf guide)) k = Some value ->
       exists d ds,
         nth_error cs k
         = Some (mkNode NodeType.filteredData (Some type)
                   (filterEquals js sel (g_field (guideOf guide)) (Some value))
                   (Some (FEncoding (EString (ToString js (Some value)))))
                   None d ds None)
         /\ mapiM (fun datum index =>
                     build_data [datum] (Some NodeType.filteredData) chart fu fv
                       (Some guide) (Some index)
                       (Some (List.length
                                (filterEquals js sel (g_field (guideOf guide)) (Some value)))))
                  (filterEquals js sel (g_field (guideOf guide)) (Some value)) = Ok ds.
Proof.
  unfold discreteChildren. intros H.
  destruct (mapiM_Ok _ _ _ H) as [Hlen Hnth]. split; [exact Hlen |].
  intros k value Hk. destruct (Hnth k value Hk) as [c [Hc Hf]].
  apply filteredData_shape in Hf. destruct Hf as [d [ds [-> Hds]]]. eauto.
Qed.

Lemma legend_shape sel par chart fu fv (legend : Legend) n :
  build_legend sel par chart fu fv legend = Ok n ->
  exists d cs,
    n = mkNode NodeType.legend par sel None None d cs None
    /\ match g_type legend with
       | discrete => build_discrete NodeType.legend sel chart fu fv (GLegend legend) = Ok cs
       | continuous => cs = []
       end.
Proof.
  unfold olliVisSpecToNode_legend. intros H. inv_bind H.
  apply describeNode_Ok in H. destruct H as [d ->]. simpl.
  exists d, a. split; [reflexivity |].
  destruct (g_type legend); [exact Ha | congruence].
Qed.

Lemma grid_shape sel par chart fu fv n :
  build_grid sel par chart fu fv = Ok n ->
  exists xAxis yAxis d cs,
    List.find isX (axes chart) = Some xAxis
    /\ List.find isY (axes chart) = Some yAxis
    /\ n = mkNode NodeType.grid par sel None None d cs None
    /\ mapiM (fun (cell : Interval * Interval) index =>
                build_filteredData
                  (filterInterval js
                     (filterInterval js sel (g_field xAxis) (fst (fst cell)) (snd (fst cell)))
                     (g_field yAxis) (fst (snd cell)) (snd (snd cell)))
                  (Some NodeType.grid) chart fu fv
                  (Some (FGrid (ERange (fst (fst cell)) (snd (fst cell)))
                               (ERange (fst (snd cell)) (snd (snd cell)))))
                  None None None
                  (Some (GridIndex.mk
                           (index / List.length (axisValuesToIntervals js (g_values yAxis)))%nat
                           (index mod List.length (axisValuesToIntervals js (g_values yAxis)))%nat)))
             (cartesian (axisValuesToIntervals js (g_values xAxis))
                        (axisValuesToIntervals js (g_values yAxis))) = Ok cs.
Proof.
  unfold olliVisSpecToNode_grid. intros H.
  destruct (List.find isX (axes chart)) as [xAxis |]; [| discriminate].
  destruct (List.find isY (axes chart)) as [yAxis |]; [| discriminate].
  inv_bind H. apply describeNode_Ok in H. destruct H as [d ->]. simpl.
  exists xAxis, yAxis, d, a. repeat split.
  rewrite <- Ha. apply mapiM_from_ext. intros [[x1 x2] [y1 y2]] i. reflexivity.
Qed.

Lemma chart_shape sel par chart fu fv index length n :
  build_chart sel par chart fu fv index length = Ok n ->
  exists d axisNodes legendNodes gridNodes,
    n = mkNode NodeType.chart par sel None None d
          (axisNodes ++ legendNodes ++ gridNodes) None
    /\ mapM (fun axis => build_axis (axisNodeType axis) sel (Some NodeType.chart)
                           chart fu fv axis) (filteredAxes chart) = Ok axisNodes
    /\ mapM (fun legend => build_legend sel (Some NodeType.chart) chart fu fv legend)
            (legends chart) = Ok legendNodes
    /\ (if hasGrid chart
        then exists g, build_grid sel (Some NodeType.chart) chart fu fv = Ok g
                       /\ gridNodes = [g]
        else gridNodes = []).
Proof.
  unfold olliVisSpecToNode_chart. intros H. inv_bind H. inv_bind H. inv_bind H.
  apply describeNode_Ok in H. destruct H as [d ->]. simpl.
  exists d, a, a0, a1. repeat split; auto.
  destruct (hasGrid chart).
  - inv_bind Ha1. inv_Ok Ha1. eauto.
  - inv_Ok Ha1. reflexivity.
Qed.

Lemma multiView_shape sel par (f : FacetedChart) fu n :
  build_multiView sel par f fu = Ok n ->
  exists d cs,
    n = mkNode NodeType.multiView par sel None None d cs None
    /\ mapiM (fun (entry : string * Chart) index =>
                build_chart
                  (List.filter
                     (fun datum : OlliDatum =>
                        String.eqb (ToString js (datum !! facetedField f)) (fst entry))
                     sel)
                  (Some NodeType.multiView) (snd entry) fu (Some (fst entry))
                  (Some index) (Some (List.length (charts f))))
             (charts f) = Ok cs.
Proof.
  unfold olliVisSpecToNode_multiView. intros H. inv_bind H.
  apply describeNode_Ok in H. destruct H as [d ->]. simpl.
  exists d, a. split; [reflexivity |].
  rewrite <- Ha. apply mapiM_from_ext. intros [k c] i. reflexivity.
Qed.

End BuilderShape.

Lemma mapM_Ok_In {A B} (f : A -> result B) (l : list A) (bs : list B) (b : B) :
  mapM f l = Ok bs -> In b bs -> exists a, In a l /\ f a = Ok b.
Proof.
  intros H. apply mapM_Ok in H.
  induction H as [| a b' l bs Hab HF IH]; simpl; intros Hin; [contradiction |].
  destruct Hin as [-> | Hin]; [eauto |].
  destruct (IH Hin) as [a' [Ha' Hf]]. eauto.
Qed.

(** ** The rows selected along the tree *)

Lemma filter_sublist {A} (f : A -> bool) (l : list A) : sublist (List.filter f l) l.
Proof.
  induction l as [| a l IH]; simpl; [constructor |].
  destruct (f a); constructor; exact IH.
Qed.

Lemma In_singleton_sublist {A} (a : A) (l : list A) : In a l -> sublist [a] l.
Proof.
  induction l as [| b l IH]; simpl; intros H; [contradiction |].
  destruct H as [-> | H].
  - constructor. apply sublist_nil_l.
  - constructor. auto.
Qed.

Lemma Forall_tree_subnode (P : AccessibilityTreeNode -> Prop) (m n : AccessibilityTreeNode) :
  subnode m n -> Forall_tree P n -> P m.
Proof.
  induction 1 as [n | m c n Hin Hsub IH]; intros Hn; inversion Hn as [n' HP Hcs]; subst.
  - exact HP.
  - apply IH. rewrite List.Forall_forall in Hcs. apply Hcs. exact Hin.
Qed.

(** A node that is neither a [filteredData] nor a [data] node satisfies
    the invariant as soon as its children select sub-sequences of its rows. *)
Lemma inner_node_tree type par sel filt gi d cs keys :
  type <> NodeType.filteredData -> type <> NodeType.data ->
  (forall c, In c cs -> Forall_tree selectedInvariant c /\ sublist (selected c) sel) ->
  Forall_tree selectedInvariant (mkNode type par sel filt gi d cs keys).
Proof.
  intros Hf Hd Hcs. constructor.
  - repeat split; simpl; try contradiction.
    rewrite List.Forall_forall. intros c Hc. apply Hcs, Hc.
  - simpl. rewrite List.Forall_forall. intros c Hc. apply Hcs, Hc.
Qed.

Section SelectedRows.
Variable js : Builtins.
Variable fmtValue : JsValue -> string.
Variable HierarchyLevel : Type.
Variable nodeTypeToHierarchyLevel : NodeType.t -> HierarchyLevel.
Variable hierarchyLevelToTokens : HierarchyLevel -> list Token.t.

Local Abbreviation build_data :=
  (olliVisSpecToNode_data js fmtValue HierarchyLevel nodeTypeToHierarchyLevel
     hierarchyLevelToTokens).
Local Abbreviation build_filteredData :=
  (olliVisSpecToNode_filteredData js fmtValue HierarchyLevel nodeTypeToHierarchyLevel
     hierarchyLevelToTokens).
Local Abbreviation build_discrete :=
  (discreteChildren js fmtValue HierarchyLevel nodeTypeToHierarchyLevel
     hierarchyLevelToTokens).
Local Abbreviation build_axis :=
  (olliVisSpecToNode_axis js fmtValue HierarchyLevel nodeTypeToHierarchyLevel
     hierarchyLevelToTokens).
Local Abbreviation build_legend :=
  (olliVisSpecToNode_legend js fmtValue HierarchyLevel nodeTypeToHierarchyLevel
     hierarchyLevelToTokens).
Local Abbreviation build_grid :=
  (olliVisSpecToNode_grid js fmtValue HierarchyLevel nodeTypeToHierarchyLevel
     hierarchyLevelToTokens).
Local Abbreviation build_chart :=
  (olliVisSpecToNode_chart js fmtValue HierarchyLevel nodeTypeToHierarchyLevel
     hierarchyLevelToTokens).
Local Abbreviation build_multiView :=
  (olliVisSpecToNode_multiView js fmtValue HierarchyLevel nodeTypeToHierarchyLevel
     hierarchyLevelToTokens).

Lemma data_tree r par chart fu fv guide index length n :
  build_data [r] par chart fu fv guide index length = Ok n ->
  Forall_tree selectedInvariant n /\ selected n = [r].
Proof.
  intros H. apply data_shape in H. destruct H as [d [keys ->]].
  split; [| reflexivity].
  constructor; simpl; [| constructor].
  repeat split; simpl; try discriminate; eauto.
Qed.

Lemma data_children_rows chart fu fv guide len (sel : OlliDataset) cs :
  Forall2 (fun datum c =>
             exists k, build_data [datum] (Some NodeType.filteredData) chart fu fv guide
                         (Some k) len = Ok c) sel cs ->
  concat (map selected cs) = sel
  /\ Forall (Forall_tree selectedInvariant) cs
  /\ forall c, In c cs -> exists r, In r sel /\ selected c = [r].
Proof.
  induction 1 as [| datum c sel cs [k Hc] HF IH]; simpl.
  - repeat split; auto. intros c [].
  - destruct IH as [Hcat [Hall Hrows]].
    apply data_tree in Hc. destruct Hc as [Hc Hsel].
    repeat split.
    + rewrite Hsel, Hcat. reflexivity.
    + constructor; assumption.
    + intros c' [<- | Hin]; [eauto |].
      destruct (Hrows c' Hin) as [r [Hr Hs]]. eauto.
Qed.

Lemma filteredData_tree sel par chart fu fv filt guide index length gi n :
  build_filteredData sel par chart fu fv filt guide index length gi = Ok n ->
  Forall_tree selectedInvariant n /\ selected n = sel.
Proof.
  intros H. apply filteredData_shape in H. destruct H as [d [cs [-> Hcs]]].
  apply mapiM_from_Forall2 in Hcs. apply data_children_rows in Hcs.
  destruct Hcs as [Hcat [Hall Hrows]].
  split; [| reflexivity].
  constructor; simpl; [| exact Hall].
  repeat split; simpl; try discriminate.
  - unfold childrenSelected. simpl. congruence.
  - rewrite List.Forall_forall. intros c Hc.
    destruct (Hrows c Hc) as [r [Hr ->]]. apply In_singleton_sublist, Hr.
Qed.

Lemma discrete_tree type sel chart fu fv guide cs :
  build_discrete type sel chart fu fv guide = Ok cs ->
  forall c, In c cs -> Forall_tree selectedInvariant c /\ sublist (selected c) sel.
Proof.
  unfold discreteChildren. intros H c Hc.
  destruct (mapiM_Ok_In _ _ _ _ H Hc) as [k [value [_ Hf]]].
  apply filteredData_tree in Hf. destruct Hf as [Ht ->].
  split; [exact Ht | apply filter_sublist].
Qed.

Lemma axis_tree type sel par chart fu fv (axis : Axis) n :
  type <> NodeType.filteredData -> type <> NodeType.data ->
  build_axis type sel par chart fu fv axis = Ok n ->
  Forall_tree selectedInvariant n /\ selected n = sel.
Proof.
  intros Hf Hd H. apply axis_shape in H. destruct H as [d [cs [-> Hcs]]].
  split; [| reflexivity].
  apply inner_node_tree; auto.
  destruct (g_type axis).
  - eapply discrete_tree; eauto.
  - intros c Hc. destruct (mapiM_Ok_In _ _ _ _ Hcs Hc) as [k [ab [_ Hb]]].
    apply filteredData_tree in Hb. destruct Hb as [Ht ->].
    split; [exact Ht | apply filter_sublist].
Qed.

Lemma legend_tree sel par chart fu fv (legend : Legend) n :
  build_legend sel par chart fu fv legend = Ok n ->
  Forall_tree selectedInvariant n /\ selected n = sel.
Proof.
  intros H. apply legend_shape in H. destruct H as [d [cs [-> Hcs]]].
  split; [| reflexivity].
  apply inner_node_tree; try discriminate.
  destruct (g_type legend).
  - eapply discrete_tree; eauto.
  - subst cs. intros c [].
Qed.

Lemma grid_tree sel par chart fu fv n :
  build_grid sel par chart fu fv = Ok n ->
  Forall_tree selectedInvariant n /\ selected n = sel.
Proof.
  intros H. apply grid_shape in H.
  destruct H as [xAxis [yAxis [d [cs [_ [_ [-> Hcs]]]]]]].
  split; [| reflexivity].
  apply inner_node_tree; try discriminate.
  intros c Hc. destruct (mapiM_Ok_In _ _ _ _ Hcs Hc) as [k [cell [_ Hb]]].
  apply filteredData_tree in Hb. destruct Hb as [Ht ->].
  split; [exact Ht |].
  etransitivity; apply filter_sublist.
Qed.

Lemma axisNodeType_inner (axis : Axis) :
  axisNodeType axis <> NodeType.filteredData /\ axisNodeType axis <> NodeType.data.
Proof. unfold axisNodeType. destruct (axisType axis); split; discriminate. Qed.

Lemma chart_tree sel par chart fu fv index length n :
  build_chart sel par chart fu fv index length = Ok n ->
  Forall_tree selectedInvariant n /\ selected n = sel.
Proof.
  intros H. apply chart_shape in H.
  destruct H as [d [axisNodes [legendNodes [gridNodes [-> [Ha [Hl Hg]]]]]]].
  split; [| reflexivity].
  apply inner_node_tree; try discriminate.
  intros c Hc. apply in_app_or in Hc. destruct Hc as [Hc | Hc].
  - destruct (mapM_Ok_In _ _ _ _ Ha Hc) as [axis [_ Hb]].
    destruct (axisNodeType_inner axis) as [H1 H2].
    apply axis_tree in Hb; auto. destruct Hb as [Ht ->]. split; [exact Ht | reflexivity].
  - apply in_app_or in Hc. destruct Hc as [Hc | Hc].
    + destruct (mapM_Ok_In _ _ _ _ Hl Hc) as [legend [_ Hb]].
      apply legend_tree in Hb. destruct Hb as [Ht ->]. split; [exact Ht | reflexivity].
    + destruct (hasGrid chart).
      * destruct Hg as [g [Hb ->]]. destruct Hc as [<- | []].
        apply grid_tree in Hb. destruct Hb as [Ht ->]. split; [exact Ht | reflexivity].
      * subst gridNodes. destruct Hc.
Qed.

Lemma multiView_tree sel par (f : FacetedChart) fu n :
  build_multiView sel par f fu = Ok n ->
  Forall_tree selectedInvariant n /\ selected n = sel.
Proof.
  intros H. apply multiView_shape in H. destruct H as [d [cs [-> Hcs]]].
  split; [| reflexivity].
  apply inner_node_tree; try discriminate.
  intros c Hc. destruct (mapiM_Ok_In _ _ _ _ Hcs Hc) as [k [entry [_ Hb]]].
  apply chart_tree in Hb. destruct Hb as [Ht ->].
  split; [exact Ht | apply filter_sublist].
Qed.

(** C1, as the program has it: in every tree built by [olliVisSpecToTree],
    the rows of a [filteredData] node are the concatenation, in child order,
    of the rows of its children; a [data] node is a leaf with exactly one
    row; and the rows of any child are a sub-sequence of the rows of its
    parent. *)
Theorem built_tree_selected (olliVisSpec : OlliVisSpec) (tree : AccessibilityTree) :
  olliVisSpecToTree js fmtValue HierarchyLevel nodeTypeToHierarchyLevel
    hierarchyLevelToTokens olliVisSpec = Ok tree ->
  forall n, subnode n (root tree) -> selectedInvariant n.
Proof.
  unfold olliVisSpecToTree. intros H n Hn.
  apply (Forall_tree_subnode _ _ _ Hn).
  destruct olliVisSpec as [c | f]; inv_bind H; inv_Ok H; simpl.
  - apply chart_tree in Ha. apply Ha.
  - apply multiView_tree in Ha. apply Ha.
Qed.

End SelectedRows.

(** C1, as the specification states it, fails at the root of a chart with
    two axes: each axis selects all the rows of the chart, so the rows of
    the children, concatenated, are the rows of the chart twice. *)
Lemma chart_selected_not_concatenation :
  exists tree,
    Sample.buildTree (SChart twoAxesChart) = Ok tree
    /\ children (root tree) <> []
    /\ selected (root tree) <> childrenSelected (root tree).
Proof.
  eexists. split; [vm_compute; reflexivity |].
  split; [discriminate |].
  intros H. apply (f_equal (@List.length _)) in H. vm_compute in H. discriminate.
Qed.

Lemma built_tree_selected_witness :
  exists tree,
    Sample.buildTree (SChart twoAxesChart) = Ok tree
    /\ forall n, subnode n (root tree) -> selectedInvariant n.
Proof.
  eexists. split; [vm_compute; reflexivity |].
  apply (built_tree_selected Sample.js Sample.fmtValue Sample.HierarchyLevel
           Sample.nodeTypeToHierarchyLevel Sample.hierarchyLevelToTokens
           (SChart twoAxesChart)).
  vm_compute. reflexivity.
Defined.

(** ** Comparisons *)

Lemma SFcompare_antisym (a b : number) :
  SFcompare b a = option_map CompOpp (SFcompare a b).
Proof.
  destruct a as [sa | sa | | sa ma ea], b as [sb | sb | | sb mb eb];
    try destruct sa; try destruct sb; try reflexivity; simpl;
    rewrite (Z.compare_antisym ea eb);
    destruct (ea ?= eb); simpl; try reflexivity;
    repeat f_equal; symmetry; exact (Pos.compare_cont_antisym ma mb Eq).
Qed.

(** [a >= b] and [b <= a] agree on numbers. *)
Lemma num_ge_leb (a b : number) : num_ge a b = SFleb b a.
Proof.
  unfold num_ge, SFleb. rewrite (SFcompare_antisym a b).
  destruct (SFcompare a b) as [[] |]; reflexivity.
Qed.

Lemma string_ltb_leb (s t : string) : negb (String.ltb s t) = String.leb t s.
Proof.
  unfold String.ltb, String.leb. rewrite (String.compare_antisym s t).
  destruct (String.compare t s); reflexivity.
Qed.

(** [a >= b] and [b <= a] agree on all values. *)
Lemma js_ge_le js (a b : JsValue) : js_ge js a b = js_le js b a.
Proof.
  unfold js_ge, js_le.
  destruct a as [[s | a | d] |], b as [[t | b | e] |]; simpl;
    try apply num_ge_leb; apply string_ltb_leb.
Qed.

(** ** The row filters *)

Lemma inInterval_withinRange js field (lo hi : JsValue) (d : OlliDatum) :
  inInterval js field lo hi d = true <-> withinRange js lo hi (d !! field).
Proof.
  unfold inInterval, withinRange, halfOpen, rendersAsYear.
  destruct (d !! field) as [[s | a | dt] |];
    try destruct ((String.length (ToString js lo) =? 4)%nat
                  && (String.length (ToString js hi) =? 4)%nat);
    rewrite andb_true_iff, js_ge_le; reflexivity.
Qed.

(** C8: both filters keep a sub-sequence of the rows they are given, row by
    row: the equality filter exactly the rows whose field renders as the
    same string as the value, the range filter exactly the rows whose field
    lies in the half-open range, a date being compared by its year when
    both bounds render as four characters. *)
Theorem row_filters (js : Builtins) (sel : OlliDataset) (field : string) :
  (forall value : JsValue,
      sublist (filterEquals js sel field value) sel
      /\ (forall d : OlliDatum,
             In d (filterEquals js sel field value)
             <-> In d sel /\ ToString js (d !! field) = ToString js value))
  /\ (forall lo hi : JsValue,
         sublist (filterInterval js sel field lo hi) sel
         /\ (forall d : OlliDatum,
                In d (filterInterval js sel field lo hi)
                <-> In d sel /\ withinRange js lo hi (d !! field)))
  /\ (forall (more : OlliDataset) (value lo hi : JsValue),
         filterEquals js (sel ++ more) field value
         = filterEquals js sel field value ++ filterEquals js more field value
         /\ filterInterval js (sel ++ more) field lo hi
            = filterInterval js sel field lo hi ++ filterInterval js more field lo hi).
Proof.
  split; [| split].
  - intros value. split; [apply filter_sublist |].
    intros d. unfold filterEquals, String_eq.
    rewrite List.filter_In, String.eqb_eq. reflexivity.
  - intros lo hi. split; [apply filter_sublist |].
    intros d. unfold filterInterval.
    rewrite List.filter_In, inInterval_withinRange. reflexivity.
  - intros more value lo hi. split; apply List.filter_app.
Qed.

(** The filters on an example: rows are kept in their order, dates are
    compared by year between the bounds 1990 and 2000, and by time value
    between bounds that do not render as years. *)
Example filterEquals_example :
  filterEquals Sample.js
    [Sample.row1 "f" (Sample.str "A"); Sample.row1 "f" (Sample.str "B");
     Sample.row1 "f" (Sample.str "A"); Sample.row1 "f" (Sample.int 7);
     Sample.row1 "g" (Sample.str "A")]
    "f" (Some (Sample.str "A"))
  = [Sample.row1 "f" (Sample.str "A"); Sample.row1 "f" (Sample.str "A")].
Proof. vm_compute. reflexivity. Qed.

Example filterEquals_number_as_string :
  filterEquals Sample.js
    [Sample.row1 "f" (Sample.int 7); Sample.row1 "f" (Sample.str "7")]
    "f" (Some (Sample.str "7"))
  = [Sample.row1 "f" (Sample.int 7); Sample.row1 "f" (Sample.str "7")].
Proof. vm_compute. reflexivity. Qed.

Example filterInterval_half_open :
  filterInterval Sample.js
    [Sample.row1 "f" (Sample.int 20); Sample.row1 "f" (Sample.int 9);
     Sample.row1 "f" (Sample.int 10); Sample.row1 "f" (Sample.int 19)]
    "f" (Some (Sample.int 10)) (Some (Sample.int 20))
  = [Sample.row1 "f" (Sample.int 10); Sample.row1 "f" (Sample.int 19)].
Proof. vm_compute. reflexivity. Qed.

Example filterInterval_by_year :
  filterInterval Sample.js
    [Sample.row1 "f" (Sample.date 946684800000);
     Sample.row1 "f" (Sample.date 946684799999);
     Sample.row1 "f" (Sample.date 0)]
    "f" (Some (Sample.int 1990)) (Some (Sample.int 2000))
  = [Sample.row1 "f" (Sample.date 946684799999)].
Proof. vm_compute. reflexivity. Qed.

Example filterInterval_by_time :
  filterInterval Sample.js
    [Sample.row1 "f" (Sample.date 946684800000);
     Sample.row1 "f" (Sample.date 946684799999);
     Sample.row1 "f" (Sample.date 0)]
    "f" (Some (Sample.int 0)) (Some (Sample.int 946684800000))
  = [Sample.row1 "f" (Sample.date 946684799999); Sample.row1 "f" (Sample.date 0)].
Proof. vm_compute. reflexivity. Qed.

(** ** The binner computes the buckets of the specification *)

Lemma len_app {A} (l l' : list A) : len (l ++ l') = len l + len l'.
Proof. unfold len. rewrite List.length_app. lia. Qed.

Lemma len_nonneg {A} (l : list A) : 0 <= len l.
Proof. unfold len. lia. Qed.

Lemma get_middle {A} (pre : list A) (a : A) (rest : list A) :
  get (pre ++ a :: rest) (len pre) = Some a.
Proof.
  unfold get, len. destruct (Z.ltb_spec (Z.of_nat (List.length pre)) 0); [lia |].
  rewrite Nat2Z.id, List.nth_error_app2, Nat.sub_diag; [reflexivity | lia].
Qed.

Lemma get_middle_next {A} (pre : list A) (a b : A) (rest : list A) :
  get (pre ++ a :: b :: rest) (len pre + 1) = Some b.
Proof.
  replace (pre ++ a :: b :: rest) with ((pre ++ [a]) ++ b :: rest)
    by (rewrite <- List.app_assoc; reflexivity).
  replace (len pre + 1) with (len (pre ++ [a])) by (rewrite len_app; reflexivity).
  apply get_middle.
Qed.

Section BinnerRefinement.
Variable js : Builtins.

(** One step of the reduction at a tick that is not the first. *)
Lemma increments_step (acc : list Interval) (pre : list OlliValue)
    (prev cur : OlliValue) (rest : list OlliValue) :
  getEncodingValueIncrements js acc cur (len pre + 1) (pre ++ prev :: cur :: rest)
  = acc ++ match rest with
           | [] =>
               [(Some prev, Some cur);
                (Some cur,
                 Some (js_add js (Some cur)
                         (Some (VNumber (js_sub js (Some cur) (Some prev))))))]
           | _ => [(Some prev, Some cur)]
           end.
Proof.
  unfold getEncodingValueIncrements.
  pose proof (len_nonneg pre) as Hpre.
  destruct (Z.eqb_spec (len pre + 1) 0) as [E | _]; [lia |].
  destruct (Z.eqb_spec (len pre + 1 - 1) (-1)) as [E | _]; [lia |].
  cbn [andb].
  replace (len pre + 1 - 1) with (len pre) by lia.
  rewrite get_middle.
  replace (len pre + 1) with (len pre + 1) by reflexivity.
  rewrite get_middle_next.
  assert (Hlen : len (pre ++ prev :: cur :: rest) = len pre + 2 + len rest).
  { rewrite len_app. unfold len. cbn [List.length]. lia. }
  rewrite Hlen. clear Hlen.
  destruct rest as [| next rest].
  - change (len (@nil OlliValue)) with 0.
    destruct (Z.eqb_spec (len pre + 1) (len pre + 2 + 0 - 1)) as [_ | E]; [| lia].
    rewrite <- List.app_assoc. reflexivity.
  - pose proof (len_nonneg rest) as Hrest.
    assert (Hlen : len (next :: rest) = 1 + len rest).
    { unfold len. cbn [List.length]. lia. }
    rewrite Hlen.
    destruct (Z.eqb_spec (len pre + 1) (len pre + 2 + (1 + len rest) - 1))
      as [E | _]; [lia | reflexivity].
Qed.

Lemma reduce_from_interior (rest : list OlliValue) :
  forall (pre : list OlliValue) (prev : OlliValue) (acc : list Interval),
    reduce_from (getEncodingValueIncrements js) (pre ++ prev :: rest) rest
      (len pre + 1) acc
    = acc ++ interiorBuckets js prev rest.
Proof.
  induction rest as [| cur rest IH]; intros pre prev acc.
  - simpl. rewrite List.app_nil_r. reflexivity.
  - cbn [reduce_from]. rewrite increments_step.
    replace (pre ++ prev :: cur :: rest) with ((pre ++ [prev]) ++ cur :: rest)
      by (rewrite <- List.app_assoc; reflexivity).
    replace (len pre + 1 + 1) with (len (pre ++ [prev]) + 1)
      by (rewrite len_app; reflexivity).
    rewrite IH. destruct rest as [| next rest].
    + simpl. rewrite List.app_nil_r. reflexivity.
    + rewrite <- List.app_assoc. reflexivity.
Qed.

(** The reduction of the binner returns the buckets as the specification
    describes them. *)
Lemma reduce_buckets (ticks : list OlliValue) :
  reduce (getEncodingValueIncrements js) ticks [] = buckets js ticks.
Proof.
  destruct ticks as [| tick0 rest]; [reflexivity |].
  unfold reduce. cbn [reduce_from].
  etransitivity; [apply (reduce_from_interior rest [] tick0) |].
  unfold buckets, bucketBelow. f_equal.
  unfold getEncodingValueIncrements.
  change (0 =? 0) with true. change (0 - 1 =? -1) with true. cbn [andb].
  destruct (js_is_zero (Some tick0)); reflexivity.
Qed.

(** The intervals are the buckets of the ticks as the binner reads them,
    turned into dates when the ticks are dates. *)
Lemma intervals_of_normalized (values : list OlliValue) :
  axisValuesToIntervals js values
  = let increments := buckets js (normalizedTicks js values) in
    if nv_isDate (ensureAxisValuesNumeric js values)
    then map (fun value : Interval =>
                (Some (VDate (newDate js (fst value))),
                 Some (VDate (newDate js (snd value))))) increments
    else increments.
Proof. unfold axisValuesToIntervals, normalizedTicks. rewrite reduce_buckets. reflexivity. Qed.

End BinnerRefinement.

(** ** Consecutive buckets share a bound *)

Lemma chained_nth (intervals : list Interval) :
  chained intervals ->
  forall i ab cd,
    nth_error intervals i = Some ab -> nth_error intervals (Datatypes.S i) = Some cd ->
    snd ab = fst cd.
Proof.
  induction intervals as [| ab0 rest IH]; intros Hc i ab cd Hi Hj.
  - destruct i; discriminate.
  - destruct rest as [| cd0 rest]; [destruct i; discriminate |].
    destruct Hc as [Hb Hc]. destruct i as [| i].
    + simpl in Hi, Hj. congruence.
    + apply (IH Hc i); assumption.
Qed.

Lemma chained_cons (ab : Interval) (rest : list Interval) :
  chained rest -> snd ab = lowest rest \/ rest = [] -> chained (ab :: rest).
Proof.
  intros Hc H. destruct rest as [| cd rest]; [exact I |].
  destruct H as [H | H]; [| discriminate]. split; assumption.
Qed.

Lemma chained_map (g : JsValue -> JsValue) (intervals : list Interval) :
  chained intervals ->
  chained (map (fun ab : Interval => (g (fst ab), g (snd ab))) intervals).
Proof.
  induction intervals as [| ab rest IH]; intros Hc; [exact I |].
  destruct rest as [| cd rest]; [exact I |].
  destruct Hc as [Hb Hc]. split; [simpl; congruence | apply IH, Hc].
Qed.

Section SharedBounds.
Variable js : Builtins.

Lemma interior_lowest (prev cur : OlliValue) (rest : list OlliValue) :
  lowest (interiorBuckets js prev (cur :: rest)) = Some prev.
Proof. destruct rest; reflexivity. Qed.

Lemma interior_chained (rest : list OlliValue) :
  forall prev, chained (interiorBuckets js prev rest).
Proof.
  induction rest as [| cur rest IH]; intros prev; [exact I |].
  destruct rest as [| next rest].
  - simpl. auto.
  - change (chained ((Some prev, Some cur) :: interiorBuckets js cur (next :: rest))).
    apply chained_cons; [apply IH |].
    left. rewrite interior_lowest. reflexivity.
Qed.

Lemma buckets_chained (ticks : list OlliValue) : chained (buckets js ticks).
Proof.
  destruct ticks as [| tick0 rest]; [exact I |].
  unfold buckets, bucketBelow. destruct (js_is_zero (Some tick0)).
  - apply interior_chained.
  - cbn [app]. apply chained_cons; [apply interior_chained |].
    destruct rest as [| cur rest]; [right; reflexivity | left].
    rewrite interior_lowest. reflexivity.
Qed.

(** Whatever the ticks are, consecutive intervals share a bound. *)
Lemma axisValuesToIntervals_chained (values : list OlliValue) :
  chained (axisValuesToIntervals js values).
Proof.
  unfold axisValuesToIntervals. rewrite reduce_buckets.
  destruct (nv_isDate (ensureAxisValuesNumeric js values)).
  - apply (chained_map (fun v => Some (VDate (newDate js v)))), buckets_chained.
  - apply buckets_chained.
Qed.

End SharedBounds.

(** ** The buckets cover the values between their lowest and highest bound *)

Lemma num_eq_refl (a : number) : a <> NaN -> num_eq a a = true.
Proof.
  unfold num_eq, SFeqb. destruct a as [s | s | | s m e]; simpl; intros H;
    try destruct s; try reflexivity; try contradiction;
    rewrite Z.compare_refl, Pos.compare_cont_refl; reflexivity.
Qed.

Lemma innerBounds_cons (ab : Interval) (rest : list Interval) :
  innerBounds rest ->
  (rest = [] \/ exists t, snd ab = Some t /\ properTick t) ->
  innerBounds (ab :: rest).
Proof.
  intros Hr H. destruct rest as [| cd rest]; [exact I |].
  destruct H as [H | H]; [discriminate |]. split; assumption.
Qed.

Section Coverage.
Variable js : Builtins.

Lemma js_ge_number (a : number) (b : JsValue) :
  js_ge js (Some (VNumber a)) b = num_ge a (ToNumber js b).
Proof. destruct b as [[] |]; reflexivity. Qed.

Lemma js_lt_number (a : number) (b : JsValue) :
  js_lt js (Some (VNumber a)) b = num_lt a (ToNumber js b).
Proof. destruct b as [[] |]; reflexivity. Qed.

Lemma inInterval_number field (lo hi : JsValue) (d : OlliDatum) (a : number) :
  d !! field = Some (VNumber a) ->
  inInterval js field lo hi d
  = num_ge a (ToNumber js lo) && num_lt a (ToNumber js hi).
Proof.
  intros H. unfold inInterval. rewrite H, js_ge_number, js_lt_number. reflexivity.
Qed.

Lemma interior_innerBounds (rest : list OlliValue) :
  forall prev, Forall properTick rest -> innerBounds (interiorBuckets js prev rest).
Proof.
  induction rest as [| cur rest IH]; intros prev Hall; [exact I |].
  inversion Hall as [| ? ? Hcur Hrest]; subst.
  destruct rest as [| next rest].
  - simpl. split; [eauto | exact I].
  - change (innerBounds ((Some prev, Some cur) :: interiorBuckets js cur (next :: rest))).
    apply innerBounds_cons; [apply IH, Hrest | right; eauto].
Qed.

Lemma buckets_innerBounds (ticks : list OlliValue) :
  Forall properTick ticks -> innerBounds (buckets js ticks).
Proof.
  intros Hall. destruct ticks as [| tick0 rest]; [exact I |].
  inversion Hall as [| ? ? H0 Hrest]; subst.
  unfold buckets, bucketBelow. destruct (js_is_zero (Some tick0)).
  - apply interior_innerBounds, Hrest.
  - cbn [app]. apply innerBounds_cons; [apply interior_innerBounds, Hrest |].
    right. eauto.
Qed.

Lemma highest_cons (ab cd : Interval) (rest : list Interval) :
  highest (ab :: cd :: rest) = highest (cd :: rest).
Proof. reflexivity. Qed.

Lemma innerAll_cons (P : JsValue -> Prop) (ab : Interval) (rest : list Interval) :
  innerAll P rest -> rest = [] \/ P (snd ab) -> innerAll P (ab :: rest).
Proof.
  intros Hr H. destruct rest as [| cd rest]; [exact I |].
  destruct H as [H | H]; [discriminate |]. split; assumption.
Qed.

Lemma interior_innerAll (P : JsValue -> Prop) (rest : list OlliValue) :
  forall prev,
    Forall (fun t => P (Some t)) rest -> innerAll P (interiorBuckets js prev rest).
Proof.
  induction rest as [| cur rest IH]; intros prev Hall; [exact I |].
  inversion Hall as [| ? ? Hcur Hrest]; subst.
  destruct rest as [| next rest].
  - simpl. split; [exact Hcur | exact I].
  - change (innerAll P ((Some prev, Some cur) :: interiorBuckets js cur (next :: rest))).
    apply innerAll_cons; [apply IH, Hrest | right; exact Hcur].
Qed.

Lemma buckets_innerAll (P : JsValue -> Prop) (ticks : list OlliValue) :
  Forall (fun t => P (Some t)) ticks -> innerAll P (buckets js ticks).
Proof.
  intros Hall. destruct ticks as [| tick0 rest]; [exact I |].
  inversion Hall as [| ? ? H0 Hrest]; subst.
  unfold buckets, bucketBelow. destruct (js_is_zero (Some tick0)).
  - apply interior_innerAll, Hrest.
  - cbn [app]. apply innerAll_cons; [apply interior_innerAll, Hrest |].
    right. exact H0.
Qed.

Lemma innerAll_map (P : JsValue -> Prop) (g : JsValue -> JsValue)
    (intervals : list Interval) :
  innerAll (fun b => P (g b)) intervals ->
  innerAll P (map (fun ab : Interval => (g (fst ab), g (snd ab))) intervals).
Proof.
  induction intervals as [| ab rest IH]; intros H; [exact I |].
  destruct rest as [| cd rest]; [exact I |].
  destruct H as [Hb H]. split; [exact Hb | apply IH, H].
Qed.

(** When every tick stands for a number, so does every bound that two
    intervals share. *)
Lemma soundTicks_inner (values : list OlliValue) :
  soundTicks js values ->
  innerAll (fun b => ToNumber js b <> NaN) (axisValuesToIntervals js values).
Proof.
  unfold soundTicks. intros H. rewrite intervals_of_normalized. cbv zeta.
  destruct (nv_isDate (ensureAxisValuesNumeric js values)).
  - apply (innerAll_map (fun b => ToNumber js b <> NaN)
             (fun v => Some (VDate (newDate js v)))).
    apply (buckets_innerAll (fun b => ToNumber js (Some (VDate (newDate js b))) <> NaN)).
    exact H.
  - apply (buckets_innerAll (fun b => ToNumber js b <> NaN)). exact H.
Qed.

(** A number between the lowest and the highest bound of a chain of
    intervals, whose shared bounds stand for numbers, lies in one of them. *)
Lemma chain_cover (intervals : list Interval) :
  chained intervals -> innerAll (fun b => ToNumber js b <> NaN) intervals ->
  forall a : number,
    num_ge a (ToNumber js (lowest intervals)) = true ->
    num_lt a (ToNumber js (highest intervals)) = true ->
    exists ab,
      In ab intervals
      /\ num_ge a (ToNumber js (fst ab)) = true
      /\ num_lt a (ToNumber js (snd ab)) = true.
Proof.
  induction intervals as [| ab rest IH]; intros Hc Hb a Hlo Hhi.
  - simpl in Hlo. rewrite num_ge_nan_r in Hlo. discriminate.
  - destruct rest as [| cd rest].
    + exists ab. simpl. auto.
    + destruct Hc as [Hshare Hc]. destruct Hb as [Hb Hin].
      destruct (num_lt a (ToNumber js (snd ab))) eqn:Hab.
      * exists ab. split; [left; reflexivity |]. simpl in Hlo. auto.
      * destruct (num_ge_not_nan _ _ Hlo) as [Ha _].
        destruct (IH Hc Hin a) as [ab' [Hin' Hab']].
        -- simpl. rewrite <- Hshare. apply num_lt_or_ge; assumption.
        -- rewrite highest_cons in Hhi. exact Hhi.
        -- exists ab'. split; [right; exact Hin' | exact Hab'].
Qed.

End Coverage.

Section ContinuousAxis.
Variable js : Builtins.
Variable fmtValue : JsValue -> string.
Variable HierarchyLevel : Type.
Variable nodeTypeToHierarchyLevel : NodeType.t -> HierarchyLevel.
Variable hierarchyLevelToTokens : HierarchyLevel -> list Token.t.

Local Abbreviation build_axis :=
  (olliVisSpecToNode_axis js fmtValue HierarchyLevel nodeTypeToHierarchyLevel
     hierarchyLevelToTokens).

(** A continuous axis has one [filteredData] child per interval, in
    order, which selects the rows of the axis that the interval keeps. *)
Lemma continuous_children ty sel par chart fu fv (axis : Axis) n :
  g_type axis = continuous ->
  build_axis ty sel par chart fu fv axis = Ok n ->
  List.length (children n) = List.length (axisValuesToIntervals js (g_values axis))
  /\ forall k ab,
       nth_error (axisValuesToIntervals js (g_values axis)) k = Some ab ->
       exists c,
         nth_error (children n) k = Some c
         /\ type c = NodeType.filteredData
         /\ filterValue c = Some (FEncoding (ERange (fst ab) (snd ab)))
         /\ selected c = filterInterval js sel (g_field axis) (fst ab) (snd ab).
Proof.
  intros Hc H. apply axis_shape in H. destruct H as [d [cs [-> Hcs]]].
  rewrite Hc in Hcs. destruct (mapiM_Ok _ _ _ Hcs) as [Hlen Hnth].
  split; [exact Hlen |]. intros k ab Hk.
  destruct (Hnth k ab Hk) as [c [Hck Hb]].
  apply filteredData_shape in Hb. destruct Hb as [d' [cs' [-> _]]].
  exists (mkNode NodeType.filteredData (Some ty)
            (filterInterval js sel (g_field axis) (fst ab) (snd ab))
            (Some (FEncoding (ERange (fst ab) (snd ab)))) None d' cs' None).
  repeat split. exact Hck.
Qed.

(** C4, as the program has it.  Whatever the ticks are, consecutive
    intervals of a continuous axis share a bound, and a row of the axis
    whose field is a number is selected by a child of the axis exactly when
    the number lies in one of the intervals, its lower bound included and
    its upper bound excluded.  When the ticks, as the binner reads them,
    are numbers other than NaN (numbers, or strings that parse), the
    shared bound is a number equal to itself under [==].  When every tick
    stands for a number (numbers other than NaN, strings that parse, valid
    dates), every row of the axis whose field is a number between the lower
    bound of the first interval and the upper bound of the last one is
    selected by some child of the axis. *)
Theorem intervals_share_bounds_and_cover ty sel par chart fu fv (axis : Axis) n :
  g_type axis = continuous ->
  build_axis ty sel par chart fu fv axis = Ok n ->
  let intervals := axisValuesToIntervals js (g_values axis) in
  (forall i ab cd,
      nth_error intervals i = Some ab ->
      nth_error intervals (Datatypes.S i) = Some cd ->
      snd ab = fst cd)
  /\ (forall (d : OlliDatum) (a : number),
         In d sel ->
         d !! g_field axis = Some (VNumber a) ->
         ((exists c, In c (children n) /\ In d (selected c))
          <-> exists ab,
                In ab intervals
                /\ num_ge a (ToNumber js (fst ab)) = true
                /\ num_lt a (ToNumber js (snd ab)) = true))
  /\ (nv_isDate (ensureAxisValuesNumeric js (g_values axis)) = false ->
      Forall properTick (normalizedTicks js (g_values axis)) ->
      forall i ab cd,
        nth_error intervals i = Some ab ->
        nth_error intervals (Datatypes.S i) = Some cd ->
        exists t, snd ab = Some (VNumber t) /\ fst cd = Some (VNumber t)
                  /\ num_eq t t = true)
  /\ (soundTicks js (g_values axis) ->
      forall (d : OlliDatum) (a : number),
        In d sel ->
        d !! g_field axis = Some (VNumber a) ->
        num_ge a (ToNumber js (lowest intervals)) = true ->
        num_lt a (ToNumber js (highest intervals)) = true ->
        exists c, In c (children n) /\ In d (selected c)).
Proof.
  intros Hc H intervals.
  pose proof (axisValuesToIntervals_chained js (g_values axis)) as Hchain.
  fold intervals in Hchain.
  destruct (continuous_children _ _ _ _ _ _ _ _ Hc H) as [Hlen Hnth].
  fold intervals in Hlen, Hnth.
  assert (Hkept : forall (d : OlliDatum) (a : number) ab,
             In d sel -> d !! g_field axis = Some (VNumber a) ->
             In ab intervals ->
             num_ge a (ToNumber js (fst ab)) = true ->
             num_lt a (ToNumber js (snd ab)) = true ->
             exists c, In c (children n) /\ In d (selected c)).
  { intros d a ab Hd Ha Hin Hge Hlt.
    destruct (In_nth_error _ _ Hin) as [k Hk].
    destruct (Hnth k ab Hk) as [c [Hck [_ [_ Hsel]]]].
    exists c. split; [eapply nth_error_In, Hck |].
    rewrite Hsel. unfold filterInterval. apply List.filter_In.
    split; [exact Hd |].
    rewrite (inInterval_number js _ _ _ _ _ Ha), Hge, Hlt. reflexivity. }
  split; [apply chained_nth, Hchain |].
  split; [| split].
  - intros d a Hd Ha. split.
    + intros [c [Hcin Hdc]].
      destruct (In_nth_error _ _ Hcin) as [k Hk].
      assert (Hlt : (k < List.length intervals)%nat).
      { rewrite <- Hlen. apply nth_error_Some. congruence. }
      destruct (nth_error intervals k) as [ab |] eqn:Eab;
        [| apply nth_error_None in Eab; lia].
      destruct (Hnth k ab Eab) as [c' [Hck [_ [_ Hsel]]]].
      assert (c' = c) by congruence. subst c'.
      rewrite Hsel in Hdc. unfold filterInterval in Hdc.
      apply List.filter_In in Hdc. destruct Hdc as [_ Hdc].
      rewrite (inInterval_number js _ _ _ _ _ Ha) in Hdc.
      apply andb_true_iff in Hdc. destruct Hdc as [Hge Hlo].
      exists ab. split; [eapply nth_error_In, Eab | split; assumption].
    + intros [ab [Hin [Hge Hlo]]]. apply (Hkept d a ab); assumption.
  - intros Hdate Hticks.
    assert (Hinner : innerBounds intervals).
    { unfold intervals. rewrite intervals_of_normalized. cbv zeta. rewrite Hdate.
      apply buckets_innerBounds, Hticks. }
    clear H Hlen Hnth Hkept. revert Hchain Hinner. generalize intervals. clear.
    intros intervals. induction intervals as [| ab0 rest IH]; intros Hchain Hinner i ab cd Hi Hj.
    + destruct i; discriminate.
    + destruct rest as [| cd0 rest]; [destruct i; discriminate |].
      destruct Hchain as [Hs Hchain]. destruct Hinner as [[t [Ht [b [-> Hb]]]] Hinner].
      destruct i as [| i].
      * simpl in Hi, Hj. inv_Ok Hi. inv_Ok Hj. exists b.
        repeat split; [exact Ht | congruence | apply num_eq_refl, Hb].
      * apply (IH Hchain Hinner i); assumption.
  - intros Hticks d a Hd Ha Hlo Hhi.
    destruct (chain_cover js intervals Hchain (soundTicks_inner js _ Hticks) a Hlo Hhi)
      as [ab [Hin [Hge Hlt]]].
    apply (Hkept d a ab); assumption.
Qed.

End ContinuousAxis.

(** C4, as the specification states it, fails: with the ticks [10, 20, 30]
    the buckets end at 40, and a row whose value is 45 is selected by the
    axis and by none of its children. *)
Lemma row_above_last_bucket_dropped :
  exists tree axisNode,
    Sample.buildTree (SChart outOfRangeChart) = Ok tree
    /\ children (root tree) = [axisNode]
    /\ type axisNode = NodeType.xAxis
    /\ selected axisNode = [Sample.row1 "a" (Sample.int 45)]
    /\ Sample.row1 "a" (Sample.int 45) !! "a" = Some (VNumber (num 45))
    /\ List.length (children axisNode) = 4%nat
    /\ Forall (fun c => selected c = []) (children axisNode).
Proof.
  eexists. eexists.
  split; [vm_compute; reflexivity |].
  split; [reflexivity |].
  repeat split; try (vm_compute; reflexivity).
  repeat constructor.
Qed.

Lemma intervals_share_bounds_and_cover_witness :
  exists n,
    g_type commaTicksAxis = continuous
    /\ olliVisSpecToNode_axis Sample.js Sample.fmtValue Sample.HierarchyLevel
         Sample.nodeTypeToHierarchyLevel Sample.hierarchyLevelToTokens
         NodeType.xAxis (c_data commaTicksChart) (Some NodeType.chart) commaTicksChart
         ["a"] None commaTicksAxis = Ok n
    /\ soundTicks Sample.js (g_values commaTicksAxis)
    /\ exists c, In c (children n)
                 /\ In (Sample.row1 "a" (Sample.int 2500)) (selected c).
Proof.
  assert (H1 : g_type commaTicksAxis = continuous) by reflexivity.
  eassert (H2 : olliVisSpecToNode_axis Sample.js Sample.fmtValue Sample.HierarchyLevel
                  Sample.nodeTypeToHierarchyLevel Sample.hierarchyLevelToTokens
                  NodeType.xAxis (c_data commaTicksChart) (Some NodeType.chart)
                  commaTicksChart ["a"] None commaTicksAxis = Ok _)
    by (vm_compute; reflexivity).
  assert (H3 : soundTicks Sample.js (g_values commaTicksAxis)).
  { unfold soundTicks. repeat constructor; vm_compute; discriminate. }
  eexists. split; [exact H1 |]. split; [exact H2 |]. split; [exact H3 |].
  destruct (intervals_share_bounds_and_cover Sample.js Sample.fmtValue
              Sample.HierarchyLevel Sample.nodeTypeToHierarchyLevel
              Sample.hierarchyLevelToTokens
              NodeType.xAxis (c_data commaTicksChart) (Some NodeType.chart)
              commaTicksChart ["a"] None commaTicksAxis _ H1 H2)
    as [_ [_ [_ Hcover]]].
  apply (Hcover H3 (Sample.row1 "a" (Sample.int 2500)) (num 2500)).
  - left. reflexivity.
  - vm_compute. reflexivity.
  - vm_compute. reflexivity.
  - vm_compute. reflexivity.
Defined.

(** With ticks that are not sorted the intervals overlap the range from
    the lower bound of the first to the upper bound of the last only in
    part: with the ticks [10, 30, 20] the intervals are [-10, 10],
    [10, 30], [30, 20] and [20, 10], and a row whose value is 25, above the
    last upper bound, is selected by the second child. *)
Example unsorted_ticks_keep_a_row_outside_the_bounds :
  exists n,
    olliVisSpecToNode_axis Sample.js Sample.fmtValue Sample.HierarchyLevel
      Sample.nodeTypeToHierarchyLevel Sample.hierarchyLevelToTokens
      NodeType.xAxis (c_data unsortedTicksChart) (Some NodeType.chart) unsortedTicksChart
      ["a"] None unsortedTicksAxis = Ok n
    /\ axisValuesToIntervals Sample.js (g_values unsortedTicksAxis)
       = [Sample.range (-10) 10; Sample.range 10 30; Sample.range 30 20;
          Sample.range 20 10]
    /\ num_lt (num 25)
              (ToNumber Sample.js
                 (highest (axisValuesToIntervals Sample.js (g_values unsortedTicksAxis))))
       = false
    /\ map selected (children n) = [[]; [Sample.row1 "a" (Sample.int 25)]; []; []].
Proof.
  eexists. split; [vm_compute; reflexivity |].
  split; [vm_compute; reflexivity |].
  split; vm_compute; reflexivity.
Qed.

(** ** The grid *)

Lemma cartesian_length {A B} (xs : list A) (ys : list B) :
  List.length (cartesian xs ys) = (List.length xs * List.length ys)%nat.
Proof.
  unfold cartesian. induction xs as [| a xs IH]; simpl; [reflexivity |].
  rewrite List.length_app, List.length_map, IH. reflexivity.
Qed.

Lemma cartesian_nth {A B} (xs : list A) (ys : list B) :
  forall (i j : nat) (a : A) (b : B),
    nth_error xs i = Some a -> nth_error ys j = Some b ->
    nth_error (cartesian xs ys) (i * List.length ys + j) = Some (a, b).
Proof.
  unfold cartesian. induction xs as [| a0 xs IH]; intros i j a b Hi Hj.
  - destruct i; discriminate.
  - assert (Hlt : (j < List.length ys)%nat) by (apply nth_error_Some; congruence).
    simpl. destruct i as [| i].
    + simpl in Hi. inv_Ok Hi. simpl.
      rewrite List.nth_error_app1 by (rewrite List.length_map; exact Hlt).
      apply List.map_nth_error. exact Hj.
    + simpl in Hi.
      rewrite List.nth_error_app2 by (rewrite List.length_map; simpl; lia).
      rewrite List.length_map.
      replace (Datatypes.S i * List.length ys + j - List.length ys)%nat
        with (i * List.length ys + j)%nat by (simpl; lia).
      apply IH; assumption.
Qed.

(** The cell at a position of the cross product, by the row and the
    column of the position. *)
Lemma cartesian_cell {A B} (xs : list A) (ys : list B) (index : nat) :
  (index < List.length xs * List.length ys)%nat ->
  exists a b,
    nth_error xs (index / List.length ys) = Some a
    /\ nth_error ys (index mod List.length ys) = Some b
    /\ nth_error (cartesian xs ys) index = Some (a, b).
Proof.
  intros Hlt.
  assert (Hy : List.length ys <> 0%nat) by (intros E; rewrite E in Hlt; lia).
  assert (Hi : (index / List.length ys < List.length xs)%nat).
  { apply Nat.Div0.div_lt_upper_bound. lia. }
  assert (Hj : (index mod List.length ys < List.length ys)%nat).
  { apply Nat.mod_upper_bound, Hy. }
  destruct (nth_error xs (index / List.length ys)) as [a |] eqn:Ea;
    [| apply nth_error_None in Ea; lia].
  destruct (nth_error ys (index mod List.length ys)) as [b |] eqn:Eb;
    [| apply nth_error_None in Eb; lia].
  exists a, b. repeat split.
  rewrite <- (cartesian_nth xs ys _ _ a b Ea Eb). f_equal.
  rewrite Nat.mul_comm. apply Nat.div_mod_eq.
Qed.

Lemma filter_filter {A} (f g : A -> bool) (l : list A) :
  List.filter g (List.filter f l) = List.filter (fun a => f a && g a) l.
Proof.
  induction l as [| a l IH]; simpl; [reflexivity |].
  destruct (f a); simpl; [destruct (g a) |]; rewrite IH; reflexivity.
Qed.

Section Grid.
Variable js : Builtins.
Variable fmtValue : JsValue -> string.
Variable HierarchyLevel : Type.
Variable nodeTypeToHierarchyLevel : NodeType.t -> HierarchyLevel.
Variable hierarchyLevelToTokens : HierarchyLevel -> list Token.t.

Local Abbreviation build_chart :=
  (olliVisSpecToNode_chart js fmtValue HierarchyLevel nodeTypeToHierarchyLevel
     hierarchyLevelToTokens).

(** C6: a chart with a grid has it as its last child.  The grid has one
    [filteredData] child per pair of an interval of the first x axis and an
    interval of the first y axis, the x interval varying slowest; the child
    at a position carries the quotient and the remainder of the position by
    the number of y intervals as its grid index (the program names the two
    coordinates [i] and [j]), and selects, in their order, the rows of the
    grid that both the x filter and the y filter keep. *)
Theorem grid_cells sel par chart fu fv index length n :
  build_chart sel par chart fu fv index length = Ok n ->
  hasGrid chart = true ->
  exists front g xAxis yAxis,
    children n = front ++ [g]
    /\ type g = NodeType.grid
    /\ selected g = sel
    /\ List.find isX (axes chart) = Some xAxis
    /\ List.find isY (axes chart) = Some yAxis
    /\ let xIntervals := axisValuesToIntervals js (g_values xAxis) in
       let yIntervals := axisValuesToIntervals js (g_values yAxis) in
       List.length (children g) = (List.length xIntervals * List.length yIntervals)%nat
       /\ forall position,
            (position < List.length xIntervals * List.length yIntervals)%nat ->
            exists c xb yb,
              nth_error (children g) position = Some c
              /\ nth_error xIntervals (position / List.length yIntervals) = Some xb
              /\ nth_error yIntervals (position mod List.length yIntervals) = Some yb
              /\ type c = NodeType.filteredData
              /\ gridIndex c
                 = Some (GridIndex.mk (position / List.length yIntervals)
                                      (position mod List.length yIntervals))
              /\ filterValue c
                 = Some (FGrid (ERange (fst xb) (snd xb)) (ERange (fst yb) (snd yb)))
              /\ selected c
                 = List.filter
                     (fun d => inInterval js (g_field xAxis) (fst xb) (snd xb) d
                               && inInterval js (g_field yAxis) (fst yb) (snd yb) d)
                     (selected g)
              /\ forall d,
                   In d (selected c)
                   <-> In d (filterInterval js (selected g) (g_field xAxis) (fst xb) (snd xb))
                       /\ In d (filterInterval js (selected g) (g_field yAxis) (fst yb) (snd yb)).
Proof.
  intros H Hgrid. apply chart_shape in H.
  destruct H as [d [axisNodes [legendNodes [gridNodes [-> [_ [_ Hg]]]]]]].
  rewrite Hgrid in Hg. destruct Hg as [g [Hg ->]].
  apply grid_shape in Hg.
  destruct Hg as [xAxis [yAxis [dg [cs [Hx [Hy [-> Hcs]]]]]]].
  eexists (axisNodes ++ legendNodes), _, xAxis, yAxis.
  split; [simpl; rewrite List.app_assoc; reflexivity |].
  repeat (split; [first [reflexivity | assumption] |]).
  intros xIntervals yIntervals. cbn [children selected].
  destruct (mapiM_Ok _ _ _ Hcs) as [Hlen Hnth].
  split; [rewrite Hlen; apply cartesian_length |].
  intros position Hlt.
  destruct (cartesian_cell xIntervals yIntervals position Hlt) as [xb [yb [Hxb [Hyb Hcell]]]].
  destruct (Hnth position (xb, yb) Hcell) as [c [Hc Hb]].
  apply filteredData_shape in Hb. destruct Hb as [dc [csc [-> _]]].
  cbn [fst snd] in Hc.
  eexists _, xb, yb.
  split; [exact Hc |].
  split; [exact Hxb |]. split; [exact Hyb |].
  cbn [type gridIndex filterValue selected].
  repeat (split; [reflexivity |]).
  unfold filterInterval. split; [apply filter_filter |].
  intros r. rewrite filter_filter, !List.filter_In, andb_true_iff. tauto.
Qed.

End Grid.

Lemma grid_cells_witness :
  exists n,
    olliVisSpecToNode_chart Sample.js Sample.fmtValue Sample.HierarchyLevel
      Sample.nodeTypeToHierarchyLevel Sample.hierarchyLevelToTokens
      (c_data scatterChart) None scatterChart ["a"; "b"] None None None = Ok n
    /\ hasGrid scatterChart = true
    /\ exists front g, children n = front ++ [g] /\ List.length (children g) = 12%nat.
Proof.
  eexists.
  split; [vm_compute; reflexivity |].
  assert (H2 : hasGrid scatterChart = true) by reflexivity.
  split; [exact H2 |].
  match goal with
  | |- exists front g, children ?n = _ /\ _ =>
      destruct (grid_cells Sample.js Sample.fmtValue Sample.HierarchyLevel
                  Sample.nodeTypeToHierarchyLevel Sample.hierarchyLevelToTokens
                  (c_data scatterChart) None scatterChart ["a"; "b"] None None None n)
        as [front [g [xAxis [yAxis [Hch [_ [_ [Hx [Hy [Hlen _]]]]]]]]]];
        [vm_compute; reflexivity | exact H2 |]
  end.
  exists front, g. split; [exact Hch |].
  vm_compute in Hx. vm_compute in Hy. inv_Ok Hx. inv_Ok Hy.
  rewrite Hlen. vm_compute. reflexivity.
Defined.

(** The cells of the example scatterplot: the rows of each, by their
    values of [a], cell after cell. *)
Example scatter_grid_cells :
  match Sample.buildTree (SChart scatterChart) with
  | Ok tree =>
      match List.last (children (root tree)) (root tree) with
      | g =>
          map (fun c => (gridIndex c,
                         map (fun r : OlliDatum => r !! "a") (selected c)))
              (children g)
      end
  | Throw _ => []
  end
  = [(Some (GridIndex.mk 0 0), [Some (Sample.int 1); Some (Sample.int 3)]);
     (Some (GridIndex.mk 0 1), []);
     (Some (GridIndex.mk 0 2), []);
     (Some (GridIndex.mk 0 3), []);
     (Some (GridIndex.mk 1 0), []);
     (Some (GridIndex.mk 1 1), [Some (Sample.int 12)]);
     (Some (GridIndex.mk 1 2), [Some (Sample.int 15)]);
     (Some (GridIndex.mk 1 3), []);
     (Some (GridIndex.mk 2 0), []);
     (Some (GridIndex.mk 2 1), []);
     (Some (GridIndex.mk 2 2), []);
     (Some (GridIndex.mk 2 3), [])].
Proof. vm_compute. reflexivity. Qed.

(** ** When the description of a node is built, and when it is not *)

Section Descriptions.
Variable js : Builtins.
Variable fmtValue : JsValue -> string.
Variable HierarchyLevel : Type.
Variable nodeTypeToHierarchyLevel : NodeType.t -> HierarchyLevel.
Variable hierarchyLevelToTokens : HierarchyLevel -> list Token.t.

Local Abbreviation describe :=
  (describeNode js fmtValue HierarchyLevel nodeTypeToHierarchyLevel
     hierarchyLevelToTokens).
Local Abbreviation tokensOf t := (hierarchyLevelToTokens (nodeTypeToHierarchyLevel t)).

Lemma describeTokens_total node spec fv guide idx len (tokens : list Token.t) :
  (forall token, In token tokens ->
                 exists d, tokenFunctions js fmtValue node spec fv guide idx len token = Ok d) ->
  forall acc, exists description,
    describeTokens js fmtValue node spec fv guide idx len tokens acc = Ok description.
Proof.
  induction tokens as [| token tokens IH]; intros H acc; simpl; [eauto |].
  destruct (H token) as [d Hd]; [left; reflexivity |].
  rewrite Hd. simpl. apply IH. intros t Ht. apply H. right. exact Ht.
Qed.

Lemma describeTokens_Throw node spec fv guide idx len (tokens : list Token.t) token :
  In token tokens ->
  (exists msg, tokenFunctions js fmtValue node spec fv guide idx len token = Throw msg) ->
  forall acc, exists msg,
    describeTokens js fmtValue node spec fv guide idx len tokens acc = Throw msg.
Proof.
  intros Hin [msg Hmsg].
  induction tokens as [| token' tokens IH]; intros acc; [contradiction |].
  simpl.
  destruct (tokenFunctions js fmtValue node spec fv guide idx len token') as [d | msg'] eqn:E;
    simpl; [| eauto].
  destruct Hin as [-> | Hin]; [congruence |]. apply IH, Hin.
Qed.

(** The node is described when every token of its level succeeds. *)
Lemma describeNode_total node spec fv guide idx len :
  (forall token, In token (tokensOf (type node)) ->
                 exists d, tokenFunctions js fmtValue node spec fv guide idx len token = Ok d) ->
  exists d, describe node spec fv guide idx len = Ok (withDescription node d).
Proof.
  intros H. unfold describeNode, nodeToDesc.
  destruct (describeTokens_total _ _ _ _ _ _ _ H []) as [d ->]. simpl. eauto.
Qed.

(** The node is not described when one token of its level throws. *)
Lemma describeNode_Throw node spec fv guide idx len token :
  In token (tokensOf (type node)) ->
  (exists msg, tokenFunctions js fmtValue node spec fv guide idx len token = Throw msg) ->
  exists msg, describe node spec fv guide idx len = Throw msg.
Proof.
  intros Hin H. unfold describeNode, nodeToDesc.
  destruct (describeTokens_Throw _ _ _ _ _ _ _ _ Hin H []) as [msg ->]. simpl. eauto.
Qed.

Hypothesis table_ok : tableOk HierarchyLevel nodeTypeToHierarchyLevel hierarchyLevelToTokens.

Lemma table_handles (t : NodeType.t) (token : Token.t) :
  In token (tokensOf t) -> handles t token = true.
Proof.
  intros Hin. pose proof (table_ok t) as H.
  rewrite forallb_forall in H. apply H, Hin.
Qed.

Lemma data_described (r : OlliDatum) par d cs keys spec fv guide idx len :
  exists d',
    describe (mkNode NodeType.data par [r] None None d cs (Some keys)) spec fv guide idx len
    = Ok (mkNode NodeType.data par [r] None None d' cs (Some keys)).
Proof.
  apply (describeNode_total (mkNode NodeType.data par [r] None None d cs (Some keys))).
  intros token Hin. apply table_handles in Hin.
  destruct token; try discriminate; simpl.
  - unfold token_data, datum. simpl.
    destruct (mapM_total
                (fun field : string =>
                   Ok (quoted field +:+ ": " +:+ quoted (fmtValue (r !! field)))) keys)
      as [parts ->]; [eauto |]. simpl. eauto.
  - unfold token_parent. simpl. eauto.
Qed.

Lemma filteredData_described par sel filt gi d cs spec fv guide idx len :
  match par, filt with
  | _, None => True
  | Some NodeType.grid, Some (FGrid _ _) => True
  | Some NodeType.grid, Some (FEncoding _) => False
  | _, Some (FEncoding _) => True
  | _, Some (FGrid _ _) => False
  end ->
  exists d',
    describe (mkNode NodeType.filteredData par sel filt gi d cs None) spec fv guide idx len
    = Ok (mkNode NodeType.filteredData par sel filt gi d' cs None).
Proof.
  intros Hshape.
  apply (describeNode_total (mkNode NodeType.filteredData par sel filt gi d cs None)).
  intros token Hin. apply table_handles in Hin.
  destruct token; try discriminate; simpl.
  - unfold token_index. simpl. eauto.
  - unfold token_data, parentIs. simpl.
    destruct par as [[] |], filt as [[e | ex ey] |]; simpl; try contradiction; eauto.
  - unfold token_size. simpl. eauto.
  - unfold token_parent. simpl. eauto.
Qed.

Lemma legend_described par sel d cs keys spec fv (legend : Legend) idx len :
  exists d',
    describe (mkNode NodeType.legend par sel None None d cs keys) spec fv
      (Some (GLegend legend)) idx len
    = Ok (mkNode NodeType.legend par sel None None d' cs keys).
Proof.
  apply (describeNode_total (mkNode NodeType.legend par sel None None d cs keys)).
  intros token Hin. apply table_handles in Hin.
  destruct token; try discriminate; simpl.
  - unfold token_name. simpl. eauto.
  - unfold token_type. simpl. eauto.
  - unfold token_data. simpl.
    destruct (g_type legend); [destruct (_ =? 2)%nat |]; eauto.
  - unfold token_size. simpl. eauto.
  - unfold token_parent. simpl. eauto.
  - unfold token_aggregate. simpl. eauto.
Qed.

Lemma axis_described ty par sel d cs keys spec fv (axis : Axis) idx len :
  ty = NodeType.xAxis \/ ty = NodeType.yAxis ->
  g_scaleType axis <> Some "quantitative" \/ sel <> [] ->
  exists d',
    describe (mkNode ty par sel None None d cs keys) spec fv (Some (GAxis axis)) idx len
    = Ok (mkNode ty par sel None None d' cs keys).
Proof.
  intros Hty Hagg.
  apply (describeNode_total (mkNode ty par sel None None d cs keys)).
  intros token Hin. apply table_handles in Hin.
  destruct Hty as [-> | ->]; destruct token; try discriminate; simpl;
    try (unfold token_name; simpl; eauto);
    try (unfold token_type; simpl; eauto);
    try (unfold token_size; simpl; eauto);
    try (unfold token_parent; simpl; eauto);
    try (unfold token_data; simpl;
         destruct (g_type axis); [destruct (_ =? 2)%nat |]; eauto).
  all: unfold token_aggregate; simpl.
  all: destruct (isQuantitative axis) eqn:Eq; simpl; [| eauto].
  all: unfold maximumValue, minimumValue; rewrite Eq; simpl.
  all: destruct sel as [| d0 sel]; simpl; [| eauto].
  all: destruct Hagg as [Hq | Hs]; [| contradiction].
  all: exfalso; apply Hq; unfold isQuantitative, optStringIs in Eq.
  all: destruct (g_scaleType axis) as [s |]; [| discriminate].
  all: apply String.eqb_eq in Eq; congruence.
Qed.

End Descriptions.

(** ** The nodes that are always built *)

Section Built.
Variable js : Builtins.
Variable fmtValue : JsValue -> string.
Variable HierarchyLevel : Type.
Variable nodeTypeToHierarchyLevel : NodeType.t -> HierarchyLevel.
Variable hierarchyLevelToTokens : HierarchyLevel -> list Token.t.
Hypothesis table_ok : tableOk HierarchyLevel nodeTypeToHierarchyLevel hierarchyLevelToTokens.

Local Abbreviation build_data :=
  (olliVisSpecToNode_data js fmtValue HierarchyLevel nodeTypeToHierarchyLevel
     hierarchyLevelToTokens).
Local Abbreviation build_filteredData :=
  (olliVisSpecToNode_filteredData js fmtValue HierarchyLevel nodeTypeToHierarchyLevel
     hierarchyLevelToTokens).
Local Abbreviation build_discrete :=
  (discreteChildren js fmtValue HierarchyLevel nodeTypeToHierarchyLevel
     hierarchyLevelToTokens).
Local Abbreviation build_axis :=
  (olliVisSpecToNode_axis js fmtValue HierarchyLevel nodeTypeToHierarchyLevel
     hierarchyLevelToTokens).
Local Abbreviation build_legend :=
  (olliVisSpecToNode_legend js fmtValue HierarchyLevel nodeTypeToHierarchyLevel
     hierarchyLevelToTokens).

Lemma data_built (r : OlliDatum) par chart fu fv guide index length :
  exists n, build_data [r] par chart fu fv guide index length = Ok n.
Proof.
  unfold olliVisSpecToNode_data, withTableKeys, newNode.
  cbn [type parent selected filterValue gridIndex description children tableKeys].
  match goal with
  | |- exists n, describeNode _ _ _ _ _ (mkNode _ _ _ _ _ _ _ (Some ?keys)) _ _ _ _ _ = _ =>
      destruct (data_described js fmtValue HierarchyLevel nodeTypeToHierarchyLevel
                  hierarchyLevelToTokens table_ok r par [] [] keys (SChart chart) fv
                  guide index length) as [d' Hd]
  end.
  rewrite Hd. eauto.
Qed.

Lemma filteredData_built sel par chart fu fv filt guide index length gi :
  match par, filt with
  | _, None => True
  | Some NodeType.grid, Some (FGrid _ _) => True
  | Some NodeType.grid, Some (FEncoding _) => False
  | _, Some (FEncoding _) => True
  | _, Some (FGrid _ _) => False
  end ->
  exists n, build_filteredData sel par chart fu fv filt guide index length gi = Ok n.
Proof.
  intros Hshape. unfold olliVisSpecToNode_filteredData.
  destruct (mapiM_total
              (fun datum index =>
                 build_data [datum] (Some NodeType.filteredData) chart fu fv guide
                   (Some index) (Some (List.length sel))) sel) as [cs ->].
  { intros r k _. apply data_built. }
  cbn [bind]. unfold withChildren, newNode.
  cbn [type parent selected filterValue gridIndex description children tableKeys].
  destruct (filteredData_described js fmtValue HierarchyLevel nodeTypeToHierarchyLevel
              hierarchyLevelToTokens table_ok par sel filt gi [] cs (SChart chart) fv
              guide index length Hshape) as [d' Hd].
  rewrite Hd. eauto.
Qed.

Lemma discrete_built ty sel chart fu fv guide :
  ty <> NodeType.grid ->
  exists cs, build_discrete ty sel chart fu fv guide = Ok cs.
Proof.
  intros Hty. unfold discreteChildren. apply mapiM_total.
  intros value k _. apply filteredData_built.
  destruct ty; try exact I. contradiction.
Qed.

Lemma legend_built sel par chart fu fv (legend : Legend) :
  exists n, build_legend sel par chart fu fv legend = Ok n.
Proof.
  unfold olliVisSpecToNode_legend.
  assert (Hcs : exists cs,
             match g_type legend with
             | discrete =>
                 build_discrete NodeType.legend sel chart fu fv (GLegend legend)
             | continuous => Ok []
             end = Ok cs).
  { destruct (g_type legend); [apply discrete_built; discriminate | eauto]. }
  destruct Hcs as [cs ->]. cbn [bind]. unfold withChildren, newNode.
  cbn [type parent selected filterValue gridIndex description children tableKeys].
  destruct (legend_described js fmtValue HierarchyLevel nodeTypeToHierarchyLevel
              hierarchyLevelToTokens table_ok par sel [] cs None (SChart chart) fv
              legend None None) as [d' Hd].
  rewrite Hd. eauto.
Qed.

Lemma axis_built ty sel par chart fu fv (axis : Axis) :
  ty = NodeType.xAxis \/ ty = NodeType.yAxis ->
  g_scaleType axis <> Some "quantitative" \/ sel <> [] ->
  exists n, build_axis ty sel par chart fu fv axis = Ok n.
Proof.
  intros Hty Hagg. unfold olliVisSpecToNode_axis.
  assert (Hgrid : ty <> NodeType.grid) by (destruct Hty as [-> | ->]; discriminate).
  match goal with
  | |- exists n, bind ?children _ = _ =>
      assert (Hcs : exists cs, children = Ok cs)
  end.
  { destruct (g_type axis); [apply discrete_built, Hgrid |].
    apply mapiM_total. intros [a b] k _. apply filteredData_built.
    destruct ty; try exact I. contradiction. }
  destruct Hcs as [cs ->]. cbn [bind]. unfold withChildren, newNode.
  cbn [type parent selected filterValue gridIndex description children tableKeys].
  destruct (axis_described js fmtValue HierarchyLevel nodeTypeToHierarchyLevel
              hierarchyLevelToTokens table_ok ty par sel [] cs None (SChart chart) fv
              axis None None Hty Hagg) as [d' Hd].
  rewrite Hd. eauto.
Qed.

End Built.

Lemma sample_table_ok :
  tableOk Sample.HierarchyLevel Sample.nodeTypeToHierarchyLevel
    Sample.hierarchyLevelToTokens.
Proof. intros []; reflexivity. Qed.

(** ** A single tick *)

Lemma inInterval_nan_l js field (hi : JsValue) (datum : OlliDatum) :
  inInterval js field (Some (VNumber NaN)) hi datum = false.
Proof.
  unfold inInterval.
  match goal with |- js_ge _ ?v _ && _ = _ => generalize v end.
  intros v. unfold js_ge.
  replace (both_strings v (Some (VNumber NaN))) with (@None (string * string))
    by (destruct v as [[] |]; reflexivity).
  simpl. rewrite num_ge_nan_r. reflexivity.
Qed.

Lemma filterInterval_nan_l js (sel : OlliDataset) field (hi : JsValue) :
  filterInterval js sel field (Some (VNumber NaN)) hi = [].
Proof.
  unfold filterInterval. induction sel as [| d sel IH]; simpl; [reflexivity |].
  rewrite inInterval_nan_l. exact IH.
Qed.

Lemma single_tick_intervals js (v : number) :
  num_eq v (num 0) = false ->
  axisValuesToIntervals js [VNumber v] = [(Some (VNumber NaN), Some (VNumber v))].
Proof.
  intros Hv. unfold axisValuesToIntervals, ensureAxisValuesNumeric.
  cbn [forallb isString isDate andb nv_values nv_isDate].
  unfold reduce. cbn [reduce_from].
  unfold getEncodingValueIncrements, js_is_zero.
  rewrite Hv.
  change ((0 =? 0) && false) with false.
  change ((0 - 1 =? -1) && negb false) with true.
  change (get [VNumber v] (0 + 1)) with (@None OlliValue).
  cbv iota. unfold js_sub. cbn [ToNumber app].
  rewrite num_sub_nan_l, num_sub_nan_r. reflexivity.
Qed.

Section SingleTick.
Variable js : Builtins.
Variable fmtValue : JsValue -> string.
Variable HierarchyLevel : Type.
Variable nodeTypeToHierarchyLevel : NodeType.t -> HierarchyLevel.
Variable hierarchyLevelToTokens : HierarchyLevel -> list Token.t.

Local Abbreviation build_axis :=
  (olliVisSpecToNode_axis js fmtValue HierarchyLevel nodeTypeToHierarchyLevel
     hierarchyLevelToTokens).

(** C10: when the ticks of a continuous axis are a single number [v] other
    than zero, the binner returns the one interval [NaN, v]; the axis node,
    when it is built, has one [filteredData] child, which selects no row
    whatever the rows of the axis are; and the axis node is built, as long
    as the tokens of each level apply to it and the axis is not a
    quantitative axis without rows. *)
Theorem single_tick_drops_rows ty sel par chart fu fv (axis : Axis) (v : number) :
  num_eq v (num 0) = false ->
  g_type axis = continuous ->
  g_values axis = [VNumber v] ->
  axisValuesToIntervals js (g_values axis) = [(Some (VNumber NaN), Some (VNumber v))]
  /\ (forall n,
         build_axis ty sel par chart fu fv axis = Ok n ->
         exists c,
           children n = [c]
           /\ type c = NodeType.filteredData
           /\ filterValue c
              = Some (FEncoding (ERange (Some (VNumber NaN)) (Some (VNumber v))))
           /\ selected c = []
           /\ children c = [])
  /\ (tableOk HierarchyLevel nodeTypeToHierarchyLevel hierarchyLevelToTokens ->
      ty = NodeType.xAxis \/ ty = NodeType.yAxis ->
      g_scaleType axis <> Some "quantitative" \/ sel <> [] ->
      exists n, build_axis ty sel par chart fu fv axis = Ok n).
Proof.
  intros Hv Hc Hvals.
  pose proof (single_tick_intervals js v Hv) as HI.
  rewrite Hvals. split; [exact HI |]. split.
  - intros n H. apply axis_shape in H. destruct H as [d [cs [-> Hcs]]].
    rewrite Hc, Hvals, HI in Hcs. simpl in Hcs.
    unfold mapiM in Hcs. simpl in Hcs.
    inv_bind Hcs. inv_Ok Hcs.
    apply filteredData_shape in Ha. destruct Ha as [d' [cs' [-> Hcs']]].
    rewrite filterInterval_nan_l in *. inv_Ok Hcs'.
    eexists. repeat split.
  - intros Htable Hty Hagg. apply axis_built; assumption.
Qed.

End SingleTick.

Lemma single_tick_drops_rows_witness :
  num_eq (num 5) (num 0) = false
  /\ g_type singleTickAxis = continuous
  /\ g_values singleTickAxis = [VNumber (num 5)]
  /\ exists n c,
       olliVisSpecToNode_axis Sample.js Sample.fmtValue Sample.HierarchyLevel
         Sample.nodeTypeToHierarchyLevel Sample.hierarchyLevelToTokens
         NodeType.xAxis (c_data singleTickChart) (Some NodeType.chart) singleTickChart
         ["a"] None singleTickAxis = Ok n
       /\ children n = [c] /\ selected c = [].
Proof.
  assert (H1 : num_eq (num 5) (num 0) = false) by reflexivity.
  assert (H2 : g_type singleTickAxis = continuous) by reflexivity.
  assert (H3 : g_values singleTickAxis = [VNumber (num 5)]) by reflexivity.
  repeat (split; [first [exact H1 | exact H2 | exact H3] |]).
  destruct (single_tick_drops_rows Sample.js Sample.fmtValue Sample.HierarchyLevel
              Sample.nodeTypeToHierarchyLevel Sample.hierarchyLevelToTokens
              NodeType.xAxis (c_data singleTickChart) (Some NodeType.chart)
              singleTickChart ["a"] None singleTickAxis (num 5) H1 H2 H3)
    as [_ [Hchild Hbuilt]].
  destruct Hbuilt as [n Hn].
  - exact sample_table_ok.
  - left. reflexivity.
  - left. discriminate.
  - destruct (Hchild n Hn) as [c [Hc [_ [_ [Hs _]]]]].
    exists n, c. repeat split; assumption.
Defined.

(** ** Legends *)

Lemma filterEquals_In js (sel : OlliDataset) field (value : JsValue) (d : OlliDatum) :
  In d (filterEquals js sel field value)
  <-> In d sel /\ ToString js (d !! field) = ToString js value.
Proof.
  unfold filterEquals, String_eq. rewrite List.filter_In, String.eqb_eq. reflexivity.
Qed.

Section Legends.
Variable js : Builtins.
Variable fmtValue : JsValue -> string.
Variable HierarchyLevel : Type.
Variable nodeTypeToHierarchyLevel : NodeType.t -> HierarchyLevel.
Variable hierarchyLevelToTokens : HierarchyLevel -> list Token.t.

Local Abbreviation build_legend :=
  (olliVisSpecToNode_legend js fmtValue HierarchyLevel nodeTypeToHierarchyLevel
     hierarchyLevelToTokens).

(** C7: when the tables give a node type only tokens that apply to it, a
    legend node is always built.  A continuous legend has no children; a
    discrete legend has one [filteredData] child per value, in order, which
    holds the value as a string and selects the rows whose field renders as
    the same string as the value. *)
Theorem legend_children sel par chart fu fv (legend : Legend) :
  tableOk HierarchyLevel nodeTypeToHierarchyLevel hierarchyLevelToTokens ->
  exists n,
    build_legend sel par chart fu fv legend = Ok n
    /\ type n = NodeType.legend
    /\ selected n = sel
    /\ match g_type legend with
       | continuous => children n = []
       | discrete =>
           List.length (children n) = List.length (g_values legend)
           /\ forall k value,
                nth_error (g_values legend) k = Some value ->
                exists c,
                  nth_error (children n) k = Some c
                  /\ type c = NodeType.filteredData
                  /\ filterValue c = Some (FEncoding (EString (ToString js (Some value))))
                  /\ selected c = filterEquals js sel (g_field legend) (Some value)
                  /\ forall d : OlliDatum,
                       In d (selected c)
                       <-> In d sel
                           /\ ToString js (d !! g_field legend) = ToString js (Some value)
       end.
Proof.
  intros Htable.
  destruct (legend_built js fmtValue HierarchyLevel nodeTypeToHierarchyLevel
              hierarchyLevelToTokens Htable sel par chart fu fv legend) as [n Hn].
  exists n. split; [exact Hn |].
  apply legend_shape in Hn. destruct Hn as [d [cs [-> Hcs]]].
  repeat (split; [reflexivity |]). cbn [children].
  destruct (g_type legend); [| exact Hcs].
  apply discrete_shape in Hcs. destruct Hcs as [Hlen Hnth].
  split; [exact Hlen |]. intros k value Hk.
  destruct (Hnth k value Hk) as [dc [ds [Hc _]]].
  eexists. split; [exact Hc |].
  repeat (split; [reflexivity |]). cbn [selected guideOf].
  intros r. apply filterEquals_In.
Qed.

End Legends.

Lemma legend_children_witness :
  tableOk Sample.HierarchyLevel Sample.nodeTypeToHierarchyLevel
    Sample.hierarchyLevelToTokens
  /\ (exists n,
         olliVisSpecToNode_legend Sample.js Sample.fmtValue Sample.HierarchyLevel
           Sample.nodeTypeToHierarchyLevel Sample.hierarchyLevelToTokens
           legendRows (Some NodeType.chart) legendChart ["f"] None continuousLegend = Ok n
         /\ children n = [])
  /\ (exists n,
         olliVisSpecToNode_legend Sample.js Sample.fmtValue Sample.HierarchyLevel
           Sample.nodeTypeToHierarchyLevel Sample.hierarchyLevelToTokens
           legendRows (Some NodeType.chart) legendChart ["f"] None discreteLegend = Ok n
         /\ List.length (children n) = 2%nat).
Proof.
  split; [exact sample_table_ok |]. split.
  - destruct (legend_children Sample.js Sample.fmtValue Sample.HierarchyLevel
                Sample.nodeTypeToHierarchyLevel Sample.hierarchyLevelToTokens
                legendRows (Some NodeType.chart) legendChart ["f"] None continuousLegend
                sample_table_ok) as [n [Hn [_ [_ Hc]]]].
    exists n. split; [exact Hn | exact Hc].
  - destruct (legend_children Sample.js Sample.fmtValue Sample.HierarchyLevel
                Sample.nodeTypeToHierarchyLevel Sample.hierarchyLevelToTokens
                legendRows (Some NodeType.chart) legendChart ["f"] None discreteLegend
                sample_table_ok) as [n [Hn [_ [_ [Hlen _]]]]].
    exists n. split; [exact Hn | exact Hlen].
Defined.

(** The example of the specification: the values A and B over the rows
    A, B, A give two children, which select two rows and one row. *)
Example discrete_legend_example :
  match olliVisSpecToNode_legend Sample.js Sample.fmtValue Sample.HierarchyLevel
          Sample.nodeTypeToHierarchyLevel Sample.hierarchyLevelToTokens
          legendRows (Some NodeType.chart) legendChart ["f"] None discreteLegend with
  | Ok n => map (fun c => List.length (selected c)) (children n)
  | Throw _ => []
  end = [2%nat; 1%nat].
Proof. vm_compute. reflexivity. Qed.

(** ** Ticks that are neither numbers nor dates *)

Section OddTicks.
Variable js : Builtins.
Variable fmtValue : JsValue -> string.
Variable HierarchyLevel : Type.
Variable nodeTypeToHierarchyLevel : NodeType.t -> HierarchyLevel.
Variable hierarchyLevelToTokens : HierarchyLevel -> list Token.t.

Local Abbreviation build_axis :=
  (olliVisSpecToNode_axis js fmtValue HierarchyLevel nodeTypeToHierarchyLevel
     hierarchyLevelToTokens).

(** C5, as the program has it: the binner raises no error, whatever the
    ticks are.  When the tables give a node type only tokens that apply to
    it, a continuous axis that is not a quantitative axis without rows is
    built, with one [filteredData] child per interval that the binner
    computes from its ticks: strings are read as numbers, commas removed,
    and ticks that are neither all strings nor all dates are used as they
    are. *)
Theorem axis_built_whatever_the_ticks ty sel par chart fu fv (axis : Axis) :
  tableOk HierarchyLevel nodeTypeToHierarchyLevel hierarchyLevelToTokens ->
  ty = NodeType.xAxis \/ ty = NodeType.yAxis ->
  g_type axis = continuous ->
  g_scaleType axis <> Some "quantitative" \/ sel <> [] ->
  (exists n,
      build_axis ty sel par chart fu fv axis = Ok n
      /\ List.length (children n)
         = List.length (axisValuesToIntervals js (g_values axis))
      /\ forall k ab,
           nth_error (axisValuesToIntervals js (g_values axis)) k = Some ab ->
           exists c,
             nth_error (children n) k = Some c
             /\ filterValue c = Some (FEncoding (ERange (fst ab) (snd ab)))
             /\ selected c = filterInterval js sel (g_field axis) (fst ab) (snd ab))
  /\ (forallb isString (g_values axis) = true ->
      axisValuesToIntervals js (g_values axis)
      = buckets js
          (map (fun s => VNumber (StringToNumber js (removeAll "," (ToString js (Some s)))))
               (g_values axis)))
  /\ (forallb isString (g_values axis) = false ->
      forallb isDate (g_values axis) = false ->
      axisValuesToIntervals js (g_values axis) = buckets js (g_values axis)).
Proof.
  intros Htable Hty Hc Hagg. split; [| split].
  - destruct (axis_built js fmtValue HierarchyLevel nodeTypeToHierarchyLevel
                hierarchyLevelToTokens Htable ty sel par chart fu fv axis Hty Hagg)
      as [n Hn].
    exists n. split; [exact Hn |].
    destruct (continuous_children js fmtValue HierarchyLevel nodeTypeToHierarchyLevel
                hierarchyLevelToTokens ty sel par chart fu fv axis n Hc Hn) as [Hlen Hnth].
    split; [exact Hlen |]. intros k ab Hk.
    destruct (Hnth k ab Hk) as [c [Hck [_ [Hf Hs]]]]. eauto.
  - intros Hs. unfold axisValuesToIntervals, ensureAxisValuesNumeric.
    rewrite Hs. cbn [nv_values nv_isDate]. apply reduce_buckets.
  - intros Hs Hd. unfold axisValuesToIntervals, ensureAxisValuesNumeric.
    rewrite Hs, Hd. cbn [nv_values nv_isDate]. apply reduce_buckets.
Qed.

End OddTicks.

(** C5, as the specification states it, fails: a chart whose axes have
    words, or a word and a number, for ticks is built; the intervals of the
    first axis have [NaN] for bounds. *)
Lemma odd_ticks_do_not_fail :
  forallb isString (g_values mixedTicksAxis) = false
  /\ forallb isDate (g_values mixedTicksAxis) = false
  /\ map (fun t => ToNumber Sample.js (Some t)) (g_values wordTicksAxis) = [NaN; NaN; NaN]
  /\ axisValuesToIntervals Sample.js (g_values wordTicksAxis)
     = [(Some (VNumber NaN), Some (VNumber NaN));
        (Some (VNumber NaN), Some (VNumber NaN));
        (Some (VNumber NaN), Some (VNumber NaN));
        (Some (VNumber NaN), Some (VNumber NaN))]
  /\ exists tree,
       Sample.buildTree (SChart oddTicksChart) = Ok tree
       /\ map (fun n => List.length (children n)) (children (root tree)) = [4%nat; 3%nat].
Proof.
  repeat (split; [vm_compute; reflexivity |]).
  eexists. split; vm_compute; reflexivity.
Qed.

Lemma axis_built_whatever_the_ticks_witness :
  tableOk Sample.HierarchyLevel Sample.nodeTypeToHierarchyLevel
    Sample.hierarchyLevelToTokens
  /\ (NodeType.yAxis = NodeType.xAxis \/ NodeType.yAxis = NodeType.yAxis)
  /\ g_type mixedTicksAxis = continuous
  /\ (g_scaleType mixedTicksAxis <> Some "quantitative" \/ c_data oddTicksChart <> [])
  /\ exists n,
       olliVisSpecToNode_axis Sample.js Sample.fmtValue Sample.HierarchyLevel
         Sample.nodeTypeToHierarchyLevel Sample.hierarchyLevelToTokens
         NodeType.yAxis (c_data oddTicksChart) (Some NodeType.chart) oddTicksChart
         ["a"] None mixedTicksAxis = Ok n
       /\ List.length (children n) = 3%nat.
Proof.
  assert (H2 : NodeType.yAxis = NodeType.xAxis \/ NodeType.yAxis = NodeType.yAxis)
    by (right; reflexivity).
  assert (H3 : g_type mixedTicksAxis = continuous) by reflexivity.
  assert (H4 : g_scaleType mixedTicksAxis <> Some "quantitative"
               \/ c_data oddTicksChart <> []) by (left; discriminate).
  repeat (split; [first [exact sample_table_ok | exact H2 | exact H3 | exact H4] |]).
  destruct (axis_built_whatever_the_ticks Sample.js Sample.fmtValue Sample.HierarchyLevel
              Sample.nodeTypeToHierarchyLevel Sample.hierarchyLevelToTokens
              NodeType.yAxis (c_data oddTicksChart) (Some NodeType.chart) oddTicksChart
              ["a"] None mixedTicksAxis sample_table_ok H2 H3 H4)
    as [[n [Hn [Hlen _]]] _].
  exists n. split; [exact Hn |]. rewrite Hlen. vm_compute. reflexivity.
Defined.

(** ** A quantitative axis without rows *)

Lemma mapiM_from_Throw {A B} (f : A -> nat -> result B) (l : list A) (a : A) :
  In a l -> (forall k, exists msg, f a k = Throw msg) ->
  forall i, exists msg, mapiM_from f i l = Throw msg.
Proof.
  induction l as [| a' l IH]; simpl; intros Hin Ha i; [contradiction |].
  destruct (f a' i) as [b | msg] eqn:E; simpl; [| eauto].
  destruct Hin as [-> | Hin].
  - destruct (Ha i) as [msg Hmsg]. congruence.
  - destruct (IH Hin Ha (Datatypes.S i)) as [msg ->]. simpl. eauto.
Qed.

Section QuantitativeAxis.
Variable js : Builtins.
Variable fmtValue : JsValue -> string.
Variable HierarchyLevel : Type.
Variable nodeTypeToHierarchyLevel : NodeType.t -> HierarchyLevel.
Variable hierarchyLevelToTokens : HierarchyLevel -> list Token.t.

Local Abbreviation build_axis :=
  (olliVisSpecToNode_axis js fmtValue HierarchyLevel nodeTypeToHierarchyLevel
     hierarchyLevelToTokens).
Local Abbreviation build_chart :=
  (olliVisSpecToNode_chart js fmtValue HierarchyLevel nodeTypeToHierarchyLevel
     hierarchyLevelToTokens).
Local Abbreviation build_tree :=
  (olliVisSpecToTree js fmtValue HierarchyLevel nodeTypeToHierarchyLevel
     hierarchyLevelToTokens).

(** The maximum of no row reads a field of [selected[0]], which is
    [undefined]. *)
Lemma aggregate_without_rows ty par d cs keys spec fv (axis : Axis) idx len :
  ty = NodeType.xAxis \/ ty = NodeType.yAxis ->
  g_scaleType axis = Some "quantitative" ->
  tokenFunctions js fmtValue (mkNode ty par [] None None d cs keys) spec fv
    (Some (GAxis axis)) idx len Token.aggregate = Throw "TypeError".
Proof.
  intros Hty Hq. unfold tokenFunctions, token_aggregate, maximumValue, isQuantitative.
  cbn [type selected guideOf]. rewrite Hq.
  destruct Hty as [-> | ->]; reflexivity.
Qed.

Lemma axisNodeType_axis (axis : Axis) :
  axisNodeType axis = NodeType.xAxis \/ axisNodeType axis = NodeType.yAxis.
Proof. unfold axisNodeType. destruct (axisType axis); auto. Qed.

(** C9: when the aggregate token belongs to the level of axis nodes, a
    quantitative axis whose rows are empty is not built, and neither is a
    chart that shows it, nor a tree with such a chart: a chart without
    rows, or a faceted chart one of whose facets has the axis and matches
    no row. *)
Theorem quantitative_axis_without_rows_throws (axis : Axis) :
  In Token.aggregate (hierarchyLevelToTokens (nodeTypeToHierarchyLevel (axisNodeType axis))) ->
  g_scaleType axis = Some "quantitative" ->
  (forall par chart fu fv,
      exists msg, build_axis (axisNodeType axis) [] par chart fu fv axis = Throw msg)
  /\ (forall chart,
         In axis (filteredAxes chart) ->
         (forall par fu fv index length,
             exists msg, build_chart [] par chart fu fv index length = Throw msg)
         /\ (c_data chart = [] -> exists msg, build_tree (SChart chart) = Throw msg)
         /\ (forall (f : FacetedChart) (key : string),
                In (key, chart) (charts f) ->
                facetRowsOf js f key = [] ->
                exists msg, build_tree (SFacetedChart f) = Throw msg)).
Proof.
  intros Hagg Hq.
  assert (Haxis : forall par chart fu fv,
             exists msg, build_axis (axisNodeType axis) [] par chart fu fv axis = Throw msg).
  { intros par chart fu fv. unfold olliVisSpecToNode_axis.
    match goal with
    | |- exists msg, bind ?children _ = _ => destruct children as [cs | msg]
    end; cbn [bind]; [| eauto].
    destruct (describeNode_Throw js fmtValue HierarchyLevel nodeTypeToHierarchyLevel
                hierarchyLevelToTokens
                (withChildren (newNode (axisNodeType axis) [] par None None) cs)
                (SChart chart) fv (Some (GAxis axis)) None None Token.aggregate)
      as [msg Hmsg].
    - exact Hagg.
    - eexists. apply aggregate_without_rows; [apply axisNodeType_axis | exact Hq].
    - rewrite Hmsg. eauto. }
  assert (Hchart : forall chart,
             In axis (filteredAxes chart) ->
             forall par fu fv index length,
               exists msg, build_chart [] par chart fu fv index length = Throw msg).
  { intros chart Hin par fu fv index length. unfold olliVisSpecToNode_chart.
    destruct (mapM_Throw
                (fun axis0 => build_axis (axisNodeType axis0) [] (Some NodeType.chart)
                                chart fu fv axis0)
                (filteredAxes chart) axis Hin (Haxis _ _ _ _)) as [msg ->].
    cbn [bind]. eauto. }
  split; [exact Haxis |].
  intros chart Hin. split; [apply Hchart, Hin |]. split.
  - intros Hdata. unfold olliVisSpecToTree. rewrite Hdata.
    destruct (Hchart chart Hin None (getFieldsUsedForChart (SChart chart)) None None None)
      as [msg ->].
    cbn [bind]. eauto.
  - intros f key Hkey Hrows. unfold olliVisSpecToTree, olliVisSpecToNode_multiView.
    unfold mapiM.
    match goal with
    | |- exists msg, bind (bind (mapiM_from ?g _ _) _) _ = _ =>
        destruct (mapiM_from_Throw g (charts f) (key, chart) Hkey) with (i := 0%nat)
          as [msg Hmsg]
    end.
    + intros k. unfold facetRowsOf in Hrows. rewrite Hrows. apply Hchart, Hin.
    + rewrite Hmsg. cbn [bind]. eauto.
Qed.

End QuantitativeAxis.

Lemma quantitative_axis_without_rows_throws_witness :
  In Token.aggregate
     (Sample.hierarchyLevelToTokens
        (Sample.nodeTypeToHierarchyLevel (axisNodeType quantitativeAxis)))
  /\ g_scaleType quantitativeAxis = Some "quantitative"
  /\ (exists msg, Sample.buildTree (SChart emptyChart) = Throw msg)
  /\ (exists msg, Sample.buildTree (SFacetedChart facetedExample) = Throw msg).
Proof.
  assert (H1 : In Token.aggregate
                 (Sample.hierarchyLevelToTokens
                    (Sample.nodeTypeToHierarchyLevel (axisNodeType quantitativeAxis))))
    by (vm_compute; tauto).
  assert (H2 : g_scaleType quantitativeAxis = Some "quantitative") by reflexivity.
  split; [exact H1 |]. split; [exact H2 |].
  destruct (quantitative_axis_without_rows_throws Sample.js Sample.fmtValue
              Sample.HierarchyLevel Sample.nodeTypeToHierarchyLevel
              Sample.hierarchyLevelToTokens quantitativeAxis H1 H2) as [_ Hcharts].
  split.
  - destruct (Hcharts emptyChart) as [_ [Hempty _]]; [left; reflexivity |].
    apply Hempty. reflexivity.
  - destruct (Hcharts (quantitativeChart facetRows)) as [_ [_ Hfacet]];
      [left; reflexivity |].
    apply (Hfacet facetedExample "south").
    + right. left. reflexivity.
    + vm_compute. reflexivity.
Defined.

(** The same charts, run: the chart without rows and the faceted chart
    throw; the chart with rows is built. *)
Example quantitative_axis_examples :
  Sample.buildTree (SChart emptyChart) = Throw "Node type yAxis not handled in nodeToDesc"
  /\ Sample.buildTree (SFacetedChart facetedExample)
     = Throw "Node type yAxis not handled in nodeToDesc"
  /\ exists tree, Sample.buildTree (SChart (quantitativeChart facetRows)) = Ok tree.
Proof.
  split; [vm_compute; reflexivity |]. split; [vm_compute; reflexivity |].
  eexists. vm_compute. reflexivity.
Qed.

(** * Further properties of the module *)

(** ** The fields used by a chart *)

Lemma dedupe_In (l : list string) :
  forall (seen : list string) (s : string),
    In s (dedupe seen l) <-> In s l /\ ~ In s seen.
Proof.
  induction l as [| a l IH]; intros seen s; simpl; [tauto |].
  destruct (existsb (String.eqb a) seen) eqn:E.
  - rewrite IH. apply existsb_exists in E. destruct E as [b [Hb Hab]].
    apply String.eqb_eq in Hab. subst b.
    split; [tauto |]. intros [[-> | H] Hs]; [contradiction | tauto].
  - assert (Ha : ~ In a seen).
    { intros Hin. assert (existsb (String.eqb a) seen = true); [| congruence].
      apply existsb_exists. exists a. split; [exact Hin | apply String.eqb_refl]. }
    simpl. rewrite IH. simpl. split.
    + intros [-> | [H1 H2]]; [tauto |]. split; [tauto |]. tauto.
    + intros [[-> | H1] H2]; [tauto |].
      destruct (String.eqb_spec a s) as [-> | Hne]; [tauto |].
      right. split; [exact H1 |]. intros [H | H]; [contradiction | tauto].
Qed.

Lemma dedupe_NoDup (l : list string) :
  forall seen : list string, List.NoDup (dedupe seen l).
Proof.
  induction l as [| a l IH]; intros seen; simpl; [constructor |].
  destruct (existsb (String.eqb a) seen); [apply IH |].
  constructor; [| apply IH].
  rewrite dedupe_In. simpl. tauto.
Qed.

(** The fields of the guides of a chart, axes first. *)
Lemma chart_fields_In (c : Chart) (s : string) :
  In s (getFieldsUsedForChart_chart c)
  <-> (exists a : Axis, In a (axes c) /\ g_field a = s)
      \/ (exists l : Legend, In l (legends c) /\ g_field l = s).
Proof.
  unfold getFieldsUsedForChart_chart. rewrite dedupe_In.
  rewrite List.in_map_iff. split.
  - intros [[g [Hg Hin]] _]. apply in_app_or in Hin.
    destruct Hin as [Hin | Hin]; apply List.in_map_iff in Hin;
      destruct Hin as [a [Ha Hin]]; subst g; [left | right]; eauto.
  - intros H. split; [| intros []].
    destruct H as [[a [Hin Ha]] | [l [Hin Hl]]].
    + exists (axisGuide a). split; [exact Ha |].
      apply in_or_app. left. apply List.in_map, Hin.
    + exists (legendGuide l). split; [exact Hl |].
      apply in_or_app. right. apply List.in_map, Hin.
Qed.

(** X1: the list of fields used has no duplicate.  For a chart it holds
    exactly the fields of its axes and legends; for a faceted chart it
    starts with the facet field and holds, besides it, exactly the fields
    used by the charts of the facets. *)
Theorem fieldsUsed_distinct_and_complete (olliVisSpec : OlliVisSpec) :
  List.NoDup (getFieldsUsedForChart olliVisSpec)
  /\ match olliVisSpec with
     | SChart c =>
         forall s,
           In s (getFieldsUsedForChart olliVisSpec)
           <-> (exists a : Axis, In a (axes c) /\ g_field a = s)
               \/ (exists l : Legend, In l (legends c) /\ g_field l = s)
     | SFacetedChart f =>
         hd_error (getFieldsUsedForChart olliVisSpec) = Some (facetedField f)
         /\ forall s,
              In s (getFieldsUsedForChart olliVisSpec)
              <-> s = facetedField f
                  \/ exists key chart,
                       In (key, chart) (charts f)
                       /\ In s (getFieldsUsedForChart (SChart chart))
     end.
Proof.
  split.
  - destruct olliVisSpec; apply dedupe_NoDup.
  - destruct olliVisSpec as [c | f]; unfold getFieldsUsedForChart.
    + apply chart_fields_In.
    + split; [reflexivity |]. intros s.
      rewrite dedupe_In. simpl. rewrite List.in_flat_map. split.
      * intros [[<- | [[key chart] [Hin Hs]]] _]; [left; reflexivity |].
        right. exists key, chart. split; assumption.
      * intros H. split; [| tauto].
        destruct H as [-> | [key [chart [Hin Hs]]]]; [left; reflexivity |].
        right. exists (key, chart). split; assumption.
Qed.

(** ** The number and the bounds of the buckets *)

Section BucketFacts.
Variable js : Builtins.

Lemma interior_length (rest : list OlliValue) :
  forall prev,
    List.length (interiorBuckets js prev rest)
    = match rest with [] => 0%nat | _ => Datatypes.S (List.length rest) end.
Proof.
  induction rest as [| cur rest IH]; intros prev; [reflexivity |].
  destruct rest as [| next rest]; [reflexivity |].
  change (interiorBuckets js prev (cur :: next :: rest))
    with ((Some prev, Some cur) :: interiorBuckets js cur (next :: rest)).
  cbn [List.length]. rewrite IH. reflexivity.
Qed.

Lemma normalizedTicks_length (values : list OlliValue) :
  List.length (normalizedTicks js values) = List.length values.
Proof.
  unfold normalizedTicks, ensureAxisValuesNumeric.
  destruct (forallb isString values); [apply List.length_map |].
  destruct (forallb isDate values); [apply List.length_map | reflexivity].
Qed.

(** X2: the number of intervals.  No tick gives none.  A single tick gives
    none when it is zero and one otherwise.  Two ticks or more give as many
    intervals as ticks when the first tick is zero, and one more
    otherwise. *)
Theorem bucket_count (values : list OlliValue) :
  List.length (axisValuesToIntervals js values)
  = match normalizedTicks js values with
    | [] => 0%nat
    | tick0 :: rest =>
        ((if js_is_zero (Some tick0) then 0 else 1)
         + match rest with [] => 0 | _ => List.length values end)%nat
    end.
Proof.
  rewrite intervals_of_normalized. cbv zeta.
  assert (Hlen : List.length (buckets js (normalizedTicks js values))
                 = match normalizedTicks js values with
                   | [] => 0%nat
                   | tick0 :: rest =>
                       ((if js_is_zero (Some tick0) then 0 else 1)
                        + match rest with [] => 0 | _ => List.length values end)%nat
                   end).
  { rewrite <- (normalizedTicks_length values).
    destruct (normalizedTicks js values) as [| tick0 rest]; [reflexivity |].
    unfold buckets, bucketBelow. rewrite List.length_app, interior_length.
    destruct (js_is_zero (Some tick0)), rest; reflexivity. }
  destruct (nv_isDate (ensureAxisValuesNumeric js values));
    [rewrite List.length_map |]; exact Hlen.
Qed.

Lemma interior_consecutive (rest : list OlliValue) :
  forall prev i a b,
    nth_error (prev :: rest) i = Some a ->
    nth_error (prev :: rest) (Datatypes.S i) = Some b ->
    In (Some a, Some b) (interiorBuckets js prev rest).
Proof.
  induction rest as [| cur rest IH]; intros prev i a b Ha Hb.
  - destruct i; discriminate.
  - destruct i as [| i].
    + simpl in Ha, Hb. inv_Ok Ha. inv_Ok Hb.
      destruct rest; left; reflexivity.
    + assert (Hin : In (Some a, Some b) (interiorBuckets js cur rest))
        by (apply (IH cur i); assumption).
      destruct rest as [| next rest]; [destruct i; discriminate |].
      right. exact Hin.
Qed.

(** X3: two consecutive ticks, as the binner reads them, bound one of
    the intervals (after conversion to dates when the ticks are dates). *)
Theorem consecutive_ticks_are_intervals (values : list OlliValue) (i : nat) (a b : OlliValue) :
  nth_error (normalizedTicks js values) i = Some a ->
  nth_error (normalizedTicks js values) (Datatypes.S i) = Some b ->
  In (if nv_isDate (ensureAxisValuesNumeric js values)
      then (Some (VDate (newDate js (Some a))), Some (VDate (newDate js (Some b))))
      else (Some a, Some b))
     (axisValuesToIntervals js values).
Proof.
  intros Ha Hb. rewrite intervals_of_normalized. cbv zeta.
  assert (Hin : In (Some a, Some b) (buckets js (normalizedTicks js values))).
  { destruct (normalizedTicks js values) as [| tick0 rest]; [destruct i; discriminate |].
    unfold buckets. apply in_or_app. right.
    apply (interior_consecutive rest tick0 i); assumption. }
  destruct (nv_isDate (ensureAxisValuesNumeric js values)); [| exact Hin].
  apply (List.in_map
           (fun value : Interval =>
              (Some (VDate (newDate js (fst value))),
               Some (VDate (newDate js (snd value))))) _ _ Hin).
Qed.

Lemma interior_numberBounds (rest : list OlliValue) :
  forall prev,
    isNumber prev = true -> forallb isNumber rest = true ->
    Forall numberBounds (interiorBuckets js prev rest).
Proof.
  induction rest as [| cur rest IH]; intros prev Hp Hr; [constructor |].
  simpl in Hr. apply andb_true_iff in Hr. destruct Hr as [Hc Hr].
  destruct prev as [| p |]; try discriminate.
  destruct cur as [| c |]; try discriminate.
  destruct rest as [| next rest].
  - simpl. repeat constructor; unfold numberBounds; eauto.
  - change (interiorBuckets js (VNumber p) (VNumber c :: next :: rest))
      with ((Some (VNumber p), Some (VNumber c))
              :: interiorBuckets js (VNumber c) (next :: rest)).
    constructor; [unfold numberBounds; eauto | apply IH; auto].
Qed.

Lemma buckets_numberBounds (ticks : list OlliValue) :
  forallb isNumber ticks = true -> Forall numberBounds (buckets js ticks).
Proof.
  intros H. destruct ticks as [| tick0 rest]; [constructor |].
  simpl in H. apply andb_true_iff in H. destruct H as [H0 Hr].
  unfold buckets, bucketBelow. apply List.Forall_app. split.
  - destruct (js_is_zero (Some tick0)); [constructor |].
    destruct tick0 as [| t |]; try discriminate.
    repeat constructor. unfold numberBounds. eauto.
  - apply interior_numberBounds; assumption.
Qed.

Lemma normalizedTicks_numbers (values : list OlliValue) :
  forallb isString values = true
  \/ forallb isDate values = true
  \/ forallb isNumber values = true ->
  forallb isNumber (normalizedTicks js values) = true.
Proof.
  intros H. unfold normalizedTicks, ensureAxisValuesNumeric.
  destruct (forallb isString values) eqn:Es.
  { cbn [nv_values]. rewrite forallb_forall. intros v Hv.
    apply List.in_map_iff in Hv. destruct Hv as [s [<- _]]. reflexivity. }
  destruct (forallb isDate values) eqn:Ed.
  { cbn [nv_values]. rewrite forallb_forall. intros v Hv.
    apply List.in_map_iff in Hv. destruct Hv as [s [<- _]]. reflexivity. }
  cbn [nv_values]. destruct H as [H | [H | H]]; congruence.
Qed.

(** X4: the bounds have the type of the ticks.  When the ticks are all
    strings or all numbers, both bounds of every interval are numbers; when
    there are ticks and they are all dates, both bounds of every interval
    are dates. *)
Theorem bounds_have_the_type_of_the_ticks (values : list OlliValue) :
  (forallb isString values = true \/ forallb isNumber values = true ->
   Forall numberBounds (axisValuesToIntervals js values))
  /\ (values <> [] -> forallb isDate values = true ->
      Forall dateBounds (axisValuesToIntervals js values)).
Proof.
  split.
  - intros H. rewrite intervals_of_normalized. cbv zeta.
    assert (Hd : nv_isDate (ensureAxisValuesNumeric js values) = false).
    { unfold ensureAxisValuesNumeric. destruct (forallb isString values) eqn:Es; [reflexivity |].
      destruct H as [H | H]; [discriminate |].
      destruct (forallb isDate values) eqn:Ed; [| reflexivity].
      destruct values as [| v values]; [discriminate |].
      simpl in H, Ed. destruct v; discriminate. }
    rewrite Hd. apply buckets_numberBounds, normalizedTicks_numbers.
    destruct H; auto.
  - intros Hne H. rewrite intervals_of_normalized. cbv zeta.
    assert (Hd : nv_isDate (ensureAxisValuesNumeric js values) = true).
    { unfold ensureAxisValuesNumeric. rewrite H.
      destruct (forallb isString values) eqn:Es; [| reflexivity].
      destruct values as [| v values]; [contradiction |].
      simpl in H, Es. destruct v; discriminate. }
    rewrite Hd. rewrite List.Forall_forall. intros ab Hab.
    apply List.in_map_iff in Hab. destruct Hab as [cd [<- _]].
    unfold dateBounds. eauto.
Qed.

End BucketFacts.

Lemma bounds_have_the_type_of_the_ticks_witness :
  (forallb isString [Sample.int 10; Sample.int 20] = true
   \/ forallb isNumber [Sample.int 10; Sample.int 20] = true)
  /\ [Sample.date 86400000; Sample.date 172800000] <> []
  /\ forallb isDate [Sample.date 86400000; Sample.date 172800000] = true
  /\ Forall numberBounds (axisValuesToIntervals Sample.js [Sample.int 10; Sample.int 20])
  /\ Forall dateBounds
       (axisValuesToIntervals Sample.js [Sample.date 86400000; Sample.date 172800000]).
Proof.
  assert (H1 : forallb isString [Sample.int 10; Sample.int 20] = true
               \/ forallb isNumber [Sample.int 10; Sample.int 20] = true)
    by (right; reflexivity).
  assert (H2 : [Sample.date 86400000; Sample.date 172800000] <> []) by discriminate.
  assert (H3 : forallb isDate [Sample.date 86400000; Sample.date 172800000] = true)
    by reflexivity.
  repeat (split; [first [exact H1 | exact H2 | exact H3] |]).
  split.
  - apply (bounds_have_the_type_of_the_ticks Sample.js), H1.
  - apply (bounds_have_the_type_of_the_ticks Sample.js); assumption.
Defined.

Lemma consecutive_ticks_are_intervals_witness :
  nth_error (normalizedTicks Sample.js [Sample.str "1,000"; Sample.str "2,000"]) 0
  = Some (Sample.int 1000)
  /\ nth_error (normalizedTicks Sample.js [Sample.str "1,000"; Sample.str "2,000"]) 1
     = Some (Sample.int 2000)
  /\ In (Sample.range 1000 2000)
        (axisValuesToIntervals Sample.js [Sample.str "1,000"; Sample.str "2,000"]).
Proof.
  assert (H1 : nth_error (normalizedTicks Sample.js [Sample.str "1,000"; Sample.str "2,000"]) 0
               = Some (Sample.int 1000)) by (vm_compute; reflexivity).
  assert (H2 : nth_error (normalizedTicks Sample.js [Sample.str "1,000"; Sample.str "2,000"]) 1
               = Some (Sample.int 2000)) by (vm_compute; reflexivity).
  split; [exact H1 |]. split; [exact H2 |].
  exact (consecutive_ticks_are_intervals Sample.js _ 0%nat _ _ H1 H2).
Defined.

(** ** Commas in ticks written as strings *)

Lemma removeAll_idempotent (c : ascii) (s : string) :
  removeAll c (removeAll c s) = removeAll c s.
Proof.
  induction s as [| a s IH]; simpl; [reflexivity |].
  destruct (Ascii.eqb a c) eqn:E; [exact IH |].
  simpl. rewrite E, IH. reflexivity.
Qed.

Lemma forallb_isString_strings (strings : list string) :
  forallb isString (map VString strings) = true.
Proof. induction strings as [| s l IH]; simpl; auto. Qed.

(** X5: in ticks written as strings the commas do not count: the
    intervals are those of the same strings without their commas. *)
Theorem commas_are_ignored (js : Builtins) (strings : list string) :
  axisValuesToIntervals js (map VString strings)
  = axisValuesToIntervals js (map VString (map (removeAll ",") strings)).
Proof.
  unfold axisValuesToIntervals, ensureAxisValuesNumeric.
  rewrite !forallb_isString_strings. cbn [nv_values nv_isDate].
  f_equal. rewrite !List.map_map. apply List.map_ext.
  intros s. cbn [ToString]. rewrite removeAll_idempotent. reflexivity.
Qed.

(** ** How the filters compose *)

(** X6: range filters and equality filters commute with one another, and
    filtering twice by the same bounds or the same value filters once: the
    rows of a grid cell do not depend on which axis is filtered first. *)
Theorem filters_commute (js : Builtins) (sel : OlliDataset)
    (f1 f2 : string) (lo1 hi1 lo2 hi2 v1 v2 : JsValue) :
  filterInterval js (filterInterval js sel f1 lo1 hi1) f2 lo2 hi2
  = filterInterval js (filterInterval js sel f2 lo2 hi2) f1 lo1 hi1
  /\ filterEquals js (filterInterval js sel f1 lo1 hi1) f2 v2
     = filterInterval js (filterEquals js sel f2 v2) f1 lo1 hi1
  /\ filterEquals js (filterEquals js sel f1 v1) f2 v2
     = filterEquals js (filterEquals js sel f2 v2) f1 v1
  /\ filterInterval js (filterInterval js sel f1 lo1 hi1) f1 lo1 hi1
     = filterInterval js sel f1 lo1 hi1
  /\ filterEquals js (filterEquals js sel f1 v1) f1 v1 = filterEquals js sel f1 v1.
Proof.
  unfold filterInterval, filterEquals. rewrite !filter_filter.
  repeat split; apply List.filter_ext; intros d;
    try apply andb_comm; apply andb_diag.
Qed.

(** ** Adjacent intervals *)

Lemma js_lt_not_ge js (v b : JsValue) : js_lt js v b = true -> js_ge js v b = false.
Proof.
  unfold js_lt, js_ge. destruct (both_strings v b) as [[s t] |].
  - intros ->. reflexivity.
  - unfold num_lt, num_ge, SFltb.
    destruct (SFcompare (ToNumber js v) (ToNumber js b)) as [[] |];
      intros H; try discriminate; reflexivity.
Qed.

Section AdjacentIntervals.
Variable js : Builtins.
Variable fmtValue : JsValue -> string.
Variable HierarchyLevel : Type.
Variable nodeTypeToHierarchyLevel : NodeType.t -> HierarchyLevel.
Variable hierarchyLevelToTokens : HierarchyLevel -> list Token.t.

Local Abbreviation build_axis :=
  (olliVisSpecToNode_axis js fmtValue HierarchyLevel nodeTypeToHierarchyLevel
     hierarchyLevelToTokens).

(** X7: two consecutive children of a continuous axis share no row,
    unless the field of the row is a date (it may then be compared by its
    year with one pair of bounds and by its time with the other). *)
Theorem adjacent_children_are_disjoint ty sel par chart fu fv (axis : Axis) n
    (k : nat) (c1 c2 : AccessibilityTreeNode) (d : OlliDatum) :
  g_type axis = continuous ->
  build_axis ty sel par chart fu fv axis = Ok n ->
  nth_error (children n) k = Some c1 ->
  nth_error (children n) (Datatypes.S k) = Some c2 ->
  In d (selected c1) ->
  In d (selected c2) ->
  exists date, d !! g_field axis = Some (VDate date).
Proof.
  intros Hc Hn H1 H2 Hd1 Hd2.
  destruct (continuous_children js fmtValue HierarchyLevel nodeTypeToHierarchyLevel
              hierarchyLevelToTokens ty sel par chart fu fv axis n Hc Hn) as [Hlen Hnth].
  pose proof (axisValuesToIntervals_chained js (g_values axis)) as Hchain.
  assert (Hk : exists ab cd,
             nth_error (axisValuesToIntervals js (g_values axis)) k = Some ab
             /\ nth_error (axisValuesToIntervals js (g_values axis)) (Datatypes.S k) = Some cd).
  { assert (Hlt : (Datatypes.S k < List.length (children n))%nat)
      by (apply nth_error_Some; congruence).
    rewrite Hlen in Hlt.
    destruct (nth_error (axisValuesToIntervals js (g_values axis)) k) as [ab |] eqn:E1;
      [| apply nth_error_None in E1; lia].
    destruct (nth_error (axisValuesToIntervals js (g_values axis)) (Datatypes.S k))
      as [cd |] eqn:E2; [| apply nth_error_None in E2; lia].
    eauto. }
  destruct Hk as [ab [cd [Hab Hcd]]].
  pose proof (chained_nth _ Hchain k ab cd Hab Hcd) as Hshare.
  destruct (Hnth k ab Hab) as [c1' [Hc1 [_ [_ Hs1]]]].
  destruct (Hnth (Datatypes.S k) cd Hcd) as [c2' [Hc2 [_ [_ Hs2]]]].
  assert (c1' = c1) by congruence. assert (c2' = c2) by congruence. subst c1' c2'.
  rewrite Hs1 in Hd1. rewrite Hs2 in Hd2.
  unfold filterInterval in Hd1, Hd2.
  apply List.filter_In in Hd1. apply List.filter_In in Hd2.
  destruct Hd1 as [_ Hd1]. destruct Hd2 as [_ Hd2].
  unfold inInterval in Hd1, Hd2.
  destruct (d !! g_field axis) as [[s | a | date] |] eqn:Ed; [| | eauto |];
    apply andb_true_iff in Hd1; apply andb_true_iff in Hd2;
    destruct Hd1 as [_ Hlt]; destruct Hd2 as [Hge _];
    rewrite Hshare in Hlt; apply js_lt_not_ge in Hlt; congruence.
Qed.

End AdjacentIntervals.

(** A date may be in two consecutive children: with the bounds 999 and
    1000 it is compared by its time, with the bounds 1000 and 2000 by its
    year. *)
Lemma adjacent_children_are_disjoint_witness :
  exists n c1 c2,
    g_type yearEdgeAxis = continuous
    /\ olliVisSpecToNode_axis Sample.js Sample.fmtValue Sample.HierarchyLevel
         Sample.nodeTypeToHierarchyLevel Sample.hierarchyLevelToTokens
         NodeType.xAxis [yearEdgeRow] (Some NodeType.chart) yearEdgeChart
         ["a"] None yearEdgeAxis = Ok n
    /\ nth_error (children n) 1 = Some c1
    /\ nth_error (children n) 2 = Some c2
    /\ In yearEdgeRow (selected c1)
    /\ In yearEdgeRow (selected c2)
    /\ exists date, yearEdgeRow !! "a" = Some (VDate date).
Proof.
  eexists. eexists. eexists.
  assert (H1 : g_type yearEdgeAxis = continuous) by reflexivity.
  split; [exact H1 |].
  split; [vm_compute; reflexivity |].
  split; [vm_compute; reflexivity |].
  split; [vm_compute; reflexivity |].
  assert (H5 : forall sel : OlliDataset, sel = [yearEdgeRow] -> In yearEdgeRow sel)
    by (intros sel ->; left; reflexivity).
  split; [apply H5; vm_compute; reflexivity |].
  split; [apply H5; vm_compute; reflexivity |].
  eapply (adjacent_children_are_disjoint Sample.js Sample.fmtValue Sample.HierarchyLevel
            Sample.nodeTypeToHierarchyLevel Sample.hierarchyLevelToTokens
            NodeType.xAxis [yearEdgeRow] (Some NodeType.chart)
            yearEdgeChart ["a"] None yearEdgeAxis _ 1%nat _ _ yearEdgeRow H1);
    try (vm_compute; reflexivity); apply H5; vm_compute; reflexivity.
Defined.

(** ** The children of a chart *)

Lemma mapM_Forall2 {A B} (f : A -> result B) (P : A -> B -> Prop) (l : list A) (bs : list B) :
  (forall a b, In a l -> f a = Ok b -> P a b) ->
  mapM f l = Ok bs -> Forall2 P l bs.
Proof.
  intros HP H. apply mapM_Ok in H.
  induction H as [| a b l bs Hab HF IH]; constructor.
  - apply HP; [left; reflexivity | exact Hab].
  - apply IH. intros a' b' Hin. apply HP. right. exact Hin.
Qed.

Lemma filteredAxes_bar (chart : Chart) :
  (c_mark chart = Some "bar" ->
   filteredAxes chart
   = List.filter (fun axis : Axis => negb (isContinuous axis)) (axes chart))
  /\ (c_mark chart <> Some "bar" -> filteredAxes chart = axes chart).
Proof.
  unfold filteredAxes, optStringIs. split.
  - intros ->. apply List.filter_ext. intros a. reflexivity.
  - intros Hne.
    assert (E : match c_mark chart with Some t => String.eqb t "bar" | None => false end = false).
    { destruct (c_mark chart) as [t |]; [| reflexivity].
      destruct (String.eqb_spec t "bar") as [-> | _]; [contradiction | reflexivity]. }
    rewrite E. induction (axes chart) as [| a l IH]; [reflexivity |].
    cbn [List.filter andb negb]. f_equal. exact IH.
Qed.

Section ChartChildren.
Variable js : Builtins.
Variable fmtValue : JsValue -> string.
Variable HierarchyLevel : Type.
Variable nodeTypeToHierarchyLevel : NodeType.t -> HierarchyLevel.
Variable hierarchyLevelToTokens : HierarchyLevel -> list Token.t.

Local Abbreviation build_chart :=
  (olliVisSpecToNode_chart js fmtValue HierarchyLevel nodeTypeToHierarchyLevel
     hierarchyLevelToTokens).
Local Abbreviation build_axis :=
  (olliVisSpecToNode_axis js fmtValue HierarchyLevel nodeTypeToHierarchyLevel
     hierarchyLevelToTokens).
Local Abbreviation build_legend :=
  (olliVisSpecToNode_legend js fmtValue HierarchyLevel nodeTypeToHierarchyLevel
     hierarchyLevelToTokens).
Local Abbreviation build_grid :=
  (olliVisSpecToNode_grid js fmtValue HierarchyLevel nodeTypeToHierarchyLevel
     hierarchyLevelToTokens).

(** X8: the children of a chart are, in this order, one axis node per
    axis that the chart shows, one legend node per legend, and the grid if
    there is one; each of them selects all the rows of the chart.  A bar
    chart shows its discrete axes only and has no grid; any other chart
    shows all its axes. *)
Theorem chart_children sel par chart fu fv index length n :
  build_chart sel par chart fu fv index length = Ok n ->
  exists axisNodes legendNodes gridNodes,
    children n = axisNodes ++ legendNodes ++ gridNodes
    /\ Forall2 (fun (axis : Axis) c =>
                  type c = axisNodeType axis /\ selected c = sel
                  /\ parent c = Some NodeType.chart)
               (filteredAxes chart) axisNodes
    /\ Forall2 (fun (legend : Legend) c =>
                  type c = NodeType.legend /\ selected c = sel
                  /\ parent c = Some NodeType.chart)
               (legends chart) legendNodes
    /\ (if hasGrid chart
        then exists g, gridNodes = [g] /\ type g = NodeType.grid /\ selected g = sel
        else gridNodes = [])
    /\ (c_mark chart = Some "bar" ->
        filteredAxes chart
        = List.filter (fun axis : Axis => negb (isContinuous axis)) (axes chart)
        /\ gridNodes = [])
    /\ (c_mark chart <> Some "bar" -> filteredAxes chart = axes chart).
Proof.
  intros H. apply chart_shape in H.
  destruct H as [d [axisNodes [legendNodes [gridNodes [-> [Ha [Hl Hg]]]]]]].
  exists axisNodes, legendNodes, gridNodes. split; [reflexivity |].
  split; [| split; [| split; [| split]]].
  - revert Ha. apply mapM_Forall2. intros axis c _ Hc.
    apply axis_shape in Hc. destruct Hc as [d' [cs [-> _]]]. repeat split.
  - revert Hl. apply mapM_Forall2. intros legend c _ Hc.
    apply legend_shape in Hc. destruct Hc as [d' [cs [-> _]]]. repeat split.
  - destruct (hasGrid chart); [| exact Hg].
    destruct Hg as [g [Hb ->]]. apply grid_shape in Hb.
    destruct Hb as [xa [ya [d' [cs [_ [_ [-> _]]]]]]]. eexists. repeat split.
  - intros Hbar. split; [apply filteredAxes_bar, Hbar |].
    assert (E : hasGrid chart = false)
      by (unfold hasGrid; rewrite Hbar; reflexivity).
    rewrite E in Hg. exact Hg.
  - apply filteredAxes_bar.
Qed.

(** X9: a chart without axes is not built when the children token
    belongs to the level of charts: the token reads the title of the first
    axis. *)
Theorem chart_without_axes_throws sel par chart fu fv index length :
  In Token.children (hierarchyLevelToTokens (nodeTypeToHierarchyLevel NodeType.chart)) ->
  axes chart = [] ->
  exists msg, build_chart sel par chart fu fv index length = Throw msg.
Proof.
  intros Htok Haxes. unfold olliVisSpecToNode_chart.
  assert (Hf : filteredAxes chart = []) by (unfold filteredAxes; rewrite Haxes; reflexivity).
  assert (Hg : hasGrid chart = false).
  { unfold hasGrid. rewrite Hf. cbn [List.length Nat.eqb]. rewrite andb_false_r. reflexivity. }
  rewrite Hf, Hg. cbn [mapM bind].
  match goal with
  | |- exists msg, bind ?legendNodes _ = _ => destruct legendNodes as [ls | msg]
  end; cbn [bind]; [| eauto].
  match goal with
  | |- exists msg, describeNode _ _ _ _ _ ?node ?spec ?fv' ?g ?i ?l = _ =>
      destruct (describeNode_Throw js fmtValue HierarchyLevel nodeTypeToHierarchyLevel
                  hierarchyLevelToTokens node spec fv' g i l Token.children Htok)
        as [msg Hmsg]
  end.
  - exists "TypeError". unfold tokenFunctions, token_children, spec_axes.
    cbn [type withChildren newNode]. rewrite Haxes. reflexivity.
  - rewrite Hmsg. eauto.
Qed.

(** X10: a point chart with two continuous axes is given a grid, and is
    not built when the two axes have the same orientation: the grid reads
    the values of the first horizontal and of the first vertical axis. *)
Theorem grid_needs_both_orientations sel par chart fu fv index length :
  hasGrid chart = true ->
  List.find isX (axes chart) = None \/ List.find isY (axes chart) = None ->
  exists msg, build_chart sel par chart fu fv index length = Throw msg.
Proof.
  intros Hg Hfind. unfold olliVisSpecToNode_chart. rewrite Hg.
  match goal with
  | |- exists msg, bind ?axisNodes _ = _ => destruct axisNodes as [ns | msg]
  end; cbn [bind]; [| eauto].
  match goal with
  | |- exists msg, bind ?legendNodes _ = _ => destruct legendNodes as [ls | msg]
  end; cbn [bind]; [| eauto].
  assert (E : build_grid sel (Some NodeType.chart) chart fu fv = Throw "TypeError").
  { unfold olliVisSpecToNode_grid.
    destruct Hfind as [-> | Hy]; [reflexivity |].
    rewrite Hy. destruct (List.find isX (axes chart)); reflexivity. }
  rewrite E. cbn [bind]. eauto.
Qed.

End ChartChildren.

Lemma chart_children_witness :
  exists n,
    olliVisSpecToNode_chart Sample.js Sample.fmtValue Sample.HierarchyLevel
      Sample.nodeTypeToHierarchyLevel Sample.hierarchyLevelToTokens
      (c_data barChart) None barChart ["a"; "b"; "f"] None None None = Ok n
    /\ map type (children n) = [NodeType.yAxis; NodeType.legend].
Proof.
  eexists. split; [vm_compute; reflexivity |].
  match goal with
  | |- map type (children ?n) = _ =>
      destruct (chart_children Sample.js Sample.fmtValue Sample.HierarchyLevel
                  Sample.nodeTypeToHierarchyLevel Sample.hierarchyLevelToTokens
                  (c_data barChart) None barChart ["a"; "b"; "f"] None None None n)
        as [axisNodes [legendNodes [gridNodes [Hch _]]]]; [vm_compute; reflexivity |]
  end.
  vm_compute. reflexivity.
Defined.

Lemma chart_without_axes_throws_witness :
  In Token.children
     (Sample.hierarchyLevelToTokens (Sample.nodeTypeToHierarchyLevel NodeType.chart))
  /\ axes legendOnlyChart = []
  /\ exists msg, Sample.buildTree (SChart legendOnlyChart) = Throw msg.
Proof.
  assert (H1 : In Token.children
                 (Sample.hierarchyLevelToTokens
                    (Sample.nodeTypeToHierarchyLevel NodeType.chart)))
    by (vm_compute; tauto).
  assert (H2 : axes legendOnlyChart = []) by reflexivity.
  split; [exact H1 |]. split; [exact H2 |].
  destruct (chart_without_axes_throws Sample.js Sample.fmtValue Sample.HierarchyLevel
              Sample.nodeTypeToHierarchyLevel Sample.hierarchyLevelToTokens
              (c_data legendOnlyChart) None legendOnlyChart
              (getFieldsUsedForChart (SChart legendOnlyChart)) None None None H1 H2)
    as [msg Hmsg].
  exists msg. unfold Sample.buildTree, olliVisSpecToTree. rewrite Hmsg. reflexivity.
Defined.

Lemma grid_needs_both_orientations_witness :
  hasGrid twoXChart = true
  /\ (List.find isX (axes twoXChart) = None \/ List.find isY (axes twoXChart) = None)
  /\ exists msg, Sample.buildTree (SChart twoXChart) = Throw msg.
Proof.
  assert (H1 : hasGrid twoXChart = true) by reflexivity.
  assert (H2 : List.find isX (axes twoXChart) = None \/ List.find isY (axes twoXChart) = None)
    by (right; reflexivity).
  split; [exact H1 |]. split; [exact H2 |].
  destruct (grid_needs_both_orientations Sample.js Sample.fmtValue Sample.HierarchyLevel
              Sample.nodeTypeToHierarchyLevel Sample.hierarchyLevelToTokens
              (c_data twoXChart) None twoXChart
              (getFieldsUsedForChart (SChart twoXChart)) None None None H1 H2)
    as [msg Hmsg].
  exists msg. unfold Sample.buildTree, olliVisSpecToTree. rewrite Hmsg. reflexivity.
Defined.

(** ** The shape of the tree *)

Section TreeShape.
Variable js : Builtins.
Variable fmtValue : JsValue -> string.
Variable HierarchyLevel : Type.
Variable nodeTypeToHierarchyLevel : NodeType.t -> HierarchyLevel.
Variable hierarchyLevelToTokens : HierarchyLevel -> list Token.t.

Local Abbreviation build_data :=
  (olliVisSpecToNode_data js fmtValue HierarchyLevel nodeTypeToHierarchyLevel
     hierarchyLevelToTokens).
Local Abbreviation build_filteredData :=
  (olliVisSpecToNode_filteredData js fmtValue HierarchyLevel nodeTypeToHierarchyLevel
     hierarchyLevelToTokens).
Local Abbreviation build_discrete :=
  (discreteChildren js fmtValue HierarchyLevel nodeTypeToHierarchyLevel
     hierarchyLevelToTokens).
Local Abbreviation build_axis :=
  (olliVisSpecToNode_axis js fmtValue HierarchyLevel nodeTypeToHierarchyLevel
     hierarchyLevelToTokens).
Local Abbreviation build_legend :=
  (olliVisSpecToNode_legend js fmtValue HierarchyLevel nodeTypeToHierarchyLevel
     hierarchyLevelToTokens).
Local Abbreviation build_grid :=
  (olliVisSpecToNode_grid js fmtValue HierarchyLevel nodeTypeToHierarchyLevel
     hierarchyLevelToTokens).
Local Abbreviation build_chart :=
  (olliVisSpecToNode_chart js fmtValue HierarchyLevel nodeTypeToHierarchyLevel
     hierarchyLevelToTokens).
Local Abbreviation build_multiView :=
  (olliVisSpecToNode_multiView js fmtValue HierarchyLevel nodeTypeToHierarchyLevel
     hierarchyLevelToTokens).

Lemma shaped_children ty (cs : list AccessibilityTreeNode) tc :
  childOf ty tc = true ->
  (forall c, In c cs -> shaped tc (Some ty) c) ->
  Forall (fun c => parent c = Some ty /\ childOf ty (type c) = true) cs
  /\ Forall (Forall_tree wellShaped) cs.
Proof.
  intros Hty H. split; rewrite List.Forall_forall; intros c Hc;
    destruct (H c Hc) as [Ht [Hc1 Hc2]]; [| exact Ht].
  rewrite Hc1. auto.
Qed.

Lemma data_shaped sel par chart fu fv guide index length n :
  build_data sel par chart fu fv guide index length = Ok n ->
  shaped NodeType.data par n.
Proof.
  intros H. apply data_shape in H. destruct H as [d [keys ->]].
  repeat split; simpl; try constructor; try discriminate; auto.
Qed.

Lemma filteredData_shaped sel par chart fu fv filt guide index length gi n :
  match par with
  | Some NodeType.grid =>
      (exists x1 x2 y1 y2, filt = Some (FGrid (ERange x1 x2) (ERange y1 y2)))
      /\ gi <> None
  | _ => (exists e, filt = Some (FEncoding e)) /\ gi = None
  end ->
  build_filteredData sel par chart fu fv filt guide index length gi = Ok n ->
  shaped NodeType.filteredData par n.
Proof.
  intros Hshape H. apply filteredData_shape in H. destruct H as [d [cs [-> Hcs]]].
  destruct (shaped_children NodeType.filteredData cs NodeType.data eq_refl) as [H1 H2].
  { intros c Hc. destruct (mapiM_Ok_In _ _ _ _ Hcs Hc) as [k [r [_ Hb]]].
    apply data_shaped in Hb. exact Hb. }
  split; [| split; reflexivity].
  constructor; [| exact H2].
  split; [exact H1 |]. split; [simpl; split; [intros H; contradiction | discriminate] |].
  exact Hshape.
Qed.

Lemma discrete_shaped ty sel chart fu fv guide cs :
  ty <> NodeType.grid ->
  build_discrete ty sel chart fu fv guide = Ok cs ->
  forall c, In c cs -> shaped NodeType.filteredData (Some ty) c.
Proof.
  unfold discreteChildren. intros Hty H c Hc.
  destruct (mapiM_Ok_In _ _ _ _ H Hc) as [k [value [_ Hb]]].
  revert Hb. apply filteredData_shaped.
  destruct ty; try contradiction; eauto.
Qed.

Lemma inner_shaped ty par sel d cs tc :
  ty <> NodeType.filteredData -> ty <> NodeType.data ->
  childOf ty tc = true ->
  (forall c, In c cs -> shaped tc (Some ty) c) ->
  shaped ty par (mkNode ty par sel None None d cs None).
Proof.
  intros Hf Hd Hty Hcs.
  destruct (shaped_children ty cs tc Hty Hcs) as [H1 H2].
  split; [| split; reflexivity].
  constructor; [| exact H2].
  split; [exact H1 |].
  split; [simpl; split; [intros H; contradiction | intros H; contradiction] |].
  simpl. destruct ty; try contradiction; auto.
Qed.

Lemma axis_shaped ty sel par chart fu fv (axis : Axis) n :
  ty = NodeType.xAxis \/ ty = NodeType.yAxis ->
  build_axis ty sel par chart fu fv axis = Ok n ->
  shaped ty par n.
Proof.
  intros Hty H. apply axis_shape in H. destruct H as [d [cs [-> Hcs]]].
  assert (Hg : ty <> NodeType.grid) by (destruct Hty as [-> | ->]; discriminate).
  apply (inner_shaped ty par sel d cs NodeType.filteredData);
    try (destruct Hty as [-> | ->]; (discriminate || reflexivity)).
  destruct (g_type axis).
  - eapply discrete_shaped; eauto.
  - intros c Hc. destruct (mapiM_Ok_In _ _ _ _ Hcs Hc) as [k [ab [_ Hb]]].
    revert Hb. apply filteredData_shaped.
    destruct Hty as [-> | ->]; eauto.
Qed.

Lemma legend_shaped sel par chart fu fv (legend : Legend) n :
  build_legend sel par chart fu fv legend = Ok n ->
  shaped NodeType.legend par n.
Proof.
  intros H. apply legend_shape in H. destruct H as [d [cs [-> Hcs]]].
  apply (inner_shaped NodeType.legend par sel d cs NodeType.filteredData);
    try discriminate; try reflexivity.
  destruct (g_type legend).
  - eapply discrete_shaped; eauto.
  - subst cs. intros c [].
Qed.

Lemma grid_shaped sel par chart fu fv n :
  build_grid sel par chart fu fv = Ok n ->
  shaped NodeType.grid par n.
Proof.
  intros H. apply grid_shape in H.
  destruct H as [xa [ya [d [cs [_ [_ [-> Hcs]]]]]]].
  apply (inner_shaped NodeType.grid par sel d cs NodeType.filteredData);
    try discriminate; try reflexivity.
  intros c Hc. destruct (mapiM_Ok_In _ _ _ _ Hcs Hc) as [k [cell [_ Hb]]].
  revert Hb. apply filteredData_shaped.
  split; [eauto 6 | discriminate].
Qed.

Lemma chart_shaped sel par chart fu fv index length n :
  build_chart sel par chart fu fv index length = Ok n ->
  shaped NodeType.chart par n.
Proof.
  intros H. apply chart_shape in H.
  destruct H as [d [axisNodes [legendNodes [gridNodes [-> [Ha [Hl Hg]]]]]]].
  split; [| split; reflexivity].
  assert (Hcs : forall c, In c (axisNodes ++ legendNodes ++ gridNodes) ->
                          Forall_tree wellShaped c
                          /\ parent c = Some NodeType.chart
                          /\ childOf NodeType.chart (type c) = true).
  { intros c Hc. apply in_app_or in Hc. destruct Hc as [Hc | Hc].
    - destruct (mapM_Ok_In _ _ _ _ Ha Hc) as [axis [_ Hb]].
      apply axis_shaped in Hb; [| apply axisNodeType_axis].
      destruct Hb as [Ht [Hty Hp]]. rewrite Hty.
      split; [exact Ht | split; [exact Hp |]].
      destruct (axisNodeType_axis axis) as [-> | ->]; reflexivity.
    - apply in_app_or in Hc. destruct Hc as [Hc | Hc].
      + destruct (mapM_Ok_In _ _ _ _ Hl Hc) as [legend [_ Hb]].
        apply legend_shaped in Hb. destruct Hb as [Ht [Hty Hp]]. rewrite Hty. auto.
      + destruct (hasGrid chart); [| subst gridNodes; destruct Hc].
        destruct Hg as [g [Hb ->]]. destruct Hc as [<- | []].
        apply grid_shaped in Hb. destruct Hb as [Ht [Hty Hp]]. rewrite Hty. auto. }
  constructor.
  - split; [| split; [simpl; split; [intros H; contradiction | discriminate] | simpl; auto]].
    simpl. rewrite List.Forall_forall. intros c Hc. destruct (Hcs c Hc) as [_ H]. exact H.
  - simpl. rewrite List.Forall_forall. intros c Hc. apply Hcs, Hc.
Qed.

Lemma multiView_shaped sel par (f : FacetedChart) fu n :
  build_multiView sel par f fu = Ok n ->
  shaped NodeType.multiView par n.
Proof.
  intros H. apply multiView_shape in H. destruct H as [d [cs [-> Hcs]]].
  apply (inner_shaped NodeType.multiView par sel d cs NodeType.chart);
    try discriminate; try reflexivity.
  intros c Hc. destruct (mapiM_Ok_In _ _ _ _ Hcs Hc) as [k [entry [_ Hb]]].
  apply chart_shaped in Hb. exact Hb.
Qed.

(** X11: the tree that is built has the fields used by the spec; its
    root has no parent, selects the rows of the spec and is a [multiView]
    node for a faceted chart and a [chart] node for a chart; and every node
    of the tree is well shaped: children record the type of their parent
    and have a type that the parent may have for child, only [data] nodes
    have table keys, and only [filteredData] nodes have a filter value,
    with a grid index exactly under a grid. *)
Theorem built_tree_shape (olliVisSpec : OlliVisSpec) (tree : AccessibilityTree) :
  olliVisSpecToTree js fmtValue HierarchyLevel nodeTypeToHierarchyLevel
    hierarchyLevelToTokens olliVisSpec = Ok tree ->
  fieldsUsed tree = getFieldsUsedForChart olliVisSpec
  /\ parent (root tree) = None
  /\ match olliVisSpec with
     | SChart c => type (root tree) = NodeType.chart /\ selected (root tree) = c_data c
     | SFacetedChart f =>
         type (root tree) = NodeType.multiView /\ selected (root tree) = f_data f
     end
  /\ forall n, subnode n (root tree) -> wellShaped n.
Proof.
  unfold olliVisSpecToTree. intros H.
  destruct olliVisSpec as [c | f]; inv_bind H; inv_Ok H; cbn [root fieldsUsed].
  - pose proof (chart_shaped _ _ _ _ _ _ _ _ Ha) as [Ht [Hty Hp]].
    apply chart_tree in Ha. destruct Ha as [_ Hs].
    split; [reflexivity | split; [exact Hp | split; [split; [exact Hty | exact Hs] |]]].
    intros m Hm. apply (Forall_tree_subnode _ _ _ Hm Ht).
  - pose proof (multiView_shaped _ _ _ _ _ Ha) as [Ht [Hty Hp]].
    apply multiView_tree in Ha. destruct Ha as [_ Hs].
    split; [reflexivity | split; [exact Hp | split; [split; [exact Hty | exact Hs] |]]].
    intros m Hm. apply (Forall_tree_subnode _ _ _ Hm Ht).
Qed.

End TreeShape.

Lemma built_tree_shape_witness :
  exists tree,
    Sample.buildTree (SChart scatterChart) = Ok tree
    /\ forall n, subnode n (root tree) -> wellShaped n.
Proof.
  eexists. split; [vm_compute; reflexivity |].
  apply (built_tree_shape Sample.js Sample.fmtValue Sample.HierarchyLevel
           Sample.nodeTypeToHierarchyLevel Sample.hierarchyLevelToTokens
           (SChart scatterChart)).
  vm_compute. reflexivity.
Defined.

(** ** The table keys of the rows *)

Lemma filter_absent (f : string) (l : list string) :
  ~ In f l -> List.filter (fun s => negb (String.eqb s f)) l = l.
Proof.
  induction l as [| a l IH]; intros H; simpl; [reflexivity |].
  destruct (String.eqb_spec a f) as [-> | Hne]; simpl.
  - exfalso. apply H. left. reflexivity.
  - f_equal. apply IH. intros Hin. apply H. right. exact Hin.
Qed.

(** Moving a field that occurs once to the end keeps the fields. *)
Lemma moveLast_perm (f : string) (l : list string) :
  List.NoDup l -> In f l -> Permutation (moveLast f l) l.
Proof.
  unfold moveLast. induction l as [| a l IH]; intros Hnd Hin; [destruct Hin |].
  inversion Hnd as [| a' l' Ha Hl]; subst. simpl.
  destruct (String.eqb_spec a f) as [-> | Hne]; simpl.
  - rewrite (filter_absent f l Ha). symmetry. apply Permutation_cons_append.
  - apply perm_skip. apply IH; [exact Hl |].
    destruct Hin as [-> | Hin]; [contradiction | exact Hin].
Qed.

Section KeysLift.
Variable js : Builtins.
Variable fmtValue : JsValue -> string.
Variable HierarchyLevel : Type.
Variable nodeTypeToHierarchyLevel : NodeType.t -> HierarchyLevel.
Variable hierarchyLevelToTokens : HierarchyLevel -> list Token.t.

Local Abbreviation build_data :=
  (olliVisSpecToNode_data js fmtValue HierarchyLevel nodeTypeToHierarchyLevel
     hierarchyLevelToTokens).
Local Abbreviation build_filteredData :=
  (olliVisSpecToNode_filteredData js fmtValue HierarchyLevel nodeTypeToHierarchyLevel
     hierarchyLevelToTokens).
Local Abbreviation build_discrete :=
  (discreteChildren js fmtValue HierarchyLevel nodeTypeToHierarchyLevel
     hierarchyLevelToTokens).
Local Abbreviation build_axis :=
  (olliVisSpecToNode_axis js fmtValue HierarchyLevel nodeTypeToHierarchyLevel
     hierarchyLevelToTokens).
Local Abbreviation build_legend :=
  (olliVisSpecToNode_legend js fmtValue HierarchyLevel nodeTypeToHierarchyLevel
     hierarchyLevelToTokens).
Local Abbreviation build_grid :=
  (olliVisSpecToNode_grid js fmtValue HierarchyLevel nodeTypeToHierarchyLevel
     hierarchyLevelToTokens).
Local Abbreviation build_chart :=
  (olliVisSpecToNode_chart js fmtValue HierarchyLevel nodeTypeToHierarchyLevel
     hierarchyLevelToTokens).
Local Abbreviation build_multiView :=
  (olliVisSpecToNode_multiView js fmtValue HierarchyLevel nodeTypeToHierarchyLevel
     hierarchyLevelToTokens).

(** A property of the nodes that holds of every node without table keys
    holds of a whole subtree as soon as it holds of the [data] nodes built
    with the arguments that the subtree hands down. *)
Variable P : AccessibilityTreeNode -> Prop.
Hypothesis P_inner : forall n, tableKeys n = None -> P n.

Local Abbreviation dataNodes :=
  (dataNodes js fmtValue HierarchyLevel nodeTypeToHierarchyLevel hierarchyLevelToTokens P).

Lemma lift_node ty par sel filt gi d cs :
  (forall c, In c cs -> Forall_tree P c) ->
  Forall_tree P (mkNode ty par sel filt gi d cs None).
Proof.
  intros H. constructor; [apply P_inner; reflexivity |].
  simpl. rewrite List.Forall_forall. exact H.
Qed.

Lemma data_lift sel par chart fu fv guide index length n :
  dataNodes chart fu fv guide ->
  build_data sel par chart fu fv guide index length = Ok n ->
  Forall_tree P n.
Proof.
  intros HP H. pose proof (HP _ _ _ _ _ H) as Hn.
  apply data_shape in H. destruct H as [d [keys ->]].
  constructor; [exact Hn | constructor].
Qed.

Lemma filteredData_lift sel par chart fu fv filt guide index length gi n :
  dataNodes chart fu fv guide ->
  build_filteredData sel par chart fu fv filt guide index length gi = Ok n ->
  Forall_tree P n.
Proof.
  intros HP H. apply filteredData_shape in H. destruct H as [d [cs [-> Hcs]]].
  apply lift_node. intros c Hc.
  destruct (mapiM_Ok_In _ _ _ _ Hcs Hc) as [k [r [_ Hb]]].
  eapply data_lift; eauto.
Qed.

Lemma discrete_lift ty sel chart fu fv guide cs :
  dataNodes chart fu fv (Some guide) ->
  build_discrete ty sel chart fu fv guide = Ok cs ->
  forall c, In c cs -> Forall_tree P c.
Proof.
  unfold discreteChildren. intros HP H c Hc.
  destruct (mapiM_Ok_In _ _ _ _ H Hc) as [k [value [_ Hb]]].
  eapply filteredData_lift; eauto.
Qed.

Lemma axis_lift ty sel par chart fu fv (axis : Axis) n :
  dataNodes chart fu fv (Some (GAxis axis)) ->
  build_axis ty sel par chart fu fv axis = Ok n ->
  Forall_tree P n.
Proof.
  intros HP H. apply axis_shape in H. destruct H as [d [cs [-> Hcs]]].
  apply lift_node. destruct (g_type axis).
  - eapply discrete_lift; eauto.
  - intros c Hc. destruct (mapiM_Ok_In _ _ _ _ Hcs Hc) as [k [ab [_ Hb]]].
    eapply filteredData_lift; eauto.
Qed.

Lemma legend_lift sel par chart fu fv (legend : Legend) n :
  dataNodes chart fu fv (Some (GLegend legend)) ->
  build_legend sel par chart fu fv legend = Ok n ->
  Forall_tree P n.
Proof.
  intros HP H. apply legend_shape in H. destruct H as [d [cs [-> Hcs]]].
  apply lift_node. destruct (g_type legend).
  - eapply discrete_lift; eauto.
  - subst cs. intros c [].
Qed.

Lemma grid_lift sel par chart fu fv n :
  dataNodes chart fu fv None ->
  build_grid sel par chart fu fv = Ok n ->
  Forall_tree P n.
Proof.
  intros HP H. apply grid_shape in H.
  destruct H as [xa [ya [d [cs [_ [_ [-> Hcs]]]]]]].
  apply lift_node. intros c Hc.
  destruct (mapiM_Ok_In _ _ _ _ Hcs Hc) as [k [cell [_ Hb]]].
  eapply filteredData_lift; eauto.
Qed.

Lemma chart_lift sel par chart fu fv index length n :
  (forall guide, guideOfChart chart guide -> dataNodes chart fu fv guide) ->
  build_chart sel par chart fu fv index length = Ok n ->
  Forall_tree P n.
Proof.
  intros HP H. apply chart_shape in H.
  destruct H as [d [axisNodes [legendNodes [gridNodes [-> [Ha [Hl Hg]]]]]]].
  apply lift_node. intros c Hc.
  apply in_app_or in Hc. destruct Hc as [Hc | Hc].
  - destruct (mapM_Ok_In _ _ _ _ Ha Hc) as [axis [Hin Hb]].
    eapply axis_lift; [| exact Hb]. apply HP. simpl.
    unfold filteredAxes in Hin. apply List.filter_In in Hin. tauto.
  - apply in_app_or in Hc. destruct Hc as [Hc | Hc].
    + destruct (mapM_Ok_In _ _ _ _ Hl Hc) as [legend [Hin Hb]].
      eapply legend_lift; [| exact Hb]. apply HP. exact Hin.
    + destruct (hasGrid chart); [| subst gridNodes; destruct Hc].
      destruct Hg as [g [Hb ->]]. destruct Hc as [<- | []].
      eapply grid_lift; [| exact Hb]. apply HP. exact I.
Qed.

Lemma multiView_lift sel par (f : FacetedChart) fu n :
  (forall entry guide,
      In entry (charts f) -> guideOfChart (snd entry) guide ->
      dataNodes (snd entry) fu (Some (fst entry)) guide) ->
  build_multiView sel par f fu = Ok n ->
  Forall_tree P n.
Proof.
  intros HP H. apply multiView_shape in H. destruct H as [d [cs [-> Hcs]]].
  apply lift_node. intros c Hc.
  destruct (mapiM_Ok_In _ _ _ _ Hcs Hc) as [k [entry [Hin Hb]]].
  eapply chart_lift; [| exact Hb]. intros guide Hg. apply HP; [| exact Hg].
  eapply nth_error_In. exact Hin.
Qed.

End KeysLift.

Lemma descendant_subnode (path : list nat) :
  forall n m : AccessibilityTreeNode, descendant path n = Some m -> subnode m n.
Proof.
  induction path as [| k path IH]; intros n m H; simpl in H.
  - injection H as <-. constructor.
  - destruct (nth_error (children n) k) as [c |] eqn:E; [| discriminate H].
    apply (subnode_child m c n); [eapply nth_error_In; exact E | apply IH; exact H].
Qed.

Section TableKeys.
Variable js : Builtins.
Variable fmtValue : JsValue -> string.
Variable HierarchyLevel : Type.
Variable nodeTypeToHierarchyLevel : NodeType.t -> HierarchyLevel.
Variable hierarchyLevelToTokens : HierarchyLevel -> list Token.t.

Local Abbreviation build_data :=
  (olliVisSpecToNode_data js fmtValue HierarchyLevel nodeTypeToHierarchyLevel
     hierarchyLevelToTokens).
Local Abbreviation build_axis :=
  (olliVisSpecToNode_axis js fmtValue HierarchyLevel nodeTypeToHierarchyLevel
     hierarchyLevelToTokens).
Local Abbreviation build_legend :=
  (olliVisSpecToNode_legend js fmtValue HierarchyLevel nodeTypeToHierarchyLevel
     hierarchyLevelToTokens).

(** The table keys that the [data] case computes. *)
Lemma data_tableKeys sel par chart fu fv guide index length n :
  build_data sel par chart fu fv guide index length = Ok n ->
  tableKeys n
  = Some (let keys := match guide with
                      | Some g => moveLast (g_field (guideOf g)) fu
                      | None => fu
                      end in
          match truthy fv with
          | Some _ =>
              match fu with
              | facetedField :: _ => moveLast facetedField keys
              | [] => keys ++ ["undefined"]
              end
          | None => keys
          end).
Proof.
  unfold olliVisSpecToNode_data. intros H.
  apply describeNode_Ok in H. destruct H as [d ->]. reflexivity.
Qed.

Lemma data_keys sel par chart fu fv guide index length lastField n :
  List.NoDup fu ->
  (forall g, guide = Some g -> In (g_field (guideOf g)) fu) ->
  (truthy fv <> None -> fu <> []) ->
  (forall f, lastField = Some f -> truthy fv <> None /\ hd_error fu = Some f) ->
  build_data sel par chart fu fv guide index length = Ok n ->
  keysOrdered fu lastField n.
Proof.
  intros Hnd Hg Hne Hlast H. apply data_tableKeys in H.
  unfold keysOrdered. rewrite H. clear H. cbv zeta.
  assert (H1 : Permutation
                 match guide with
                 | Some g => moveLast (g_field (guideOf g)) fu
                 | None => fu
                 end fu).
  { destruct guide as [g |]; [| reflexivity].
    apply moveLast_perm; [exact Hnd | apply Hg; reflexivity]. }
  destruct (truthy fv) as [s |] eqn:Efv.
  - destruct fu as [| f0 fu']; [exfalso; apply Hne; [discriminate | reflexivity] |].
    split.
    + etransitivity; [| exact H1]. apply moveLast_perm.
      * apply (Permutation_NoDup (l := f0 :: fu')); [symmetry; exact H1 | exact Hnd].
      * apply (Permutation_in (l := f0 :: fu')); [symmetry; exact H1 | left; reflexivity].
    + destruct lastField as [f |]; [| exact I].
      destruct (Hlast f eq_refl) as [_ Hhd]. injection Hhd as ->.
      unfold moveLast. eauto.
  - split; [exact H1 |].
    destruct lastField as [f |]; [| exact I].
    destruct (Hlast f eq_refl) as [Hn _]. contradiction.
Qed.

Lemma keysOrdered_inner fu lastField (n : AccessibilityTreeNode) :
  tableKeys n = None -> keysOrdered fu lastField n.
Proof. unfold keysOrdered. intros ->. exact I. Qed.

(** The field of a guide of a chart is one of the fields that the chart uses. *)
Lemma guide_field_used (c : Chart) (g : GuideRef) :
  guideOfChart c (Some g) -> In (g_field (guideOf g)) (getFieldsUsedForChart_chart c).
Proof.
  intros H. apply chart_fields_In. destruct g as [a | l]; simpl in *; eauto.
Qed.

(** X12: in the tree that is built, the table keys of a row are the
    fields used by the spec, each once, in some order; in a faceted chart
    whose facet keys are not empty, the faceted field comes last. *)
Theorem table_keys_are_the_fields (olliVisSpec : OlliVisSpec) (tree : AccessibilityTree) :
  olliVisSpecToTree js fmtValue HierarchyLevel nodeTypeToHierarchyLevel
    hierarchyLevelToTokens olliVisSpec = Ok tree ->
  forall (n : AccessibilityTreeNode) (keys : list string),
    subnode n (root tree) -> tableKeys n = Some keys ->
    Permutation keys (fieldsUsed tree)
    /\ match olliVisSpec with
       | SFacetedChart f =>
           facetKeysNonEmpty f -> exists init, keys = init ++ [facetedField f]
       | SChart _ => True
       end.
Proof.
  unfold olliVisSpecToTree. intros H n keys Hsub Hkeys.
  destruct olliVisSpec as [c | f]; inv_bind H; inv_Ok H; cbn [root fieldsUsed] in *.
  - split; [| exact I].
    assert (Ht : Forall_tree (keysOrdered (getFieldsUsedForChart (SChart c)) None) a).
    { eapply chart_lift; [apply keysOrdered_inner | | exact Ha].
      intros guide Hg sel par index length m Hm.
      eapply data_keys; [apply dedupe_NoDup | | | | exact Hm].
      - intros g ->. apply guide_field_used. exact Hg.
      - intros Hn. exfalso. apply Hn. reflexivity.
      - intros f' Hf'. discriminate Hf'. }
    pose proof (Forall_tree_subnode _ _ _ Hsub Ht) as Hn.
    unfold keysOrdered in Hn. rewrite Hkeys in Hn. apply Hn.
  - set (fu := getFieldsUsedForChart (SFacetedChart f)) in *.
    assert (Hhd : hd_error fu = Some (facetedField f)) by reflexivity.
    assert (Hfu : fu <> []) by (intros E; rewrite E in Hhd; discriminate Hhd).
    assert (Hfield : forall entry g,
               In entry (charts f) -> guideOfChart (snd entry) (Some g) ->
               In (g_field (guideOf g)) fu).
    { intros entry g Hin Hg. unfold fu, getFieldsUsedForChart. apply dedupe_In.
      split; [| intros []]. right. apply in_flat_map. exists entry.
      split; [exact Hin | apply guide_field_used; exact Hg]. }
    split.
    + assert (Ht : Forall_tree (keysOrdered fu None) a).
      { eapply multiView_lift; [apply keysOrdered_inner | | exact Ha].
        intros entry guide Hin Hg sel par index length m Hm.
        eapply data_keys; [apply dedupe_NoDup | | | | exact Hm].
        - intros g ->. apply (Hfield entry); assumption.
        - intros _. exact Hfu.
        - intros f' Hf'. discriminate Hf'. }
      pose proof (Forall_tree_subnode _ _ _ Hsub Ht) as Hn.
      unfold keysOrdered in Hn. rewrite Hkeys in Hn. apply Hn.
    + intros Hne.
      assert (Ht : Forall_tree (keysOrdered fu (Some (facetedField f))) a).
      { eapply multiView_lift; [apply keysOrdered_inner | | exact Ha].
        intros entry guide Hin Hg sel par index length m Hm.
        eapply data_keys; [apply dedupe_NoDup | | | | exact Hm].
        - intros g ->. apply (Hfield entry); assumption.
        - intros _. exact Hfu.
        - intros f' Hf'. injection Hf' as <-. split; [| exact Hhd].
          unfold facetKeysNonEmpty in Hne. rewrite List.Forall_forall in Hne.
          specialize (Hne entry Hin). destruct (fst entry); [contradiction | discriminate]. }
      pose proof (Forall_tree_subnode _ _ _ Hsub Ht) as Hn.
      unfold keysOrdered in Hn. rewrite Hkeys in Hn. apply Hn.
Qed.

(** X13: without a facet value, every row under an axis or under a
    legend lists the fields used with the field of that guide moved to the
    end. *)
Theorem guide_field_comes_last (fu : list string) (fv : option string) :
  truthy fv = None ->
  (forall ty sel par chart (axis : Axis) n,
      build_axis ty sel par chart fu fv axis = Ok n ->
      forall m keys, subnode m n -> tableKeys m = Some keys ->
                     keys = moveLast (g_field axis) fu)
  /\ (forall sel par chart (legend : Legend) n,
         build_legend sel par chart fu fv legend = Ok n ->
         forall m keys, subnode m n -> tableKeys m = Some keys ->
                        keys = moveLast (g_field legend) fu).
Proof.
  intros Hfv.
  assert (Hd : forall chart g,
             dataNodes js fmtValue HierarchyLevel nodeTypeToHierarchyLevel
               hierarchyLevelToTokens
               (fun m => forall keys, tableKeys m = Some keys ->
                                      keys = moveLast (g_field (guideOf g)) fu)
               chart fu fv (Some g)).
  { intros chart g sel par index length m Hm keys Hkeys.
    apply data_tableKeys in Hm. rewrite Hm in Hkeys. cbv zeta in Hkeys.
    rewrite Hfv in Hkeys. injection Hkeys as <-. reflexivity. }
  split.
  - intros ty sel par chart axis n H m keys Hsub Hkeys.
    assert (Ht : Forall_tree
                   (fun m => forall keys, tableKeys m = Some keys ->
                                          keys = moveLast (g_field axis) fu) n).
    { eapply axis_lift; [| apply (Hd chart (GAxis axis)) | exact H].
      intros x Hx ks Hks. rewrite Hx in Hks. discriminate Hks. }
    apply (Forall_tree_subnode _ _ _ Hsub Ht). exact Hkeys.
  - intros sel par chart legend n H m keys Hsub Hkeys.
    assert (Ht : Forall_tree
                   (fun m => forall keys, tableKeys m = Some keys ->
                                          keys = moveLast (g_field legend) fu) n).
    { eapply legend_lift; [| apply (Hd chart (GLegend legend)) | exact H].
      intros x Hx ks Hks. rewrite Hx in Hks. discriminate Hks. }
    apply (Forall_tree_subnode _ _ _ Hsub Ht). exact Hkeys.
Qed.

End TableKeys.

Lemma table_keys_are_the_fields_witness :
  exists tree n keys,
    Sample.buildTree (SFacetedChart facetedBars) = Ok tree
    /\ descendant [0; 0; 0; 0]%nat (root tree) = Some n
    /\ tableKeys n = Some keys
    /\ facetKeysNonEmpty facetedBars
    /\ Permutation keys (fieldsUsed tree)
    /\ exists init, keys = init ++ ["k"].
Proof.
  assert (Hne : facetKeysNonEmpty facetedBars) by (repeat constructor; discriminate).
  eassert (Hb : Sample.buildTree (SFacetedChart facetedBars) = Ok _)
    by (vm_compute; reflexivity).
  match type of Hb with
  | _ = Ok ?t =>
      eassert (Hs : descendant [0; 0; 0; 0]%nat (root t) = Some _)
        by (vm_compute; reflexivity)
  end.
  match type of Hs with
  | _ = Some ?m => eassert (Hk : tableKeys m = Some _) by (vm_compute; reflexivity)
  end.
  destruct (table_keys_are_the_fields Sample.js Sample.fmtValue Sample.HierarchyLevel
              Sample.nodeTypeToHierarchyLevel Sample.hierarchyLevelToTokens
              (SFacetedChart facetedBars) _ Hb _ _
              (descendant_subnode [0; 0; 0; 0]%nat _ _ Hs) Hk) as [Hp Hl].
  eexists. eexists. eexists.
  split; [exact Hb |]. split; [exact Hs |]. split; [exact Hk |].
  split; [exact Hne |]. split; [exact Hp | exact (Hl Hne)].
Defined.

Lemma guide_field_comes_last_witness :
  exists n m keys n' m' keys',
    truthy None = None
    /\ olliVisSpecToNode_axis Sample.js Sample.fmtValue Sample.HierarchyLevel
         Sample.nodeTypeToHierarchyLevel Sample.hierarchyLevelToTokens
         NodeType.xAxis (c_data scatterChart) (Some NodeType.chart) scatterChart
         ["a"; "b"] None scatterX = Ok n
    /\ descendant [0; 0]%nat n = Some m
    /\ tableKeys m = Some keys
    /\ keys = ["b"; "a"]
    /\ olliVisSpecToNode_legend Sample.js Sample.fmtValue Sample.HierarchyLevel
         Sample.nodeTypeToHierarchyLevel Sample.hierarchyLevelToTokens
         legendRows (Some NodeType.chart) legendChart ["a"; "f"; "b"] None
         discreteLegend = Ok n'
    /\ descendant [1; 0]%nat n' = Some m'
    /\ tableKeys m' = Some keys'
    /\ keys' = ["a"; "b"; "f"].
Proof.
  assert (H0 : truthy None = None) by reflexivity.
  destruct (guide_field_comes_last Sample.js Sample.fmtValue Sample.HierarchyLevel
              Sample.nodeTypeToHierarchyLevel Sample.hierarchyLevelToTokens
              ["a"; "b"] None H0) as [Haxis _].
  destruct (guide_field_comes_last Sample.js Sample.fmtValue Sample.HierarchyLevel
              Sample.nodeTypeToHierarchyLevel Sample.hierarchyLevelToTokens
              ["a"; "f"; "b"] None H0) as [_ Hlegend].
  eassert (Hb : olliVisSpecToNode_axis Sample.js Sample.fmtValue Sample.HierarchyLevel
                  Sample.nodeTypeToHierarchyLevel Sample.hierarchyLevelToTokens
                  NodeType.xAxis (c_data scatterChart) (Some NodeType.chart) scatterChart
                  ["a"; "b"] None scatterX = Ok _) by (vm_compute; reflexivity).
  match type of Hb with
  | _ = Ok ?t =>
      eassert (Hs : descendant [0; 0]%nat t = Some _) by (vm_compute; reflexivity)
  end.
  match type of Hs with
  | _ = Some ?m => eassert (Hk : tableKeys m = Some _) by (vm_compute; reflexivity)
  end.
  pose proof (Haxis _ _ _ _ _ _ Hb _ _ (descendant_subnode [0; 0]%nat _ _ Hs) Hk) as Hkeys.
  eassert (Hb' : olliVisSpecToNode_legend Sample.js Sample.fmtValue Sample.HierarchyLevel
                   Sample.nodeTypeToHierarchyLevel Sample.hierarchyLevelToTokens
                   legendRows (Some NodeType.chart) legendChart ["a"; "f"; "b"] None
                   discreteLegend = Ok _) by (vm_compute; reflexivity).
  match type of Hb' with
  | _ = Ok ?t =>
      eassert (Hs' : descendant [1; 0]%nat t = Some _) by (vm_compute; reflexivity)
  end.
  match type of Hs' with
  | _ = Some ?m => eassert (Hk' : tableKeys m = Some _) by (vm_compute; reflexivity)
  end.
  pose proof (Hlegend _ _ _ _ _ Hb' _ _ (descendant_subnode [1; 0]%nat _ _ Hs') Hk')
    as Hkeys'.
  do 6 eexists.
  split; [exact H0 |]. split; [exact Hb |]. split; [exact Hs |]. split; [exact Hk |].
  split; [exact Hkeys |].
  split; [exact Hb' |]. split; [exact Hs' |]. split; [exact Hk' |]. exact Hkeys'.
Defined.

(** ** The description of a node *)

Lemma Token_eqb_spec (a b : Token.t) : reflect (a = b) (Token.eqb a b).
Proof. destruct a, b; constructor; (reflexivity || discriminate). Qed.

Section MapSet.
Context {V : Type}.

Lemma mapSet_keys (m : list (Token.t * V)) (k : Token.t) (v : V) (k' : Token.t) :
  In k' (map fst (mapSet m k v)) <-> k' = k \/ In k' (map fst m).
Proof.
  induction m as [| [k0 v0] m IH]; simpl; [intuition congruence |].
  destruct (Token_eqb_spec k0 k) as [-> | Hne]; simpl; [intuition congruence |].
  rewrite IH. intuition congruence.
Qed.

Lemma mapSet_NoDup (m : list (Token.t * V)) (k : Token.t) (v : V) :
  List.NoDup (map fst m) -> List.NoDup (map fst (mapSet m k v)).
Proof.
  induction m as [| [k0 v0] m IH]; simpl; intros H.
  - constructor; [intros [] | constructor].
  - inversion H as [| x l Hx Hl]; subst.
    destruct (Token_eqb_spec k0 k) as [-> | Hne]; simpl.
    + constructor; assumption.
    + constructor; [| apply IH; exact Hl].
      rewrite mapSet_keys. intros [E | Hin]; [congruence | contradiction].
Qed.

Lemma mapSet_In (m : list (Token.t * V)) (k : Token.t) (v : V) (k' : Token.t) (v' : V) :
  In (k', v') (mapSet m k v) -> (k' = k /\ v' = v) \/ In (k', v') m.
Proof.
  induction m as [| [k0 v0] m IH]; simpl.
  - intros [E | []]. injection E as <- <-. auto.
  - destruct (Token_eqb_spec k0 k) as [-> | Hne]; simpl.
    + intros [E | Hin]; [injection E as <- <-; auto | auto].
    + intros [E | Hin]; [auto |]. destruct (IH Hin) as [H | H]; auto.
Qed.

Lemma mapSet_fresh (m : list (Token.t * V)) (k : Token.t) (v : V) :
  ~ In k (map fst m) -> mapSet m k v = m ++ [(k, v)].
Proof.
  induction m as [| [k0 v0] m IH]; simpl; intros H; [reflexivity |].
  destruct (Token_eqb_spec k0 k) as [-> | Hne].
  - exfalso. apply H. left. reflexivity.
  - f_equal. apply IH. intros Hin. apply H. right. exact Hin.
Qed.

End MapSet.

Section Description.
Variable js : Builtins.
Variable fmtValue : JsValue -> string.
Variable HierarchyLevel : Type.
Variable nodeTypeToHierarchyLevel : NodeType.t -> HierarchyLevel.
Variable hierarchyLevelToTokens : HierarchyLevel -> list Token.t.
Variable node : AccessibilityTreeNode.
Variable olliVisSpec : OlliVisSpec.
Variable facetValue : option string.
Variable guide : option GuideRef.
Variable idx length : option nat.

Local Abbreviation tokenFunction :=
  (tokenFunctions js fmtValue node olliVisSpec facetValue guide idx length).
Local Abbreviation loop :=
  (describeTokens js fmtValue node olliVisSpec facetValue guide idx length).
Local Abbreviation tokens := (hierarchyLevelToTokens (nodeTypeToHierarchyLevel (type node))).

(** What the loop over the tokens adds to the entries it starts with. *)
Lemma describeTokens_Ok (tokens : list Token.t) :
  forall acc description,
    loop tokens acc = Ok description ->
    List.NoDup (map fst acc) ->
    (forall token d, In (token, d) acc -> tokenFunction token = Ok d) ->
    List.NoDup (map fst description)
    /\ (forall token, In token (map fst description)
                      <-> In token (map fst acc) \/ In token tokens)
    /\ (forall token d, In (token, d) description -> tokenFunction token = Ok d)
    /\ (List.NoDup (map fst acc ++ tokens) ->
        map fst description = map fst acc ++ tokens).
Proof.
  induction tokens as [| token tokens' IH]; intros acc description H Hnd Hacc; simpl in H.
  - inv_Ok H. split; [exact Hnd |]. split; [intros t; simpl; tauto |].
    split; [exact Hacc |]. intros _. rewrite app_nil_r. reflexivity.
  - inv_bind H.
    destruct (IH _ _ H (mapSet_NoDup acc token a Hnd)) as [H1 [H2 [H3 H4]]].
    { intros t d Hin. apply mapSet_In in Hin.
      destruct Hin as [[-> ->] | Hin]; [exact Ha | apply Hacc; exact Hin]. }
    split; [exact H1 |]. split; [| split; [exact H3 |]].
    + intros t. rewrite H2, mapSet_keys. simpl. intuition congruence.
    + intros Hall.
      assert (Hfresh : ~ In token (map fst acc)).
      { intros Hin. apply NoDup_remove_2 in Hall. apply Hall.
        apply in_or_app. left. exact Hin. }
      rewrite (mapSet_fresh acc token a Hfresh) in H4.
      rewrite map_app in H4. simpl in H4. rewrite <- app_assoc in H4. simpl in H4.
      apply H4. exact Hall.
Qed.

(** X14: a description holds one entry for each token of the level of the
    node, and nothing else; the entry of a token is what the function of
    the token returns for the node; when the level lists no token twice,
    the entries come in the order of the level. *)
Theorem description_has_the_tokens_of_the_level
    (description : list (Token.t * (string * string))) :
  nodeToDesc js fmtValue HierarchyLevel nodeTypeToHierarchyLevel hierarchyLevelToTokens
    node olliVisSpec facetValue guide idx length = Ok description ->
  List.NoDup (map fst description)
  /\ (forall token, In token (map fst description) <-> In token tokens)
  /\ (forall token d, In (token, d) description -> tokenFunction token = Ok d)
  /\ (List.NoDup tokens -> map fst description = tokens).
Proof.
  unfold nodeToDesc. intros H.
  destruct (loop tokens []) as [d | e] eqn:E; [| discriminate H].
  inv_Ok H.
  destruct (describeTokens_Ok tokens [] description E) as [H1 [H2 [H3 H4]]];
    [constructor | intros t d [] |].
  split; [exact H1 |]. split; [| split; [exact H3 | exact H4]].
  intros t. rewrite H2. simpl. tauto.
Qed.

Lemma describeTokens_Throw_inv (tokens : list Token.t) :
  forall acc msg,
    loop tokens acc = Throw msg ->
    exists token, In token tokens /\ tokenFunction token = Throw msg.
Proof.
  induction tokens as [| token tokens' IH]; intros acc msg H; simpl in H; [discriminate H |].
  destruct (tokenFunction token) as [d | e] eqn:E; simpl in H.
  - destruct (IH _ _ H) as [t [Hin Ht]]. exists t. split; [right; exact Hin | exact Ht].
  - injection H as <-. exists token. split; [left; reflexivity | exact E].
Qed.

(** The function of a token throws for a node type it has no case for. *)
Lemma not_handled_throws (token : Token.t) :
  handles (type node) token = false -> exists e, tokenFunction token = Throw e.
Proof.
  intros H.
  destruct token; simpl;
    [unfold token_name | unfold token_index | unfold token_type | unfold token_children
     | unfold token_data | unfold token_size | unfold token_parent | unfold token_aggregate];
    destruct (type node); try discriminate H; unfold notHandled; eauto.
Qed.

(** X15: a node is not described exactly when the function of one of the
    tokens of its level throws, as it does for a node type it has no case
    for; whatever was thrown, what comes out is the one message that names
    the type of the node. *)
Theorem description_fails_with_one_message :
  (forall msg,
      nodeToDesc js fmtValue HierarchyLevel nodeTypeToHierarchyLevel hierarchyLevelToTokens
        node olliVisSpec facetValue guide idx length = Throw msg
      <-> msg = ("Node type " +:+ NodeType.toString (type node)
                 +:+ " not handled in nodeToDesc")%string
          /\ exists token e, In token tokens /\ tokenFunction token = Throw e)
  /\ (forall token,
         In token tokens -> handles (type node) token = false ->
         nodeToDesc js fmtValue HierarchyLevel nodeTypeToHierarchyLevel
           hierarchyLevelToTokens node olliVisSpec facetValue guide idx length
         = Throw ("Node type " +:+ NodeType.toString (type node)
                  +:+ " not handled in nodeToDesc")%string).
Proof.
  assert (Hthrow : forall token e,
             In token tokens -> tokenFunction token = Throw e ->
             nodeToDesc js fmtValue HierarchyLevel nodeTypeToHierarchyLevel
               hierarchyLevelToTokens node olliVisSpec facetValue guide idx length
             = Throw ("Node type " +:+ NodeType.toString (type node)
                      +:+ " not handled in nodeToDesc")%string).
  { intros token e Hin He. unfold nodeToDesc.
    destruct (describeTokens_Throw js fmtValue node olliVisSpec facetValue guide idx length
                tokens token Hin (ex_intro _ e He) []) as [msg' ->].
    reflexivity. }
  split.
  - intros msg. split.
    + unfold nodeToDesc. intros H.
      destruct (loop tokens []) as [d | e] eqn:E; [discriminate H |].
      injection H as <-. split; [reflexivity |].
      destruct (describeTokens_Throw_inv _ _ _ E) as [token [Hin Ht]]. eauto.
    + intros [-> [token [e [Hin He]]]]. apply (Hthrow token e Hin He).
  - intros token Hin Hh. destruct (not_handled_throws token Hh) as [e He].
    apply (Hthrow token e Hin He).
Qed.

End Description.

Lemma description_has_the_tokens_of_the_level_witness :
  exists description,
    nodeToDesc Sample.js Sample.fmtValue Sample.HierarchyLevel
      Sample.nodeTypeToHierarchyLevel Sample.hierarchyLevelToTokens
      (newNode NodeType.chart (c_data twoAxesChart) None None None)
      (SChart twoAxesChart) None None None None = Ok description
    /\ List.NoDup (Sample.hierarchyLevelToTokens
                     (Sample.nodeTypeToHierarchyLevel NodeType.chart))
    /\ map fst description
       = Sample.hierarchyLevelToTokens (Sample.nodeTypeToHierarchyLevel NodeType.chart)
    /\ forall token d,
         In (token, d) description ->
         tokenFunctions Sample.js Sample.fmtValue
           (newNode NodeType.chart (c_data twoAxesChart) None None None)
           (SChart twoAxesChart) None None None None token = Ok d.
Proof.
  eassert (Hd : nodeToDesc Sample.js Sample.fmtValue Sample.HierarchyLevel
                  Sample.nodeTypeToHierarchyLevel Sample.hierarchyLevelToTokens
                  (newNode NodeType.chart (c_data twoAxesChart) None None None)
                  (SChart twoAxesChart) None None None None = Ok _)
    by (vm_compute; reflexivity).
  assert (Hnd : List.NoDup (Sample.hierarchyLevelToTokens
                              (Sample.nodeTypeToHierarchyLevel NodeType.chart))).
  { vm_compute. repeat constructor; simpl; intuition discriminate. }
  destruct (description_has_the_tokens_of_the_level Sample.js Sample.fmtValue
              Sample.HierarchyLevel Sample.nodeTypeToHierarchyLevel
              Sample.hierarchyLevelToTokens
              (newNode NodeType.chart (c_data twoAxesChart) None None None)
              (SChart twoAxesChart) None None None None _ Hd) as [_ [_ [H3 H4]]].
  eexists. split; [exact Hd |]. split; [exact Hnd |].
  split; [exact (H4 Hnd) | exact H3].
Defined.

Lemma description_fails_with_one_message_witness :
  nodeToDesc Sample.js Sample.fmtValue Sample.HierarchyLevel
    Sample.nodeTypeToHierarchyLevel Sample.hierarchyLevelToTokens
    (newNode NodeType.chart legendRows None None None)
    (SChart legendOnlyChart) None None None None
  = Throw "Node type chart not handled in nodeToDesc"
  /\ nodeToDesc Sample.js Sample.fmtValue unit (fun _ => tt) (fun _ => [Token.children])
       (newNode NodeType.data legendRows None None None)
       (SChart legendOnlyChart) None None None None
     = Throw "Node type data not handled in nodeToDesc".
Proof.
  split.
  - destruct (description_fails_with_one_message Sample.js Sample.fmtValue
                Sample.HierarchyLevel Sample.nodeTypeToHierarchyLevel
                Sample.hierarchyLevelToTokens
                (newNode NodeType.chart legendRows None None None)
                (SChart legendOnlyChart) None None None None) as [H _].
    apply H. split; [reflexivity |].
    exists Token.children, "TypeError".
    split; [vm_compute; tauto | vm_compute; reflexivity].
  - destruct (description_fails_with_one_message Sample.js Sample.fmtValue
                unit (fun _ => tt) (fun _ => [Token.children])
                (newNode NodeType.data legendRows None None None)
                (SChart legendOnlyChart) None None None None) as [_ H].
    apply (H Token.children); [left; reflexivity | reflexivity].
Defined.

(** ** Facets and discrete values split the rows *)

Section Keyed.
Context {A : Type} (key : A -> string).

Lemma keyed_step (s : string) (d : A) (F : string -> list A) (keys : list string) :
  List.NoDup keys ->
  Permutation
    (concat (map (fun k => if String.eqb s k then d :: F k else F k) keys))
    (if existsb (String.eqb s) keys
     then d :: concat (map F keys) else concat (map F keys)).
Proof.
  induction keys as [| k keys IH]; intros Hnd; [reflexivity |].
  inversion Hnd as [| k' keys' Hk Hkeys]; subst. cbn [map concat existsb].
  destruct (String.eqb_spec s k) as [-> | Hne]; cbn [orb].
  - assert (E : map (fun k0 => if String.eqb k k0 then d :: F k0 else F k0) keys
                = map F keys).
    { apply List.map_ext_in. intros k0 Hin.
      destruct (String.eqb_spec k k0) as [-> | _]; [contradiction | reflexivity]. }
    rewrite E. reflexivity.
  - specialize (IH Hkeys). destruct (existsb (String.eqb s) keys).
    + etransitivity; [apply Permutation_app_head; exact IH |].
      symmetry. apply Permutation_middle.
    + apply Permutation_app_head. exact IH.
Qed.

(** The rows taken key by key are the rows whose key is listed. *)
Lemma keyed_partition (keys : list string) (l : list A) :
  List.NoDup keys ->
  Permutation
    (concat (map (fun k => List.filter (fun d => String.eqb (key d) k) l) keys))
    (List.filter (fun d => existsb (String.eqb (key d)) keys) l).
Proof.
  intros Hnd. induction l as [| d l IH].
  - cbn [List.filter]. induction keys as [| k keys IHk]; [reflexivity |].
    inversion Hnd; subst. simpl. apply IHk. assumption.
  - cbn [List.filter].
    etransitivity;
      [apply (keyed_step (key d) d
                (fun k => List.filter (fun d0 => String.eqb (key d0) k) l) keys Hnd) |].
    destruct (existsb (String.eqb (key d)) keys); [apply perm_skip |]; exact IH.
Qed.

Lemma keyed_disjoint (k1 k2 : string) (l1 l2 : list A) (d : A) :
  k1 <> k2 ->
  In d (List.filter (fun d => String.eqb (key d) k1) l1) ->
  ~ In d (List.filter (fun d => String.eqb (key d) k2) l2).
Proof.
  intros Hne H1 H2. apply List.filter_In in H1, H2.
  destruct H1 as [_ H1], H2 as [_ H2]. apply String.eqb_eq in H1, H2. congruence.
Qed.

End Keyed.

Lemma Forall2_map_eq {A B C} (f : A -> C) (g : B -> C) (l : list A) (l' : list B) :
  Forall2 (fun a b => g b = f a) l l' -> map g l' = map f l.
Proof. induction 1; simpl; congruence. Qed.

Lemma Forall2_impl' {A B} (P Q : A -> B -> Prop) (l : list A) (l' : list B) :
  (forall a b, P a b -> Q a b) -> Forall2 P l l' -> Forall2 Q l l'.
Proof. intros H. induction 1; constructor; auto. Qed.

Section Partition.
Variable js : Builtins.
Variable fmtValue : JsValue -> string.
Variable HierarchyLevel : Type.
Variable nodeTypeToHierarchyLevel : NodeType.t -> HierarchyLevel.
Variable hierarchyLevelToTokens : HierarchyLevel -> list Token.t.

Local Abbreviation build_discrete :=
  (discreteChildren js fmtValue HierarchyLevel nodeTypeToHierarchyLevel
     hierarchyLevelToTokens).
Local Abbreviation build_axis :=
  (olliVisSpecToNode_axis js fmtValue HierarchyLevel nodeTypeToHierarchyLevel
     hierarchyLevelToTokens).
Local Abbreviation build_legend :=
  (olliVisSpecToNode_legend js fmtValue HierarchyLevel nodeTypeToHierarchyLevel
     hierarchyLevelToTokens).
Local Abbreviation build_multiView :=
  (olliVisSpecToNode_multiView js fmtValue HierarchyLevel nodeTypeToHierarchyLevel
     hierarchyLevelToTokens).

(** The rows of children that filter one list by the keys of a list. *)
Lemma keyed_children (key : OlliDatum -> string) (keys : list string)
    (sel : OlliDataset) (cs : list AccessibilityTreeNode) :
  List.NoDup keys ->
  map selected cs = map (fun k => List.filter (fun d => String.eqb (key d) k) sel) keys ->
  Permutation (concat (map selected cs))
              (List.filter (fun d => existsb (String.eqb (key d)) keys) sel)
  /\ forall i j ci cj d,
       i <> j -> nth_error cs i = Some ci -> nth_error cs j = Some cj ->
       In d (selected ci) -> ~ In d (selected cj).
Proof.
  intros Hnd Hmap. split.
  - rewrite Hmap. apply keyed_partition. exact Hnd.
  - intros i j ci cj d Hij Hi Hj.
    apply (map_nth_error selected) in Hi, Hj. rewrite Hmap in Hi, Hj.
    rewrite nth_error_map in Hi, Hj.
    destruct (nth_error keys i) as [ki |] eqn:Ei; [| discriminate Hi].
    destruct (nth_error keys j) as [kj |] eqn:Ej; [| discriminate Hj].
    simpl in Hi, Hj. injection Hi as <-. injection Hj as <-.
    apply keyed_disjoint. intros ->.
    apply Hij. apply (proj1 (List.NoDup_nth_error keys) Hnd); [| congruence].
    apply nth_error_Some. congruence.
Qed.

(** X16: the facets split the rows.  The keys of the facets being
    distinct, the rows of the charts of a [multiView] node are, taken
    together, the rows of the node whose facet value, as a string, is one of
    the keys, each as often as it occurs there; and no row belongs to two
    charts. *)
Theorem facets_split_the_rows sel par (f : FacetedChart) fu n :
  List.NoDup (map fst (charts f)) ->
  build_multiView sel par f fu = Ok n ->
  Permutation (childrenSelected n)
    (List.filter
       (fun d : OlliDatum =>
          existsb (String.eqb (ToString js (d !! facetedField f))) (map fst (charts f)))
       sel)
  /\ forall i j ci cj d,
       i <> j -> nth_error (children n) i = Some ci -> nth_error (children n) j = Some cj ->
       In d (selected ci) -> ~ In d (selected cj).
Proof.
  intros Hnd H. apply multiView_shape in H. destruct H as [d [cs [-> Hcs]]].
  unfold childrenSelected. cbn [children].
  apply (keyed_children (fun d : OlliDatum => ToString js (d !! facetedField f)));
    [exact Hnd |].
  rewrite List.map_map. apply Forall2_map_eq.
  apply mapiM_from_Forall2 in Hcs. revert Hcs. apply Forall2_impl'.
  intros entry c [k Hb]. apply chart_tree in Hb. apply Hb.
Qed.

Lemma discrete_rows ty sel chart fu fv guide cs :
  build_discrete ty sel chart fu fv guide = Ok cs ->
  map selected cs
  = map (fun k => List.filter
                    (fun d : OlliDatum =>
                       String.eqb (ToString js (d !! g_field (guideOf guide))) k) sel)
        (map (fun v => ToString js (Some v)) (g_values (guideOf guide))).
Proof.
  unfold discreteChildren. intros H.
  rewrite List.map_map. apply Forall2_map_eq.
  apply mapiM_from_Forall2 in H. revert H. apply Forall2_impl'.
  intros value c [k Hb]. apply filteredData_tree in Hb. apply Hb.
Qed.

(** X17: the values of a discrete guide split the rows.  The values
    being distinct as strings, the rows of the children of a discrete axis,
    or of a discrete legend, are, taken together, the rows of the node
    whose value for the field of the guide is, as a string, one of the
    values, each as often as it occurs there; and no row belongs to two
    children. *)
Theorem discrete_values_split_the_rows (guide : Guide) (n : AccessibilityTreeNode) :
  g_type guide = discrete ->
  List.NoDup (map (fun v => ToString js (Some v)) (g_values guide)) ->
  (exists ty sel par chart fu fv (axis : Axis),
      axisGuide axis = guide /\ build_axis ty sel par chart fu fv axis = Ok n)
  \/ (exists sel par chart fu fv (legend : Legend),
         legendGuide legend = guide /\ build_legend sel par chart fu fv legend = Ok n) ->
  Permutation (childrenSelected n)
    (List.filter
       (fun d : OlliDatum =>
          existsb (String.eqb (ToString js (d !! g_field guide)))
                  (map (fun v => ToString js (Some v)) (g_values guide)))
       (selected n))
  /\ forall i j ci cj d,
       i <> j -> nth_error (children n) i = Some ci -> nth_error (children n) j = Some cj ->
       In d (selected ci) -> ~ In d (selected cj).
Proof.
  intros Hty Hnd [[ty [sel [par [chart [fu [fv [axis [<- H]]]]]]]]
                 | [sel [par [chart [fu [fv [legend [<- H]]]]]]]].
  - apply axis_shape in H. destruct H as [d [cs [-> Hcs]]].
    rewrite Hty in Hcs. unfold childrenSelected. cbn [children selected].
    apply (keyed_children (fun d : OlliDatum => ToString js (d !! g_field axis)));
      [exact Hnd |].
    apply discrete_rows in Hcs. exact Hcs.
  - apply legend_shape in H. destruct H as [d [cs [-> Hcs]]].
    rewrite Hty in Hcs. unfold childrenSelected. cbn [children selected].
    apply (keyed_children (fun d : OlliDatum => ToString js (d !! g_field legend)));
      [exact Hnd |].
    apply discrete_rows in Hcs. exact Hcs.
Qed.

End Partition.

Lemma facets_split_the_rows_witness :
  exists n,
    List.NoDup (map fst (charts facetedBars))
    /\ olliVisSpecToNode_multiView Sample.js Sample.fmtValue Sample.HierarchyLevel
         Sample.nodeTypeToHierarchyLevel Sample.hierarchyLevelToTokens
         regionRows None facetedBars ["k"; "b"] = Ok n
    /\ Permutation (childrenSelected n)
         (List.filter
            (fun d : OlliDatum =>
               existsb (String.eqb (ToString Sample.js (d !! facetedField facetedBars)))
                       (map fst (charts facetedBars)))
            regionRows).
Proof.
  assert (Hnd : List.NoDup (map fst (charts facetedBars))).
  { simpl. repeat constructor; simpl; intuition discriminate. }
  eassert (Hb : olliVisSpecToNode_multiView Sample.js Sample.fmtValue Sample.HierarchyLevel
                  Sample.nodeTypeToHierarchyLevel Sample.hierarchyLevelToTokens
                  regionRows None facetedBars ["k"; "b"] = Ok _)
    by (vm_compute; reflexivity).
  eexists. split; [exact Hnd |]. split; [exact Hb |].
  apply (facets_split_the_rows Sample.js Sample.fmtValue Sample.HierarchyLevel
           Sample.nodeTypeToHierarchyLevel Sample.hierarchyLevelToTokens
           regionRows None facetedBars ["k"; "b"] _ Hnd Hb).
Defined.

Lemma discrete_values_split_the_rows_witness :
  exists n,
    g_type regionAxis = discrete
    /\ List.NoDup (map (fun v => ToString Sample.js (Some v)) (g_values regionAxis))
    /\ olliVisSpecToNode_axis Sample.js Sample.fmtValue Sample.HierarchyLevel
         Sample.nodeTypeToHierarchyLevel Sample.hierarchyLevelToTokens
         NodeType.xAxis regionRows (Some NodeType.chart) regionChart ["b"; "k"] None
         regionAxis = Ok n
    /\ Permutation (childrenSelected n)
         (List.filter
            (fun d : OlliDatum =>
               existsb (String.eqb (ToString Sample.js (d !! g_field regionAxis)))
                       (map (fun v => ToString Sample.js (Some v)) (g_values regionAxis)))
            (selected n)).
Proof.
  assert (Hty : g_type regionAxis = discrete) by reflexivity.
  assert (Hnd : List.NoDup (map (fun v => ToString Sample.js (Some v))
                              (g_values regionAxis))).
  { vm_compute. repeat constructor; simpl; intuition discriminate. }
  eassert (Hb : olliVisSpecToNode_axis Sample.js Sample.fmtValue Sample.HierarchyLevel
                  Sample.nodeTypeToHierarchyLevel Sample.hierarchyLevelToTokens
                  NodeType.xAxis regionRows (Some NodeType.chart) regionChart ["b"; "k"]
                  None regionAxis = Ok _)
    by (vm_compute; reflexivity).
  eexists. split; [exact Hty |]. split; [exact Hnd |]. split; [exact Hb |].
  apply (discrete_values_split_the_rows Sample.js Sample.fmtValue Sample.HierarchyLevel
           Sample.nodeTypeToHierarchyLevel Sample.hierarchyLevelToTokens
           regionAxis _ Hty Hnd).
  left. exists NodeType.xAxis, regionRows, (Some NodeType.chart), regionChart,
    ["b"; "k"], None, regionAxis.
  split; [reflexivity | exact Hb].
Defined.

(** ** The descriptions in the tree *)

Lemma mapiM_nth {A B} (f : A -> nat -> result B) (l : list A) (bs : list B)
    (k : nat) (b : B) :
  mapiM f l = Ok bs -> nth_error bs k = Some b ->
  exists a, nth_error l k = Some a /\ f a k = Ok b.
Proof.
  intros H Hk. destruct (mapiM_Ok _ _ _ H) as [Hlen Hnth].
  assert (Hlt : (k < List.length l)%nat).
  { rewrite <- Hlen. apply nth_error_Some. congruence. }
  destruct (nth_error l k) as [a |] eqn:Ea.
  - destruct (Hnth k a Ea) as [b' [Hb' Hf]]. exists a. split; congruence.
  - apply nth_error_None in Ea. lia.
Qed.

Lemma description_entries js fmtValue (HierarchyLevel : Type)
    (nodeTypeToHierarchyLevel : NodeType.t -> HierarchyLevel)
    (hierarchyLevelToTokens : HierarchyLevel -> list Token.t)
    node spec fv guide idx len (description : list (Token.t * (string * string))) :
  nodeToDesc js fmtValue HierarchyLevel nodeTypeToHierarchyLevel hierarchyLevelToTokens
    node spec fv guide idx len = Ok description ->
  List.NoDup (map fst description)
  /\ (forall token,
         In token (map fst description)
         <-> In token (hierarchyLevelToTokens (nodeTypeToHierarchyLevel (type node))))
  /\ (forall token d,
         In (token, d) description ->
         tokenFunctions js fmtValue node spec fv guide idx len token = Ok d).
Proof.
  unfold nodeToDesc. intros H.
  destruct (describeTokens js fmtValue node spec fv guide idx len
              (hierarchyLevelToTokens (nodeTypeToHierarchyLevel (type node))) [])
    as [d | e] eqn:E; [| discriminate H].
  inv_Ok H.
  destruct (describeTokens_Ok js fmtValue node spec fv guide idx len _ [] description E)
    as [H1 [H2 [H3 _]]]; [constructor | intros t d [] |].
  split; [exact H1 |]. split; [| exact H3].
  intros t. rewrite H2. simpl. tauto.
Qed.

Section Described.
Variable js : Builtins.
Variable fmtValue : JsValue -> string.
Variable HierarchyLevel : Type.
Variable nodeTypeToHierarchyLevel : NodeType.t -> HierarchyLevel.
Variable hierarchyLevelToTokens : HierarchyLevel -> list Token.t.

Local Abbreviation describe :=
  (describeNode js fmtValue HierarchyLevel nodeTypeToHierarchyLevel hierarchyLevelToTokens).
Local Abbreviation build_data :=
  (olliVisSpecToNode_data js fmtValue HierarchyLevel nodeTypeToHierarchyLevel
     hierarchyLevelToTokens).
Local Abbreviation build_filteredData :=
  (olliVisSpecToNode_filteredData js fmtValue HierarchyLevel nodeTypeToHierarchyLevel
     hierarchyLevelToTokens).
Local Abbreviation build_discrete :=
  (discreteChildren js fmtValue HierarchyLevel nodeTypeToHierarchyLevel
     hierarchyLevelToTokens).
Local Abbreviation build_axis :=
  (olliVisSpecToNode_axis js fmtValue HierarchyLevel nodeTypeToHierarchyLevel
     hierarchyLevelToTokens).
Local Abbreviation build_legend :=
  (olliVisSpecToNode_legend js fmtValue HierarchyLevel nodeTypeToHierarchyLevel
     hierarchyLevelToTokens).
Local Abbreviation build_grid :=
  (olliVisSpecToNode_grid js fmtValue HierarchyLevel nodeTypeToHierarchyLevel
     hierarchyLevelToTokens).
Local Abbreviation build_chart :=
  (olliVisSpecToNode_chart js fmtValue HierarchyLevel nodeTypeToHierarchyLevel
     hierarchyLevelToTokens).
Local Abbreviation build_multiView :=
  (olliVisSpecToNode_multiView js fmtValue HierarchyLevel nodeTypeToHierarchyLevel
     hierarchyLevelToTokens).
Local Abbreviation tokensOf t := (hierarchyLevelToTokens (nodeTypeToHierarchyLevel t)).

(** The entry of a token of the level in the description of a node. *)
Lemma described_entry node spec fv guide idx len n (token : Token.t) :
  describe node spec fv guide idx len = Ok n ->
  In token (tokensOf (type node)) ->
  exists d,
    In (token, d) (description n)
    /\ tokenFunctions js fmtValue node spec fv guide idx len token = Ok d.
Proof.
  unfold describeNode. intros H Hin. inv_bind H. inv_Ok H. cbn [description withDescription].
  destruct (description_entries js fmtValue HierarchyLevel nodeTypeToHierarchyLevel
              hierarchyLevelToTokens node spec fv guide idx len a Ha) as [_ [H2 H3]].
  apply H2 in Hin. apply List.in_map_iff in Hin. destruct Hin as [[t d] [Ht Hin]].
  simpl in Ht. subst t. exists d. split; [exact Hin | apply H3; exact Hin].
Qed.

Section Lift.
(** A property that holds of a node as it comes out of [nodeToDesc] holds
    of every node of what the cases of the builder return. *)
Variable P : AccessibilityTreeNode -> Prop.
Hypothesis P_described :
  forall node spec fv guide idx len n,
    describe node spec fv guide idx len = Ok n -> P n.

Lemma data_desc sel par chart fu fv guide index length n :
  build_data sel par chart fu fv guide index length = Ok n -> Forall_tree P n.
Proof.
  intros H.
  assert (Hn : P n)
    by (unfold olliVisSpecToNode_data in H; eapply P_described; exact H).
  apply data_shape in H. destruct H as [d [keys ->]].
  constructor; [exact Hn | constructor].
Qed.

Lemma node_desc n (cs : list AccessibilityTreeNode) :
  P n -> children n = cs -> (forall c, In c cs -> Forall_tree P c) -> Forall_tree P n.
Proof.
  intros Hn <- H. constructor; [exact Hn |]. rewrite List.Forall_forall. exact H.
Qed.

Lemma filteredData_desc sel par chart fu fv filt guide index length gi n :
  build_filteredData sel par chart fu fv filt guide index length gi = Ok n ->
  Forall_tree P n.
Proof.
  intros H.
  assert (Hn : P n)
    by (unfold olliVisSpecToNode_filteredData in H; inv_bind H;
        eapply P_described; exact H).
  apply filteredData_shape in H. destruct H as [d [cs [-> Hcs]]].
  apply (node_desc _ cs Hn eq_refl). intros c Hc.
  destruct (mapiM_Ok_In _ _ _ _ Hcs Hc) as [k [r [_ Hb]]].
  eapply data_desc; eauto.
Qed.

Lemma discrete_desc ty sel chart fu fv guide cs :
  build_discrete ty sel chart fu fv guide = Ok cs ->
  forall c, In c cs -> Forall_tree P c.
Proof.
  unfold discreteChildren. intros H c Hc.
  destruct (mapiM_Ok_In _ _ _ _ H Hc) as [k [value [_ Hb]]].
  eapply filteredData_desc; eauto.
Qed.

Lemma axis_desc ty sel par chart fu fv (axis : Axis) n :
  build_axis ty sel par chart fu fv axis = Ok n -> Forall_tree P n.
Proof.
  intros H.
  assert (Hn : P n)
    by (unfold olliVisSpecToNode_axis in H; inv_bind H; eapply P_described; exact H).
  apply axis_shape in H. destruct H as [d [cs [-> Hcs]]].
  apply (node_desc _ cs Hn eq_refl). destruct (g_type axis).
  - eapply discrete_desc; eauto.
  - intros c Hc. destruct (mapiM_Ok_In _ _ _ _ Hcs Hc) as [k [ab [_ Hb]]].
    eapply filteredData_desc; eauto.
Qed.

Lemma legend_desc sel par chart fu fv (legend : Legend) n :
  build_legend sel par chart fu fv legend = Ok n -> Forall_tree P n.
Proof.
  intros H.
  assert (Hn : P n)
    by (unfold olliVisSpecToNode_legend in H; inv_bind H; eapply P_described; exact H).
  apply legend_shape in H. destruct H as [d [cs [-> Hcs]]].
  apply (node_desc _ cs Hn eq_refl). destruct (g_type legend).
  - eapply discrete_desc; eauto.
  - subst cs. intros c [].
Qed.

Lemma grid_desc sel par chart fu fv n :
  build_grid sel par chart fu fv = Ok n -> Forall_tree P n.
Proof.
  intros H.
  assert (Hn : P n).
  { unfold olliVisSpecToNode_grid in H.
    destruct (List.find isX (axes chart)); [| discriminate H].
    destruct (List.find isY (axes chart)); [| discriminate H].
    inv_bind H. eapply P_described; exact H. }
  apply grid_shape in H.
  destruct H as [xa [ya [d [cs [_ [_ [-> Hcs]]]]]]].
  apply (node_desc _ cs Hn eq_refl). intros c Hc.
  destruct (mapiM_Ok_In _ _ _ _ Hcs Hc) as [k [cell [_ Hb]]].
  eapply filteredData_desc; eauto.
Qed.

Lemma chart_desc sel par chart fu fv index length n :
  build_chart sel par chart fu fv index length = Ok n -> Forall_tree P n.
Proof.
  intros H.
  assert (Hn : P n)
    by (unfold olliVisSpecToNode_chart in H; inv_bind H; inv_bind H; inv_bind H;
        eapply P_described; exact H).
  apply chart_shape in H.
  destruct H as [d [axisNodes [legendNodes [gridNodes [-> [Ha [Hl Hg]]]]]]].
  apply (node_desc _ _ Hn eq_refl). intros c Hc.
  apply in_app_or in Hc. destruct Hc as [Hc | Hc].
  - destruct (mapM_Ok_In _ _ _ _ Ha Hc) as [axis [_ Hb]]. eapply axis_desc; eauto.
  - apply in_app_or in Hc. destruct Hc as [Hc | Hc].
    + destruct (mapM_Ok_In _ _ _ _ Hl Hc) as [legend [_ Hb]]. eapply legend_desc; eauto.
    + destruct (hasGrid chart); [| subst gridNodes; destruct Hc].
      destruct Hg as [g [Hb ->]]. destruct Hc as [<- | []].
      eapply grid_desc; eauto.
Qed.

Lemma multiView_desc sel par (f : FacetedChart) fu n :
  build_multiView sel par f fu = Ok n -> Forall_tree P n.
Proof.
  intros H.
  assert (Hn : P n)
    by (unfold olliVisSpecToNode_multiView in H; inv_bind H;
        eapply P_described; exact H).
  apply multiView_shape in H. destruct H as [d [cs [-> Hcs]]].
  apply (node_desc _ cs Hn eq_refl). intros c Hc.
  destruct (mapiM_Ok_In _ _ _ _ Hcs Hc) as [k [entry [_ Hb]]].
  eapply chart_desc; eauto.
Qed.

End Lift.

Lemma described_node node spec fv guide idx len n :
  describe node spec fv guide idx len = Ok n ->
  describedNode HierarchyLevel nodeTypeToHierarchyLevel hierarchyLevelToTokens n.
Proof.
  intros H. pose proof H as Hd. unfold describeNode in Hd. inv_bind Hd. inv_Ok Hd.
  destruct (description_entries js fmtValue HierarchyLevel nodeTypeToHierarchyLevel
              hierarchyLevelToTokens node spec fv guide idx len a Ha) as [H1 [H2 _]].
  unfold describedNode. cbn [description children type withDescription].
  split; [exact H1 |]. split; [exact H2 |]. split.
  - intros token Hin. destruct (described_entry _ _ _ _ _ _ _ token H Hin) as [d [_ Hd]].
    destruct (handles (type node) token) eqn:E; [reflexivity |].
    destruct (not_handled_throws js fmtValue node spec fv guide idx len token E) as [e He].
    congruence.
  - intros Hin. destruct (described_entry _ _ _ _ _ _ _ Token.size H Hin) as [d [Hd Hf]].
    cbn [description withDescription] in Hd.
    cbn [tokenFunctions] in Hf. unfold token_size, nChildren in Hf.
    destruct (type node); try discriminate Hf; inv_Ok Hf; exact Hd.
Qed.

(** X18: every node of the tree that is built is described.  Its
    description has one entry for each token of its level, and no other;
    the function of each of these tokens has a [case] for the type of the
    node; and the size that it gives, where it gives one, is the number of
    children of the node. *)
Theorem every_node_is_described (olliVisSpec : OlliVisSpec) (tree : AccessibilityTree) :
  olliVisSpecToTree js fmtValue HierarchyLevel nodeTypeToHierarchyLevel
    hierarchyLevelToTokens olliVisSpec = Ok tree ->
  forall n, subnode n (root tree) ->
            describedNode HierarchyLevel nodeTypeToHierarchyLevel hierarchyLevelToTokens n.
Proof.
  unfold olliVisSpecToTree. intros H n Hsub.
  destruct olliVisSpec as [c | f]; inv_bind H; inv_Ok H; cbn [root] in Hsub;
    apply (Forall_tree_subnode _ _ _ Hsub).
  - eapply chart_desc; [| exact Ha]. apply described_node.
  - eapply multiView_desc; [| exact Ha]. apply described_node.
Qed.

Lemma filteredData_index sel par chart fu fv filt guide k len gi c :
  build_filteredData sel par chart fu fv filt guide (Some k) (Some len) gi = Ok c ->
  In Token.index (tokensOf (type c)) ->
  In (Token.index, fill2 (natToString (k + 1) +:+ " of " +:+ natToString len))
     (description c).
Proof.
  intros H Hin. pose proof H as Hs. apply filteredData_shape in Hs.
  destruct Hs as [d [cs [Hc _]]]. rewrite Hc in Hin. cbn [type] in Hin.
  unfold olliVisSpecToNode_filteredData in H. inv_bind H.
  destruct (described_entry _ _ _ _ _ _ _ Token.index H Hin) as [v [Hv Hf]].
  inv_Ok Hf. exact Hv.
Qed.

Lemma chart_index sel par chart fu fv k len c :
  build_chart sel par chart fu fv (Some k) (Some len) = Ok c ->
  In Token.index (tokensOf (type c)) ->
  In (Token.index, fill2 (natToString (k + 1) +:+ " of " +:+ natToString len))
     (description c).
Proof.
  intros H Hin. pose proof H as Hs. apply chart_shape in Hs.
  destruct Hs as [d [an [ln [gn [Hc _]]]]]. rewrite Hc in Hin. cbn [type] in Hin.
  unfold olliVisSpecToNode_chart in H. inv_bind H. inv_bind H. inv_bind H.
  destruct (described_entry _ _ _ _ _ _ _ Token.index H Hin) as [v [Hv Hf]].
  inv_Ok Hf. exact Hv.
Qed.

(** X19: the children are numbered by their position.  Under an axis, a
    legend or a [multiView] node, the index of the child at position [k],
    where the level of the child has one, reads [k + 1] of the number of
    children. *)
Theorem children_are_numbered (n : AccessibilityTreeNode) :
  (exists ty sel par chart fu fv (axis : Axis),
      build_axis ty sel par chart fu fv axis = Ok n)
  \/ (exists sel par chart fu fv (legend : Legend),
         build_legend sel par chart fu fv legend = Ok n)
  \/ (exists sel par (f : FacetedChart) fu, build_multiView sel par f fu = Ok n) ->
  forall (k : nat) (c : AccessibilityTreeNode),
    nth_error (children n) k = Some c ->
    In Token.index (tokensOf (type c)) ->
    In (Token.index,
        fill2 (natToString (k + 1) +:+ " of " +:+ natToString (List.length (children n))))
       (description c).
Proof.
  assert (Hdiscrete : forall ty sel chart fu fv guide cs k c,
             build_discrete ty sel chart fu fv guide = Ok cs ->
             nth_error cs k = Some c ->
             In Token.index (tokensOf (type c)) ->
             In (Token.index,
                 fill2 (natToString (k + 1) +:+ " of " +:+ natToString (List.length cs)))
                (description c)).
  { unfold discreteChildren. intros ty sel chart fu fv guide cs k c H Hk Hin.
    destruct (mapiM_Ok _ _ _ H) as [-> _].
    destruct (mapiM_nth _ _ _ _ _ H Hk) as [value [_ Hb]].
    apply (filteredData_index _ _ _ _ _ _ _ _ _ _ _ Hb Hin). }
  intros [[ty [sel [par [chart [fu [fv [axis H]]]]]]]
         | [[sel [par [chart [fu [fv [legend H]]]]]]
           | [sel [par [f [fu H]]]]]] k c Hk Hin.
  - apply axis_shape in H. destruct H as [d [cs [-> Hcs]]]. cbn [children] in *.
    destruct (g_type axis); [eapply Hdiscrete; eauto |].
    destruct (mapiM_Ok _ _ _ Hcs) as [-> _].
    destruct (mapiM_nth _ _ _ _ _ Hcs Hk) as [ab [_ Hb]].
    apply (filteredData_index _ _ _ _ _ _ _ _ _ _ _ Hb Hin).
  - apply legend_shape in H. destruct H as [d [cs [-> Hcs]]]. cbn [children] in *.
    destruct (g_type legend); [eapply Hdiscrete; eauto |].
    subst cs. destruct k; discriminate Hk.
  - apply multiView_shape in H. destruct H as [d [cs [-> Hcs]]]. cbn [children] in *.
    destruct (mapiM_Ok _ _ _ Hcs) as [-> _].
    destruct (mapiM_nth _ _ _ _ _ Hcs Hk) as [entry [_ Hb]].
    apply (chart_index _ _ _ _ _ _ _ _ Hb Hin).
Qed.

End Described.

Lemma every_node_is_described_witness :
  exists tree n,
    Sample.buildTree (SChart scatterChart) = Ok tree
    /\ descendant [0]%nat (root tree) = Some n
    /\ describedNode Sample.HierarchyLevel Sample.nodeTypeToHierarchyLevel
         Sample.hierarchyLevelToTokens n.
Proof.
  eassert (Hb : Sample.buildTree (SChart scatterChart) = Ok _)
    by (vm_compute; reflexivity).
  match type of Hb with
  | _ = Ok ?t =>
      eassert (Hs : descendant [0]%nat (root t) = Some _) by (vm_compute; reflexivity)
  end.
  eexists. eexists. split; [exact Hb |]. split; [exact Hs |].
  apply (every_node_is_described Sample.js Sample.fmtValue Sample.HierarchyLevel
           Sample.nodeTypeToHierarchyLevel Sample.hierarchyLevelToTokens
           (SChart scatterChart) _ Hb _ (descendant_subnode [0]%nat _ _ Hs)).
Defined.

Lemma children_are_numbered_witness :
  exists n c,
    olliVisSpecToNode_axis Sample.js Sample.fmtValue Sample.HierarchyLevel
      Sample.nodeTypeToHierarchyLevel Sample.hierarchyLevelToTokens
      NodeType.xAxis (c_data scatterChart) (Some NodeType.chart) scatterChart
      ["a"; "b"] None scatterX = Ok n
    /\ nth_error (children n) 1 = Some c
    /\ In Token.index
          (Sample.hierarchyLevelToTokens (Sample.nodeTypeToHierarchyLevel (type c)))
    /\ In (Token.index,
           fill2 (natToString (1 + 1) +:+ " of "
                  +:+ natToString (List.length (children n))))
          (description c).
Proof.
  eassert (Hb : olliVisSpecToNode_axis Sample.js Sample.fmtValue Sample.HierarchyLevel
                  Sample.nodeTypeToHierarchyLevel Sample.hierarchyLevelToTokens
                  NodeType.xAxis (c_data scatterChart) (Some NodeType.chart) scatterChart
                  ["a"; "b"] None scatterX = Ok _) by (vm_compute; reflexivity).
  match type of Hb with
  | _ = Ok ?t =>
      eassert (Hk : nth_error (children t) 1 = Some _) by (vm_compute; reflexivity)
  end.
  match type of Hk with
  | _ = Some ?c =>
      assert (Hin : In Token.index
                       (Sample.hierarchyLevelToTokens
                          (Sample.nodeTypeToHierarchyLevel (type c))))
        by (vm_compute; tauto)
  end.
  eexists. eexists. split; [exact Hb |]. split; [exact Hk |]. split; [exact Hin |].
  apply (children_are_numbered Sample.js Sample.fmtValue Sample.HierarchyLevel
           Sample.nodeTypeToHierarchyLevel Sample.hierarchyLevelToTokens _);
    [| exact Hk | exact Hin].
  left. exists NodeType.xAxis, (c_data scatterChart), (Some NodeType.chart), scatterChart,
    ["a"; "b"], None, scatterX.
  exact Hb.
Defined.
